(** * A music playlist manager: tracks, playlists, JSON persistence

    Shallow embedding of the [Track] and [Playlist] classes of
    [noop10_1.py] (the same classes, line for line, open [noop10_2.py]),
    of the commands built on them, and proofs of the properties its
    specification states about them.

    Conventions of the embedding.
    - A Python [str] is a [string]: the bytes of its UTF-8 encoding, so
      every text that can be written to a file. [strip], [lower] and [int]
      work on its code points, with the tables of the Unicode database
      (version 14.0) that CPython 3.11 carries.
    - A Python [int] is a [Z].
    - A [timedelta] is its exact length in microseconds, within the range
      the [datetime] module accepts. [d.total_seconds()] is a double, the
      one nearest to the microseconds divided by 10**6.
    - A raised exception is the [Raise] branch of [result].
    - A parsed JSON document is a [json] value; its numbers are integers,
      the only numbers this program writes, and an object is the list of
      its items, every key once. *)

From Stdlib Require Import ZArith NArith String Ascii List Lia.
From Stdlib Require Import Decimal DecimalString DecimalN.
From stdpp Require Import base option list gmap strings sorting.

Local Open Scope string_scope.
Local Open Scope Z_scope.
Local Set Warnings "-register-all".
Local Set Warnings "-clear-no-such-hyp".

(** ** Exceptions *)

(** [IntError text] is the [ValueError] that [int(text)] raises; its
    message quotes the text, or tells the number of its digits. *)
Inductive exn : Type :=
  | ValueError (msg : string)
  | IntError (text : string)
  | KeyError (key : string)
  | TypeError
  | AttributeError
  | OverflowError
  | FileNotFoundError
  | JSONDecodeError
  | PermissionError.

Inductive result (A : Type) : Type :=
  | Ok (a : A)
  | Raise (e : exn).
Arguments Ok {A} a.
Arguments Raise {A} e.

#[global] Instance result_ret : MRet result := fun A a => Ok a.
#[global] Instance result_bind : MBind result := fun A B f m =>
  match m with
  | Ok a => f a
  | Raise e => Raise e
  end.

Definition is_ok {A} (r : result A) : bool :=
  match r with Ok _ => true | Raise _ => false end.

#[global] Instance exn_eq_dec : EqDecision exn.
Proof. solve_decision. Defined.

(** ** Python built-ins used by the program *)

Module Py.

(** *** Text as code points

    A [str] is held as the bytes of its UTF-8 encoding; [decode] gives
    its code points. A byte that begins no well-formed character, which
    the encoding of a [str] never holds, is kept as a value above the
    code points, so that [encode] gives every byte back. *)

Definition raw_byte : N := 1114112.

Definition continuation (c : ascii) : option N :=
  let n := N_of_ascii c in
  if (128 <=? n)%N && (n <? 192)%N then Some (n - 128)%N else None.

(** The character that starts with the byte [c], followed by [r]: its
    code point and the number of bytes of [r] that belong to it. *)
Definition first_char (c : ascii) (r : string) : N * nat :=
  let n := N_of_ascii c in
  let raw := ((raw_byte + n)%N, 0%nat) in
  if (n <? 128)%N then (n, 0%nat)
  else if (n <? 194)%N then raw
  else if (n <? 224)%N then
    match r with
    | String c1 _ =>
        match continuation c1 with
        | Some x => (((n - 192) * 64 + x)%N, 1%nat)
        | None => raw
        end
    | _ => raw
    end
  else if (n <? 240)%N then
    match r with
    | String c1 (String c2 _) =>
        match continuation c1, continuation c2 with
        | Some x, Some y =>
            let cp := ((n - 224) * 4096 + x * 64 + y)%N in
            if (2048 <=? cp)%N && negb ((55296 <=? cp)%N && (cp <=? 57343)%N)
            then (cp, 2%nat) else raw
        | _, _ => raw
        end
    | _ => raw
    end
  else if (n <? 245)%N then
    match r with
    | String c1 (String c2 (String c3 _)) =>
        match continuation c1, continuation c2, continuation c3 with
        | Some x, Some y, Some z =>
            let cp := ((n - 240) * 262144 + x * 4096 + y * 64 + z)%N in
            if (65536 <=? cp)%N && (cp <? raw_byte)%N then (cp, 3%nat) else raw
        | _, _, _ => raw
        end
    | _ => raw
    end
  else raw.

(** [skip] bytes are still to be passed over: they belong to the
    character read last. *)
Fixpoint decode_from (skip : nat) (s : string) : list N :=
  match s with
  | EmptyString => []
  | String c r =>
      match skip with
      | S k => decode_from k r
      | O => let '(cp, k) := first_char c r in cp :: decode_from k r
      end
  end.

Definition decode (s : string) : list N := decode_from 0 s.

Definition encode_char (cp : N) : string :=
  if (cp <? 128)%N then String (ascii_of_N cp) ""
  else if (cp <? 2048)%N then
    String (ascii_of_N (192 + cp / 64)) (String (ascii_of_N (128 + cp mod 64)) "")
  else if (cp <? 65536)%N then
    String (ascii_of_N (224 + cp / 4096))
      (String (ascii_of_N (128 + cp / 64 mod 64))
         (String (ascii_of_N (128 + cp mod 64)) ""))
  else if (cp <? raw_byte)%N then
    String (ascii_of_N (240 + cp / 262144))
      (String (ascii_of_N (128 + cp / 4096 mod 64))
         (String (ascii_of_N (128 + cp / 64 mod 64))
            (String (ascii_of_N (128 + cp mod 64)) "")))
  else String (ascii_of_N (cp - raw_byte)) "".

Fixpoint encode (l : list N) : string :=
  match l with
  | [] => ""
  | cp :: r => encode_char cp +:+ encode r
  end.

(** *** The Unicode database

    The tables of version 14.0 of the database, the one CPython 3.11
    carries, as ranges of code points. *)

Definition in_ranges (table : list (N * N)) (c : N) : bool :=
  existsb (fun '(lo, hi) => (lo <=? c)%N && (c <=? hi)%N) table.

Definition whitespace : list (N * N) :=
  [
    (9, 13); (28, 32); (133, 133); (160, 160); (5760, 5760); (8192, 8202);
    (8232, 8233); (8239, 8239); (8287, 8287); (12288, 12288) ]%N.

Definition decimal_zeros : list N :=
  [
    48; 1632; 1776; 1984; 2406; 2534; 2662; 2790; 2918; 3046;
    3174; 3302; 3430; 3558; 3664; 3792; 3872; 4160; 4240; 6112;
    6160; 6470; 6608; 6784; 6800; 6992; 7088; 7232; 7248; 42528;
    43216; 43264; 43472; 43504; 43600; 44016; 65296; 66720; 68912; 69734;
    69872; 69942; 70096; 70384; 70736; 70864; 71248; 71360; 71472; 71904;
    72016; 72784; 73040; 73120; 92768; 92864; 93008; 120782; 120792; 120802;
    120812; 120822; 123200; 123632; 125264; 130032 ]%N.

Definition lower_table : list (N * N * N * N) :=
  [
    (65, 90, 1, 97); (192, 214, 1, 224); (216, 222, 1, 248); (256, 302, 2, 257);
    (306, 310, 2, 307); (313, 327, 2, 314); (330, 374, 2, 331); (376, 376, 1, 255);
    (377, 381, 2, 378); (385, 385, 1, 595); (386, 388, 2, 387); (390, 390, 1, 596);
    (391, 391, 1, 392); (393, 394, 1, 598); (395, 395, 1, 396); (398, 398, 1, 477);
    (399, 399, 1, 601); (400, 400, 1, 603); (401, 401, 1, 402); (403, 403, 1, 608);
    (404, 404, 1, 611); (406, 406, 1, 617); (407, 407, 1, 616); (408, 408, 1, 409);
    (412, 412, 1, 623); (413, 413, 1, 626); (415, 415, 1, 629); (416, 420, 2, 417);
    (422, 422, 1, 640); (423, 423, 1, 424); (425, 425, 1, 643); (428, 428, 1, 429);
    (430, 430, 1, 648); (431, 431, 1, 432); (433, 434, 1, 650); (435, 437, 2, 436);
    (439, 439, 1, 658); (440, 440, 1, 441); (444, 444, 1, 445); (452, 452, 1, 454);
    (453, 453, 1, 454); (455, 455, 1, 457); (456, 456, 1, 457); (458, 458, 1, 460);
    (459, 475, 2, 460); (478, 494, 2, 479); (497, 497, 1, 499); (498, 500, 2, 499);
    (502, 502, 1, 405); (503, 503, 1, 447); (504, 542, 2, 505); (544, 544, 1, 414);
    (546, 562, 2, 547); (570, 570, 1, 11365); (571, 571, 1, 572); (573, 573, 1, 410);
    (574, 574, 1, 11366); (577, 577, 1, 578); (579, 579, 1, 384); (580, 580, 1, 649);
    (581, 581, 1, 652); (582, 590, 2, 583); (880, 882, 2, 881); (886, 886, 1, 887);
    (895, 895, 1, 1011); (902, 902, 1, 940); (904, 906, 1, 941); (908, 908, 1, 972);
    (910, 911, 1, 973); (913, 929, 1, 945); (931, 939, 1, 963); (975, 975, 1, 983);
    (984, 1006, 2, 985); (1012, 1012, 1, 952); (1015, 1015, 1, 1016); (1017, 1017, 1, 1010);
    (1018, 1018, 1, 1019); (1021, 1023, 1, 891); (1024, 1039, 1, 1104); (1040, 1071, 1, 1072);
    (1120, 1152, 2, 1121); (1162, 1214, 2, 1163); (1216, 1216, 1, 1231); (1217, 1229, 2, 1218);
    (1232, 1326, 2, 1233); (1329, 1366, 1, 1377); (4256, 4293, 1, 11520); (4295, 4295, 1, 11559);
    (4301, 4301, 1, 11565); (5024, 5103, 1, 43888); (5104, 5109, 1, 5112); (7312, 7354, 1, 4304);
    (7357, 7359, 1, 4349); (7680, 7828, 2, 7681); (7838, 7838, 1, 223); (7840, 7934, 2, 7841);
    (7944, 7951, 1, 7936); (7960, 7965, 1, 7952); (7976, 7983, 1, 7968); (7992, 7999, 1, 7984);
    (8008, 8013, 1, 8000); (8025, 8031, 2, 8017); (8040, 8047, 1, 8032); (8072, 8079, 1, 8064);
    (8088, 8095, 1, 8080); (8104, 8111, 1, 8096); (8120, 8121, 1, 8112); (8122, 8123, 1, 8048);
    (8124, 8124, 1, 8115); (8136, 8139, 1, 8050); (8140, 8140, 1, 8131); (8152, 8153, 1, 8144);
    (8154, 8155, 1, 8054); (8168, 8169, 1, 8160); (8170, 8171, 1, 8058); (8172, 8172, 1, 8165);
    (8184, 8185, 1, 8056); (8186, 8187, 1, 8060); (8188, 8188, 1, 8179); (8486, 8486, 1, 969);
    (8490, 8490, 1, 107); (8491, 8491, 1, 229); (8498, 8498, 1, 8526); (8544, 8559, 1, 8560);
    (8579, 8579, 1, 8580); (9398, 9423, 1, 9424); (11264, 11311, 1, 11312); (11360, 11360, 1, 11361);
    (11362, 11362, 1, 619); (11363, 11363, 1, 7549); (11364, 11364, 1, 637); (11367, 11371, 2, 11368);
    (11373, 11373, 1, 593); (11374, 11374, 1, 625); (11375, 11375, 1, 592); (11376, 11376, 1, 594);
    (11378, 11378, 1, 11379); (11381, 11381, 1, 11382); (11390, 11391, 1, 575); (11392, 11490, 2, 11393);
    (11499, 11501, 2, 11500); (11506, 11506, 1, 11507); (42560, 42604, 2, 42561); (42624, 42650, 2, 42625);
    (42786, 42798, 2, 42787); (42802, 42862, 2, 42803); (42873, 42875, 2, 42874); (42877, 42877, 1, 7545);
    (42878, 42886, 2, 42879); (42891, 42891, 1, 42892); (42893, 42893, 1, 613); (42896, 42898, 2, 42897);
    (42902, 42920, 2, 42903); (42922, 42922, 1, 614); (42923, 42923, 1, 604); (42924, 42924, 1, 609);
    (42925, 42925, 1, 620); (42926, 42926, 1, 618); (42928, 42928, 1, 670); (42929, 42929, 1, 647);
    (42930, 42930, 1, 669); (42931, 42931, 1, 43859); (42932, 42946, 2, 42933); (42948, 42948, 1, 42900);
    (42949, 42949, 1, 642); (42950, 42950, 1, 7566); (42951, 42953, 2, 42952); (42960, 42960, 1, 42961);
    (42966, 42968, 2, 42967); (42997, 42997, 1, 42998); (65313, 65338, 1, 65345); (66560, 66599, 1, 66600);
    (66736, 66771, 1, 66776); (66928, 66938, 1, 66967); (66940, 66954, 1, 66979); (66956, 66962, 1, 66995);
    (66964, 66965, 1, 67003); (68736, 68786, 1, 68800); (71840, 71871, 1, 71872); (93760, 93791, 1, 93792);
    (125184, 125217, 1, 125218) ]%N.

Definition case_ignorable : list (N * N) :=
  [
    (39, 39); (46, 46); (58, 58); (94, 94); (96, 96); (168, 168);
    (173, 173); (175, 175); (180, 180); (183, 184); (688, 879); (884, 885);
    (890, 890); (900, 901); (903, 903); (1155, 1161); (1369, 1369); (1375, 1375);
    (1425, 1469); (1471, 1471); (1473, 1474); (1476, 1477); (1479, 1479); (1524, 1524);
    (1536, 1541); (1552, 1562); (1564, 1564); (1600, 1600); (1611, 1631); (1648, 1648);
    (1750, 1757); (1759, 1768); (1770, 1773); (1807, 1807); (1809, 1809); (1840, 1866);
    (1958, 1968); (2027, 2037); (2042, 2042); (2045, 2045); (2070, 2093); (2137, 2139);
    (2184, 2184); (2192, 2193); (2200, 2207); (2249, 2306); (2362, 2362); (2364, 2364);
    (2369, 2376); (2381, 2381); (2385, 2391); (2402, 2403); (2417, 2417); (2433, 2433);
    (2492, 2492); (2497, 2500); (2509, 2509); (2530, 2531); (2558, 2558); (2561, 2562);
    (2620, 2620); (2625, 2626); (2631, 2632); (2635, 2637); (2641, 2641); (2672, 2673);
    (2677, 2677); (2689, 2690); (2748, 2748); (2753, 2757); (2759, 2760); (2765, 2765);
    (2786, 2787); (2810, 2815); (2817, 2817); (2876, 2876); (2879, 2879); (2881, 2884);
    (2893, 2893); (2901, 2902); (2914, 2915); (2946, 2946); (3008, 3008); (3021, 3021);
    (3072, 3072); (3076, 3076); (3132, 3132); (3134, 3136); (3142, 3144); (3146, 3149);
    (3157, 3158); (3170, 3171); (3201, 3201); (3260, 3260); (3263, 3263); (3270, 3270);
    (3276, 3277); (3298, 3299); (3328, 3329); (3387, 3388); (3393, 3396); (3405, 3405);
    (3426, 3427); (3457, 3457); (3530, 3530); (3538, 3540); (3542, 3542); (3633, 3633);
    (3636, 3642); (3654, 3662); (3761, 3761); (3764, 3772); (3782, 3782); (3784, 3789);
    (3864, 3865); (3893, 3893); (3895, 3895); (3897, 3897); (3953, 3966); (3968, 3972);
    (3974, 3975); (3981, 3991); (3993, 4028); (4038, 4038); (4141, 4144); (4146, 4151);
    (4153, 4154); (4157, 4158); (4184, 4185); (4190, 4192); (4209, 4212); (4226, 4226);
    (4229, 4230); (4237, 4237); (4253, 4253); (4348, 4348); (4957, 4959); (5906, 5908);
    (5938, 5939); (5970, 5971); (6002, 6003); (6068, 6069); (6071, 6077); (6086, 6086);
    (6089, 6099); (6103, 6103); (6109, 6109); (6155, 6159); (6211, 6211); (6277, 6278);
    (6313, 6313); (6432, 6434); (6439, 6440); (6450, 6450); (6457, 6459); (6679, 6680);
    (6683, 6683); (6742, 6742); (6744, 6750); (6752, 6752); (6754, 6754); (6757, 6764);
    (6771, 6780); (6783, 6783); (6823, 6823); (6832, 6862); (6912, 6915); (6964, 6964);
    (6966, 6970); (6972, 6972); (6978, 6978); (7019, 7027); (7040, 7041); (7074, 7077);
    (7080, 7081); (7083, 7085); (7142, 7142); (7144, 7145); (7149, 7149); (7151, 7153);
    (7212, 7219); (7222, 7223); (7288, 7293); (7376, 7378); (7380, 7392); (7394, 7400);
    (7405, 7405); (7412, 7412); (7416, 7417); (7468, 7530); (7544, 7544); (7579, 7679);
    (8125, 8125); (8127, 8129); (8141, 8143); (8157, 8159); (8173, 8175); (8189, 8190);
    (8203, 8207); (8216, 8217); (8228, 8228); (8231, 8231); (8234, 8238); (8288, 8292);
    (8294, 8303); (8305, 8305); (8319, 8319); (8336, 8348); (8400, 8432); (11388, 11389);
    (11503, 11505); (11631, 11631); (11647, 11647); (11744, 11775); (11823, 11823); (12293, 12293);
    (12330, 12333); (12337, 12341); (12347, 12347); (12441, 12446); (12540, 12542); (40981, 40981);
    (42232, 42237); (42508, 42508); (42607, 42610); (42612, 42621); (42623, 42623); (42652, 42655);
    (42736, 42737); (42752, 42785); (42864, 42864); (42888, 42890); (42994, 42996); (43000, 43001);
    (43010, 43010); (43014, 43014); (43019, 43019); (43045, 43046); (43052, 43052); (43204, 43205);
    (43232, 43249); (43263, 43263); (43302, 43309); (43335, 43345); (43392, 43394); (43443, 43443);
    (43446, 43449); (43452, 43453); (43471, 43471); (43493, 43494); (43561, 43566); (43569, 43570);
    (43573, 43574); (43587, 43587); (43596, 43596); (43632, 43632); (43644, 43644); (43696, 43696);
    (43698, 43700); (43703, 43704); (43710, 43711); (43713, 43713); (43741, 43741); (43756, 43757);
    (43763, 43764); (43766, 43766); (43867, 43871); (43881, 43883); (44005, 44005); (44008, 44008);
    (44013, 44013); (64286, 64286); (64434, 64450); (65024, 65039); (65043, 65043); (65056, 65071);
    (65106, 65106); (65109, 65109); (65279, 65279); (65287, 65287); (65294, 65294); (65306, 65306);
    (65342, 65342); (65344, 65344); (65392, 65392); (65438, 65439); (65507, 65507); (65529, 65531);
    (66045, 66045); (66272, 66272); (66422, 66426); (67456, 67461); (67463, 67504); (67506, 67514);
    (68097, 68099); (68101, 68102); (68108, 68111); (68152, 68154); (68159, 68159); (68325, 68326);
    (68900, 68903); (69291, 69292); (69446, 69456); (69506, 69509); (69633, 69633); (69688, 69702);
    (69744, 69744); (69747, 69748); (69759, 69761); (69811, 69814); (69817, 69818); (69821, 69821);
    (69826, 69826); (69837, 69837); (69888, 69890); (69927, 69931); (69933, 69940); (70003, 70003);
    (70016, 70017); (70070, 70078); (70089, 70092); (70095, 70095); (70191, 70193); (70196, 70196);
    (70198, 70199); (70206, 70206); (70367, 70367); (70371, 70378); (70400, 70401); (70459, 70460);
    (70464, 70464); (70502, 70508); (70512, 70516); (70712, 70719); (70722, 70724); (70726, 70726);
    (70750, 70750); (70835, 70840); (70842, 70842); (70847, 70848); (70850, 70851); (71090, 71093);
    (71100, 71101); (71103, 71104); (71132, 71133); (71219, 71226); (71229, 71229); (71231, 71232);
    (71339, 71339); (71341, 71341); (71344, 71349); (71351, 71351); (71453, 71455); (71458, 71461);
    (71463, 71467); (71727, 71735); (71737, 71738); (71995, 71996); (71998, 71998); (72003, 72003);
    (72148, 72151); (72154, 72155); (72160, 72160); (72193, 72202); (72243, 72248); (72251, 72254);
    (72263, 72263); (72273, 72278); (72281, 72283); (72330, 72342); (72344, 72345); (72752, 72758);
    (72760, 72765); (72767, 72767); (72850, 72871); (72874, 72880); (72882, 72883); (72885, 72886);
    (73009, 73014); (73018, 73018); (73020, 73021); (73023, 73029); (73031, 73031); (73104, 73105);
    (73109, 73109); (73111, 73111); (73459, 73460); (78896, 78904); (92912, 92916); (92976, 92982);
    (92992, 92995); (94031, 94031); (94095, 94111); (94176, 94177); (94179, 94180); (110576, 110579);
    (110581, 110587); (110589, 110590); (113821, 113822); (113824, 113827); (118528, 118573); (118576, 118598);
    (119143, 119145); (119155, 119170); (119173, 119179); (119210, 119213); (119362, 119364); (121344, 121398);
    (121403, 121452); (121461, 121461); (121476, 121476); (121499, 121503); (121505, 121519); (122880, 122886);
    (122888, 122904); (122907, 122913); (122915, 122916); (122918, 122922); (123184, 123197); (123566, 123566);
    (123628, 123631); (125136, 125142); (125252, 125259); (127995, 127999); (917505, 917505); (917536, 917631);
    (917760, 917999) ]%N.

Definition cased : list (N * N) :=
  [
    (65, 90); (97, 122); (170, 170); (181, 181); (186, 186); (192, 214);
    (216, 246); (248, 442); (444, 447); (452, 659); (661, 687); (880, 883);
    (886, 887); (891, 893); (895, 895); (902, 902); (904, 906); (908, 908);
    (910, 929); (931, 1013); (1015, 1153); (1162, 1327); (1329, 1366); (1376, 1416);
    (4256, 4293); (4295, 4295); (4301, 4301); (4304, 4346); (4349, 4351); (5024, 5109);
    (5112, 5117); (7296, 7304); (7312, 7354); (7357, 7359); (7424, 7467); (7531, 7543);
    (7545, 7578); (7680, 7957); (7960, 7965); (7968, 8005); (8008, 8013); (8016, 8023);
    (8025, 8025); (8027, 8027); (8029, 8029); (8031, 8061); (8064, 8116); (8118, 8124);
    (8126, 8126); (8130, 8132); (8134, 8140); (8144, 8147); (8150, 8155); (8160, 8172);
    (8178, 8180); (8182, 8188); (8450, 8450); (8455, 8455); (8458, 8467); (8469, 8469);
    (8473, 8477); (8484, 8484); (8486, 8486); (8488, 8488); (8490, 8493); (8495, 8500);
    (8505, 8505); (8508, 8511); (8517, 8521); (8526, 8526); (8544, 8575); (8579, 8580);
    (9398, 9449); (11264, 11387); (11390, 11492); (11499, 11502); (11506, 11507); (11520, 11557);
    (11559, 11559); (11565, 11565); (42560, 42605); (42624, 42651); (42786, 42863); (42865, 42887);
    (42891, 42894); (42896, 42954); (42960, 42961); (42963, 42963); (42965, 42969); (42997, 42998);
    (43002, 43002); (43824, 43866); (43872, 43880); (43888, 43967); (64256, 64262); (64275, 64279);
    (65313, 65338); (65345, 65370); (66560, 66639); (66736, 66771); (66776, 66811); (66928, 66938);
    (66940, 66954); (66956, 66962); (66964, 66965); (66967, 66977); (66979, 66993); (66995, 67001);
    (67003, 67004); (68736, 68786); (68800, 68850); (71840, 71903); (93760, 93823); (119808, 119892);
    (119894, 119964); (119966, 119967); (119970, 119970); (119973, 119974); (119977, 119980); (119982, 119993);
    (119995, 119995); (119997, 120003); (120005, 120069); (120071, 120074); (120077, 120084); (120086, 120092);
    (120094, 120121); (120123, 120126); (120128, 120132); (120134, 120134); (120138, 120144); (120146, 120485);
    (120488, 120512); (120514, 120538); (120540, 120570); (120572, 120596); (120598, 120628); (120630, 120654);
    (120656, 120686); (120688, 120712); (120714, 120744); (120746, 120770); (120772, 120779); (122624, 122633);
    (122635, 122654); (125184, 125251); (127280, 127305); (127312, 127337); (127344, 127369) ]%N.

(** [c.isspace()] for one character *)
Definition isspace (c : N) : bool := in_ranges whitespace c.

(** The value of a decimal digit, in any script. *)
Definition decimal (c : N) : option N :=
  match List.find (fun z => (z <=? c)%N && (c <? z + 10)%N) decimal_zeros with
  | Some z => Some (c - z)%N
  | None => None
  end.

(** The lower case of one character, where it differs from the
    character; an entry [(lo, hi, step, target)] maps every [step]-th
    code point from [lo] to [hi] onto the code points from [target]. *)
Definition lower_entry (c : N) (e : N * N * N * N) : bool :=
  let '(lo, hi, step, _) := e in
  (lo <=? c)%N && (c <=? hi)%N && ((c - lo) mod step =? 0)%N.

Definition lower_char (c : N) : list N :=
  if (c =? 304)%N then [105; 775]%N
  else match List.find (lower_entry c) lower_table with
       | Some (lo, _, _, target) => [(target + (c - lo))%N]
       | None => [c]
       end.

Fixpoint skip_ignorable (l : list N) : list N :=
  match l with
  | c :: r => if in_ranges case_ignorable c then skip_ignorable r else l
  | [] => []
  end.

(** A capital sigma is final when a cased letter stands before it and
    none after it, case-ignorable characters apart. [before] holds the
    characters before it, the nearest first. *)
Definition final_sigma (before after : list N) : bool :=
  match skip_ignorable before with
  | c :: _ => in_ranges cased c
  | [] => false
  end &&
  match skip_ignorable after with
  | c :: _ => negb (in_ranges cased c)
  | [] => true
  end.

Fixpoint lower_from (before l : list N) : list N :=
  match l with
  | [] => []
  | c :: r =>
      ((if (c =? 931)%N then [if final_sigma before r then 962 else 963]%N
        else lower_char c)
       ++ lower_from (c :: before) r)%list
  end.

(** [s.lower()] *)
Definition lower (s : string) : string := encode (lower_from [] (decode s)).

Fixpoint lstrip_chars (l : list N) : list N :=
  match l with
  | c :: r => if isspace c then lstrip_chars r else l
  | [] => []
  end.

Fixpoint rstrip_chars (l : list N) : list N :=
  match l with
  | c :: r =>
      match rstrip_chars r with
      | [] => if isspace c then [] else [c]
      | r' => c :: r'
      end
  | [] => []
  end.

(** [s.strip()] *)
Definition strip (s : string) : string :=
  encode (rstrip_chars (lstrip_chars (decode s))).

(** [s.split(sep)] for a one-character separator: never an empty list. *)
Fixpoint split (sep : ascii) (s : string) : list string :=
  match s with
  | EmptyString => [EmptyString]
  | String c r =>
      if Ascii.eqb c sep then EmptyString :: split sep r
      else match split sep r with
           | p :: ps => String c p :: ps
           | [] => [String c EmptyString]
           end
  end.

(** *** [int(s)] for a [str]

    The text is first brought to ASCII: an ASCII character stays, any
    other whitespace becomes a space and any other decimal digit the
    ASCII digit of its value; the text is cut, with a question mark, at
    the first character that is neither. *)
Fixpoint ascii_literal (l : list N) : string :=
  match l with
  | [] => ""
  | c :: r =>
      if (c <? 127)%N then String (ascii_of_N c) (ascii_literal r)
      else if isspace c then String " " (ascii_literal r)
      else match decimal c with
           | Some d => String (ascii_of_N (48 + d)) (ascii_literal r)
           | None => "?"
           end
  end.

(** The whitespace of the C library: TAB..CR and the space. *)
Definition is_c_space (c : ascii) : bool :=
  let n := nat_of_ascii c in
  ((9 <=? n)%nat && (n <=? 13)%nat) || (n =? 32)%nat.

Fixpoint lstrip_c (s : string) : string :=
  match s with
  | String c r => if is_c_space c then lstrip_c r else s
  | EmptyString => EmptyString
  end.

Fixpoint rstrip_c (s : string) : string :=
  match s with
  | String c r =>
      match rstrip_c r with
      | EmptyString => if is_c_space c then EmptyString else String c EmptyString
      | r' => String c r'
      end
  | EmptyString => EmptyString
  end.

Definition digit_of (c : ascii) : option N :=
  let n := nat_of_ascii c in
  if ((48 <=? n)%nat && (n <=? 57)%nat) then Some (N.of_nat (n - 48)) else None.

(** The digits of an [int] literal: at least one digit, and single
    underscores only between two digits. [prev] tells whether the
    character before was a digit. *)
Fixpoint scan_digits (prev : bool) (s : string) (acc : N) : option N :=
  match s with
  | EmptyString => if prev then Some acc else None
  | String c r =>
      match digit_of c with
      | Some d => scan_digits true r (10 * acc + d)%N
      | None =>
          if Ascii.eqb c "_" && prev then scan_digits false r acc else None
      end
  end.

Fixpoint count_digits (s : string) : nat :=
  match s with
  | EmptyString => 0
  | String c r =>
      match digit_of c with
      | Some _ => S (count_digits r)
      | None => count_digits r
      end
  end.

(** [sys.int_info.default_max_str_digits] *)
Definition max_str_digits : nat := 4300.

(** Whitespace around the literal, then an optional sign, then the
    digits, no more of them than [max_str_digits]. Whatever else the
    text holds, [int] raises a [ValueError]. *)
Definition int (s : string) : result Z :=
  let body := rstrip_c (lstrip_c (ascii_literal (decode s))) in
  let '(neg, digits) :=
    match body with
    | String c r =>
        if Ascii.eqb c "-" then (true, r)
        else if Ascii.eqb c "+" then (false, r)
        else (false, body)
    | EmptyString => (false, body)
    end in
  if (max_str_digits <? count_digits digits)%nat then Raise (IntError s) else
  match scan_digits false digits 0 with
  | Some n => Ok (if neg : bool then - Z.of_N n else Z.of_N n)
  | None => Raise (IntError s)
  end.

Definition str_of_N (n : N) : string := NilEmpty.string_of_uint (N.to_uint n).

(** [str(n)], also the ["%d"] conversion. *)
Definition str (z : Z) : string :=
  if z <? 0 then "-" +:+ str_of_N (Z.to_N (- z)) else str_of_N (Z.to_N z).

Fixpoint zeros (n : nat) : string :=
  match n with
  | O => EmptyString
  | S n => String "0" (zeros n)
  end.

(** The ["0<w>d"] format: the sign first, then zeros up to [w] characters
    in all, then the digits. Never truncates. *)
Definition format_0d (w : nat) (z : Z) : string :=
  if z <? 0 then
    let d := str_of_N (Z.to_N (- z)) in
    "-" +:+ zeros (w - 1 - String.length d) +:+ d
  else
    let d := str_of_N (Z.to_N z) in
    zeros (w - String.length d) +:+ d.

(** The characters of a [str], one string per UTF-8 encoded character:
    what iterating over the string yields. *)
Definition is_continuation (c : ascii) : bool :=
  let n := nat_of_ascii c in (128 <=? n)%nat && (n <? 192)%nat.

Fixpoint chars (s : string) : list string :=
  match s with
  | EmptyString => []
  | String c r =>
      match chars r with
      | p :: ps =>
          match p with
          | String c' _ =>
              if is_continuation c' then String c p :: ps
              else String c EmptyString :: p :: ps
          | EmptyString => String c EmptyString :: ps
          end
      | [] => [String c EmptyString]
      end
  end.

End Py.


(** ** [datetime.timedelta] *)

Record timedelta : Type := Timedelta { total_microseconds : Z }.

Definition us_per_second : Z := 1000000.
Definition us_per_day : Z := 86400 * us_per_second.
Definition max_days : Z := 999999999.

(** The normalised attributes [days], [seconds], [microseconds]. *)
Definition td_days (d : timedelta) : Z := total_microseconds d / us_per_day.
Definition td_seconds (d : timedelta) : Z :=
  (total_microseconds d mod us_per_day) / us_per_second.
Definition td_microseconds (d : timedelta) : Z :=
  total_microseconds d mod us_per_second.

(** The constructor refuses more than [max_days] days either way. *)
Definition td_in_range (d : timedelta) : bool :=
  (- max_days <=? td_days d) && (td_days d <=? max_days).

Definition timedelta_new (hours minutes seconds : Z) : result timedelta :=
  let d := Timedelta ((hours * 3600 + minutes * 60 + seconds) * us_per_second) in
  if td_in_range d then Ok d else Raise OverflowError.

(** The integer nearest to [n / d], the even one of two that are equally
    near; for [0 <= n] and [0 < d]. *)
Definition round_div (n d : Z) : Z :=
  let q := n / d in
  let r := n mod d in
  if 2 * r <? d then q
  else if d <? 2 * r then q + 1
  else if Z.even q then q else q + 1.

(** [int(d.total_seconds())]. [total_seconds] divides the microseconds by
    10**6 and gives the nearest double: with [2^e] the weight of the last
    of its 53 bits, the quotient is rounded to a multiple of [2^e]. A
    quotient below 1 gives a double below 1. [int] then drops the
    fraction. *)
Definition total_seconds_int (d : timedelta) : Z :=
  let us := Z.abs (total_microseconds d) in
  let q := us / us_per_second in
  if q =? 0 then 0
  else
    let e := Z.log2 q - 52 in
    let seconds :=
      if e <? 0 then round_div (us * 2 ^ (- e)) us_per_second / 2 ^ (- e)
      else round_div us (us_per_second * 2 ^ e) * 2 ^ e in
    Z.sgn (total_microseconds d) * seconds.

(** [d.total_seconds() <= 0] *)
Definition total_seconds_nonpos (d : timedelta) : bool :=
  total_microseconds d <=? 0.

(** [str(d)] *)
Definition td_str (d : timedelta) : string :=
  let mm := td_seconds d / 60 in
  let ss := td_seconds d mod 60 in
  let hh := mm / 60 in
  let mm := mm mod 60 in
  let s := Py.str hh +:+ ":" +:+ Py.format_0d 2 mm +:+ ":" +:+ Py.format_0d 2 ss in
  let s :=
    if td_days d =? 0 then s
    else Py.str (td_days d) +:+ " day"
           +:+ (if Z.abs (td_days d) =? 1 then "" else "s") +:+ ", " +:+ s in
  if td_microseconds d =? 0 then s
  else s +:+ "." +:+ Py.format_0d 6 (td_microseconds d).

(** ** Parsed JSON documents *)

(** What [json.load] returns for a document of whole numbers and of
    text that UTF-8 can encode. An object is the list of the items of
    the [dict], in their order, every key once. *)
Inductive json : Type :=
  | JNull
  | JBool (b : bool)
  | JInt (z : Z)
  | JString (s : string)
  | JList (l : list json)
  | JObject (items : list (string * json)).

(** [d.get(key)] on the items of a [dict] *)
Fixpoint dict_get (items : list (string * json)) (key : string) : option json :=
  match items with
  | [] => None
  | (k, v) :: rest => if String.eqb k key then Some v else dict_get rest key
  end.

(** [d[key]] on the items of a [dict] *)
Definition dict_item (items : list (string * json)) (key : string) : result json :=
  match dict_get items key with
  | Some v => Ok v
  | None => Raise (KeyError key)
  end.

(** [s == v] for a [str] and any value *)
Definition str_eq (s : string) (v : json) : bool :=
  match v with
  | JString s' => String.eqb s s'
  | _ => false
  end.

(** The integer a value stands for in a comparison with an [int]:
    a [bool] is the integer 0 or 1. *)
Definition as_int (v : json) : option Z :=
  match v with
  | JInt z => Some z
  | JBool b => Some (if b then 1 else 0)
  | _ => None
  end.

(** ** [MusicGenre] *)

Inductive MusicGenre : Type :=
  | POP | ROCK | JAZZ | HIP_HOP | ELECTRONIC | CLASSICAL
  | COUNTRY | RNB | METAL | INDIE | OTHER.

#[global] Instance MusicGenre_eq_dec : EqDecision MusicGenre.
Proof. solve_decision. Defined.

(** [g.value], the display label *)
Definition value (g : MusicGenre) : string :=
  match g with
  | POP => "Поп"
  | ROCK => "Рок"
  | JAZZ => "Джаз"
  | HIP_HOP => "Хип-хоп"
  | ELECTRONIC => "Электронная"
  | CLASSICAL => "Классическая"
  | COUNTRY => "Кантри"
  | RNB => "R&B"
  | METAL => "Метал"
  | INDIE => "Инди"
  | OTHER => "Другое"
  end.

(** Iterating over the enumeration: the members in declaration order. *)
Definition all_genres : list MusicGenre :=
  [POP; ROCK; JAZZ; HIP_HOP; ELECTRONIC; CLASSICAL; COUNTRY; RNB; METAL; INDIE; OTHER].

(** ** [Track] *)

Record Track : Type := mkTrack {
  title : string;
  artist : string;
  duration : timedelta;
  genre : MusicGenre;
  year : option Z
}.

Definition msg_title : string := "Название трека не может быть пустым".
Definition msg_artist : string := "Имя исполнителя не может быть пустым".
Definition msg_duration : string := "Длительность должна быть положительной".
Definition msg_year : string := "Некорректный год".
Definition msg_format : string := "Неверный формат длительности: ".

(** [Track(title, artist, duration, genre, year)] on values as they come
    out of a JSON document: the generated [__init__] stores them and
    [__post_init__] runs its four checks in order. A value without
    [strip] raises [AttributeError], a year that does not compare with an
    [int] raises [TypeError]. *)
Definition Track_init (title artist : json) (duration : timedelta)
    (genre : MusicGenre) (year : json) : result Track :=
  match title with
  | JString t =>
      if String.eqb (Py.strip t) "" then Raise (ValueError msg_title) else
      match artist with
      | JString a =>
          if String.eqb (Py.strip a) "" then Raise (ValueError msg_artist) else
          if total_seconds_nonpos duration then Raise (ValueError msg_duration) else
          match year with
          | JNull => Ok (mkTrack t a duration genre None)
          | _ =>
              match as_int year with
              | Some y =>
                  if (y <? 1900) || (y >? 2100) then Raise (ValueError msg_year)
                  else Ok (mkTrack t a duration genre (Some y))
              | None => Raise TypeError
              end
          end
      | _ => Raise AttributeError
      end
  | _ => Raise AttributeError
  end.

Definition json_of_year (y : option Z) : json :=
  match y with
  | Some z => JInt z
  | None => JNull
  end.

(** The constructor on arguments of the annotated types. *)
Definition Track_new (title artist : string) (duration : timedelta)
    (genre : MusicGenre) (year : option Z) : result Track :=
  Track_init (JString title) (JString artist) duration genre (json_of_year year).

(** [t.duration_seconds] *)
Definition duration_seconds (t : Track) : Z := total_seconds_int (duration t).

(** [t.duration_str] *)
Definition duration_str (t : Track) : string :=
  let total_seconds := total_seconds_int (duration t) in
  let minutes := total_seconds / 60 in
  let seconds := total_seconds mod 60 in
  Py.format_0d 2 minutes +:+ ":" +:+ Py.format_0d 2 seconds.

(** [t.to_dict()] *)
Definition to_dict (t : Track) : json :=
  JObject [ ("title", JString (title t));
            ("artist", JString (artist t));
            ("duration", JString (duration_str t));
            ("genre", JString (value (genre t)));
            ("year", json_of_year (year t)) ].

(** The duration of a record, from its text. *)
Definition parse_duration (text : string) : result timedelta :=
  match Py.split ":" text with
  | [m; s] =>
      minutes ← Py.int m; seconds ← Py.int s;
      timedelta_new 0 minutes seconds
  | [h; m; s] =>
      hours ← Py.int h; minutes ← Py.int m; seconds ← Py.int s;
      timedelta_new hours minutes seconds
  | _ => Raise (ValueError (msg_format +:+ text))
  end.

(** The genre whose label equals [genre_value]: the first one in
    declaration order, [OTHER] when there is none. *)
Definition find_genre (genre_value : json) : MusicGenre :=
  match List.find (fun g => str_eq (value g) genre_value) all_genres with
  | Some g => g
  | None => OTHER
  end.

(** [Track.from_dict(data)] *)
Definition from_dict (data : json) : result Track :=
  match data with
  | JObject items =>
      d ← dict_item items "duration";
      duration ← match d with
                 | JString text => parse_duration text
                 | _ => Raise AttributeError
                 end;
      let genre_value := default (JString "Другое") (dict_get items "genre") in
      let genre := find_genre genre_value in
      title ← dict_item items "title";
      artist ← dict_item items "artist";
      Track_init title artist duration genre (default JNull (dict_get items "year"))
  | _ => Raise TypeError
  end.

(** ** [Playlist] *)

(** [name] holds a [str] in every playlist the program builds itself;
    [load_from_json] stores there whatever value the file gives. *)
Record Playlist : Type := mkPlaylist {
  name : json;
  tracks : list Track
}.

(** The methods that mutate [self] return the new state. *)
Definition add_track (self : Playlist) (track : Track) : Playlist :=
  mkPlaylist (name self) (tracks self ++ [track]).

Definition add_tracks (self : Playlist) (ts : list Track) : Playlist :=
  List.fold_left add_track ts self.

Definition get_tracks_by_artist (self : Playlist) (artist_query : string) : list Track :=
  let artist_lower := Py.lower (Py.strip artist_query) in
  List.filter (fun track => String.eqb (Py.lower (artist track)) artist_lower)
    (tracks self).

Definition get_tracks_by_genre (self : Playlist) (g : MusicGenre) : list Track :=
  List.filter (fun track => bool_decide (genre track = g)) (tracks self).

Definition sum_Z (l : list Z) : Z := List.fold_left Z.add l 0.

Definition get_total_duration (self : Playlist) : result timedelta :=
  let total_seconds := sum_Z (List.map duration_seconds (tracks self)) in
  timedelta_new 0 0 total_seconds.

(** [d[key] = v] on the items of a [dict]: a present key keeps its place,
    a new one goes last. *)
Fixpoint dict_set {V} (items : list (string * V)) (key : string) (v : V)
    : list (string * V) :=
  match items with
  | [] => [(key, v)]
  | (k, w) :: rest =>
      if String.eqb k key then (k, v) :: rest else (k, w) :: dict_set rest key v
  end.

Record Statistics : Type := mkStatistics {
  total_tracks : nat;
  total_duration : string;
  artists : nat;
  genres : list (string * nat);
  years : gmap Z nat
}.

(** The loop over [MusicGenre] that fills [stats["genres"]]. *)
Definition genre_statistics (self : Playlist) : list (string * nat) :=
  List.fold_left
    (fun acc g =>
       let count := List.length (get_tracks_by_genre self g) in
       if (0 <? count)%nat then dict_set acc (value g) count else acc)
    all_genres [].

(** The loop over the tracks that fills [stats["years"]]; a year that is
    [None] or 0 is falsy and not counted. *)
Definition year_statistics (self : Playlist) : gmap Z nat :=
  List.fold_left
    (fun (acc : gmap Z nat) track =>
       match year track with
       | Some y => if y =? 0 then acc else <[y := (default 0%nat (acc !! y) + 1)%nat]> acc
       | None => acc
       end)
    (tracks self) ∅.

Definition get_statistics (self : Playlist) : result Statistics :=
  total ← get_total_duration self;
  Ok {| total_tracks := List.length (tracks self);
        total_duration := td_str total;
        artists := size (list_to_set (List.map (fun t => Py.lower (artist t)) (tracks self))
                           : gset string);
        genres := genre_statistics self;
        years := year_statistics self |}.

(** ** Files *)

(** What a path holds: a JSON document, text that [json.load] rejects,
    or something that cannot be opened. A path outside the map does not
    exist. Writing a document and reading it back gives the document. *)
Inductive file : Type :=
  | FileJson (doc : json)
  | FileText
  | FileDenied.

(** [with open(filename, "r") as f: data = json.load(f)] *)
Definition read_json (fs : gmap string file) (filename : string) : result json :=
  match fs !! filename with
  | None => Raise FileNotFoundError
  | Some FileDenied => Raise PermissionError
  | Some FileText => Raise JSONDecodeError
  | Some (FileJson doc) => Ok doc
  end.

(** [with open(filename, "w") as f: json.dump(data, f, ...)]. Every
    text of a [json] value can be encoded, so that writing fails only
    where the file cannot be opened. *)
Definition write_json (fs : gmap string file) (filename : string) (data : json)
    : result (gmap string file) :=
  match fs !! filename with
  | Some FileDenied => Raise PermissionError
  | _ => Ok (<[filename := FileJson data]> fs)
  end.

(** The lines the two methods print. *)
Inductive output : Type :=
  | Saved (filename : string)
  | SaveFailed (filename : string) (e : exn)
  | TrackSkipped (e : exn)
  | Loaded (filename : string) (count : nat)
  | NotFound (filename : string)
  | BadJson (filename : string)
  | LoadFailed (filename : string) (e : exn).

Definition save_to_json (fs : gmap string file) (self : Playlist) (filename : string)
    : bool * gmap string file * list output :=
  let data := JObject [ ("playlist_name", name self);
                        ("tracks", JList (List.map to_dict (tracks self))) ] in
  match write_json fs filename data with
  | Ok fs' => (true, fs', [Saved filename])
  | Raise e => (false, fs, [SaveFailed filename e])
  end.

(** What a [for] loop over a value visits: the elements of a list, the
    characters of a string, the keys of a dict; other values are not
    iterable. *)
Definition iterate (v : json) : result (list json) :=
  match v with
  | JList l => Ok l
  | JString s => Ok (List.map JString (Py.chars s))
  | JObject items => Ok (List.map (fun kv => JString (fst kv)) items)
  | _ => Raise TypeError
  end.

(** The body of the loop over the records: one record is added, or
    skipped with a printed warning. *)
Definition load_track (st : Playlist * list output) (track_data : json)
    : Playlist * list output :=
  match from_dict track_data with
  | Ok track => (add_track (fst st) track, snd st)
  | Raise e => (fst st, (snd st ++ [TrackSkipped e])%list)
  end.

Definition load_from_json (fs : gmap string file) (self : Playlist) (filename : string)
    : bool * Playlist * list output :=
  match read_json fs filename with
  | Ok (JObject items) =>
      let self := mkPlaylist (default (name self) (dict_get items "playlist_name"))
                             (tracks self) in
      let self := mkPlaylist (name self) [] in
      match iterate (default (JList []) (dict_get items "tracks")) with
      | Ok records =>
          let '(self, out) := List.fold_left load_track records (self, []) in
          (true, self, (out ++ [Loaded filename (List.length (tracks self))])%list)
      | Raise e => (false, self, [LoadFailed filename e])
      end
  | Ok _ => (false, self, [LoadFailed filename AttributeError])
  | Raise FileNotFoundError => (false, self, [NotFound filename])
  | Raise JSONDecodeError => (false, self, [BadJson filename])
  | Raise e => (false, self, [LoadFailed filename e])
  end.

(** ** The other methods of [Playlist] *)

(** [len(self)] *)
Definition Playlist_len (self : Playlist) : Z := Z.of_nat (List.length (tracks self)).

(** [self.remove_track(index)]: the new state and the returned flag. *)
Definition remove_track (self : Playlist) (index : Z) : bool * Playlist :=
  if (0 <=? index) && (index <? Z.of_nat (List.length (tracks self)))
  then (true, mkPlaylist (name self) (delete (Z.to_nat index) (tracks self)))
  else (false, self).

Definition get_tracks_by_year (self : Playlist) (y : Z) : list Track :=
  List.filter (fun track => bool_decide (year track = Some y)) (tracks self).

Definition get_tracks_in_duration_range (self : Playlist) (min_sec max_sec : Z)
    : list Track :=
  List.filter
    (fun track => (min_sec <=? duration_seconds track) && (duration_seconds track <=? max_sec))
    (tracks self).

(** [l.sort(key=key, reverse=reverse)]. The sort is stable; with
    [reverse] the list is reversed, sorted and reversed again, so that
    equal keys keep their original order in both directions. [leb] is
    the order of the keys. *)
Section list_sort.
Context {A K : Type} (leb : K -> K -> bool) (key : A -> K).

Fixpoint insert_sorted (x : A) (l : list A) : list A :=
  match l with
  | [] => [x]
  | y :: r => if leb (key x) (key y) then x :: l else y :: insert_sorted x r
  end.

Definition stable_sort (l : list A) : list A := foldr insert_sorted [] l.

Definition list_sort (reverse_order : bool) (l : list A) : list A :=
  if reverse_order then reverse (stable_sort (reverse l)) else stable_sort l.

(** [x] may stand before [y]: its key is not above the key of [y]. *)
Definition key_le (x y : A) : Prop := leb (key x) (key y) = true.
End list_sort.

Definition sort_by_duration (self : Playlist) (descending : bool) : Playlist :=
  mkPlaylist (name self) (list_sort Z.leb duration_seconds descending (tracks self)).

(** Strings are compared byte by byte, which on UTF-8 text is the order
    of the code points. *)
Definition sort_by_title (self : Playlist) (descending : bool) : Playlist :=
  mkPlaylist (name self)
    (list_sort String.leb (fun t => Py.lower (title t)) descending (tracks self)).

Definition sort_by_artist (self : Playlist) (descending : bool) : Playlist :=
  mkPlaylist (name self)
    (list_sort String.leb (fun t => Py.lower (artist t)) descending (tracks self)).

(** ** The command line *)

(** The exceptions of the command-line layer: the parser's own
    [ArgumentTypeError] ([BadParameter] in the second file), or one that
    comes up from the classes above. *)
Inductive cli_exn : Type :=
  | ArgumentTypeError (msg : string)
  | Core (e : exn).

Inductive outcome (A : Type) : Type :=
  | Return (a : A)
  | Throw (e : cli_exn).
Arguments Return {A} a.
Arguments Throw {A} e.

(** [isinstance(e, ValueError)] *)
Definition is_ValueError (e : exn) : bool :=
  match e with
  | ValueError _ | IntError _ | JSONDecodeError => true
  | _ => false
  end.

Definition is_cli_ValueError (e : cli_exn) : bool :=
  match e with
  | Core e => is_ValueError e
  | ArgumentTypeError _ => false
  end.

Definition msg_cli_format (duration_str : string) : string :=
  "Неверный формат длительности: '" +:+ duration_str
  +:+ "'. Используйте MM:SS или HH:MM:SS".

(** [MusicManagerCLI.parse_duration], and the [parse_duration] callback
    of the second file for a value that is not [None]. *)
Definition cli_parse_duration (duration_str : string) : outcome timedelta :=
  let attempt : result timedelta :=
    match Py.split ":" duration_str with
    | [m; s] =>
        minutes ← Py.int m; seconds ← Py.int s;
        timedelta_new 0 minutes seconds
    | [h; m; s] =>
        hours ← Py.int h; minutes ← Py.int m; seconds ← Py.int s;
        timedelta_new hours minutes seconds
    | _ =>
        seconds ← Py.int duration_str;
        timedelta_new 0 0 seconds
    end in
  match attempt with
  | Ok d => Return d
  | Raise e =>
      if is_ValueError e then Throw (ArgumentTypeError (msg_cli_format duration_str))
      else Throw (Core e)
  end.

(** [g.name] *)
Definition genre_name (g : MusicGenre) : string :=
  match g with
  | POP => "POP"
  | ROCK => "ROCK"
  | JAZZ => "JAZZ"
  | HIP_HOP => "HIP_HOP"
  | ELECTRONIC => "ELECTRONIC"
  | CLASSICAL => "CLASSICAL"
  | COUNTRY => "COUNTRY"
  | RNB => "RNB"
  | METAL => "METAL"
  | INDIE => "INDIE"
  | OTHER => "OTHER"
  end.

(** [MusicGenre[n]] *)
Definition genre_by_name (n : string) : result MusicGenre :=
  match List.find (fun g => String.eqb (genre_name g) n) all_genres with
  | Some g => Ok g
  | None => Raise (KeyError n)
  end.

(** The lines the commands print. *)
Inductive cli_output : Type :=
  | TrackAdded (track : Track)
  | AddError (e : cli_exn)
  | UnexpectedError (e : cli_exn)
  | PlaylistEmpty
  | NothingToDisplay
  | Displayed (playlist_name : json) (shown : list Track)
  | HeaderArtist (artist_query : string)
  | HeaderGenre (label : string)
  | HeaderYear (y : Z)
  | HeaderDuration (min_sec max_sec : Z)
  | MinAboveMax
  | NoMatch
  | DemoAdded (added : Z) (now : Z)
  | BadIndex (last : Z)
  | TrackRemoved (track : Track) (left : Z)
  | RemoveFailed (index : Z).

(** [self.display_tracks(tracks)] *)
Definition display_tracks (self : Playlist) (shown : option (list Track))
    : list cli_output :=
  match default (tracks self) shown with
  | [] => [NothingToDisplay]
  | ts => [Displayed (name self) ts]
  end.

Record AddArgs : Type := mkAddArgs {
  add_title : string;
  add_artist : string;
  add_duration : string;
  add_genre : string;
  add_year : option Z
}.

(** [MusicManagerCLI.handle_add]: anything raised on the way is caught,
    a [ValueError] by the first handler, the rest by the second. *)
Definition handle_add (self : Playlist) (args : AddArgs) : Playlist * list cli_output :=
  let attempt : outcome Track :=
    match cli_parse_duration (add_duration args) with
    | Throw e => Throw e
    | Return duration =>
        match genre_by_name (add_genre args) with
        | Raise e => Throw (Core e)
        | Ok genre =>
            match Track_new (add_title args) (add_artist args) duration genre
                    (add_year args) with
            | Ok track => Return track
            | Raise e => Throw (Core e)
            end
        end
    end in
  match attempt with
  | Return track => (add_track self track, [TrackAdded track])
  | Throw e =>
      if is_cli_ValueError e then (self, [AddError e]) else (self, [UnexpectedError e])
  end.

(** The list of demonstration tracks, built track by track. *)
Definition demo_tracks : result (list Track) :=
  d1 ← timedelta_new 0 5 55;
  t1 ← Track_new "Bohemian Rhapsody" "Queen" d1 ROCK (Some 1975);
  d2 ← timedelta_new 0 5 1;
  t2 ← Track_new "Smells Like Teen Spirit" "Nirvana" d2 ROCK (Some 1991);
  d3 ← timedelta_new 0 4 54;
  t3 ← Track_new "Billie Jean" "Michael Jackson" d3 POP (Some 1982);
  d4 ← timedelta_new 0 3 53;
  t4 ← Track_new "Shape of You" "Ed Sheeran" d4 POP (Some 2017);
  d5 ← timedelta_new 0 5 24;
  t5 ← Track_new "Take Five" "Dave Brubeck" d5 JAZZ (Some 1959);
  d6 ← timedelta_new 0 6 30;
  t6 ← Track_new "Hotel California" "Eagles" d6 ROCK (Some 1976);
  d7 ← timedelta_new 0 15 0;
  t7 ← Track_new "Moonlight Sonata" "Beethoven" d7 CLASSICAL (Some 1801);
  d8 ← timedelta_new 0 5 26;
  t8 ← Track_new "Lose Yourself" "Eminem" d8 HIP_HOP (Some 2002);
  d9 ← timedelta_new 0 8 2;
  t9 ← Track_new "Stairway to Heaven" "Led Zeppelin" d9 ROCK (Some 1971);
  d10 ← timedelta_new 0 3 3;
  t10 ← Track_new "Imagine" "John Lennon" d10 POP (Some 1971);
  Ok [t1; t2; t3; t4; t5; t6; t7; t8; t9; t10].

(** [MusicManagerCLI.handle_demo] *)
Definition handle_demo (self : Playlist) : result (Playlist * list cli_output) :=
  ts ← demo_tracks;
  let self := add_tracks self ts in
  Ok (self, [DemoAdded (Z.of_nat (List.length ts)) (Playlist_len self)]).

(** [demo(count)] of the second file, on the global playlist. *)
Definition demo (playlist : Playlist) (count : Z) : result (Playlist * list cli_output) :=
  all_demo_tracks ← demo_tracks;
  let playlist := add_tracks playlist all_demo_tracks in
  let n := List.length all_demo_tracks in
  let playlist :=
    if count <? Z.of_nat n then
      add_tracks
        (mkPlaylist (name playlist) (take (List.length (tracks playlist) - n) (tracks playlist)))
        (take (Z.to_nat count) all_demo_tracks)
    else playlist in
  Ok (playlist, [DemoAdded (Z.min count (Z.of_nat n)) (Playlist_len playlist)]).

(** The sort the [show] and [filter] commands apply to a list. *)
Definition sort_tracks (sort : option string) (reverse_order : bool) (l : list Track)
    : list Track :=
  match sort with
  | Some k =>
      if String.eqb k "duration" then list_sort Z.leb duration_seconds reverse_order l
      else if String.eqb k "title"
           then list_sort String.leb (fun t => Py.lower (title t)) reverse_order l
      else if String.eqb k "artist"
           then list_sort String.leb (fun t => Py.lower (artist t)) reverse_order l
      else l
  | None => l
  end.

(** [MusicManagerCLI.handle_show] *)
Definition handle_show (self : Playlist) (sort : option string) (reverse_order : bool)
    : Playlist * list cli_output :=
  match tracks self with
  | [] => (self, [PlaylistEmpty])
  | _ =>
      let self :=
        match sort with
        | Some k =>
            if String.eqb k "" then self
            else if String.eqb k "duration" then sort_by_duration self reverse_order
            else if String.eqb k "title" then sort_by_title self reverse_order
            else if String.eqb k "artist" then sort_by_artist self reverse_order
            else self
        | None => self
        end in
      (self, display_tracks self None)
  end.

Record FilterArgs : Type := mkFilterArgs {
  flt_artist : option string;
  flt_genre : option string;
  flt_year : option Z;
  flt_min_duration : option Z;
  flt_max_duration : option Z;
  flt_sort : option string;
  flt_reverse : bool
}.

(** Truth of an optional string or integer: [None], [""] and 0 are
    false. *)
Definition truthy_str (o : option string) : bool :=
  match o with
  | Some s => negb (String.eqb s "")
  | None => false
  end.

Definition truthy_int (o : option Z) : bool :=
  match o with
  | Some z => negb (z =? 0)
  | None => false
  end.

(** [o or d] for an optional integer *)
Definition or_default (o : option Z) (d : Z) : Z :=
  if truthy_int o then default d o else d.

(** [MusicManagerCLI.handle_filter]; the playlist is only read. *)
Definition handle_filter (self : Playlist) (args : FilterArgs) : result (list cli_output) :=
  match tracks self with
  | [] => Ok [PlaylistEmpty]
  | _ =>
      let finish (header : list cli_output) (filtered_tracks : list Track) :=
        match filtered_tracks with
        | [] => (header ++ [NoMatch])%list
        | _ =>
            let shown :=
              if truthy_str (flt_sort args)
              then sort_tracks (flt_sort args) (flt_reverse args) filtered_tracks
              else filtered_tracks in
            (header ++ display_tracks self (Some shown))%list
        end in
      if truthy_str (flt_artist args) then
        let a := default EmptyString (flt_artist args) in
        Ok (finish [HeaderArtist a] (get_tracks_by_artist self a))
      else if truthy_str (flt_genre args) then
        genre ← genre_by_name (default EmptyString (flt_genre args));
        Ok (finish [HeaderGenre (value genre)] (get_tracks_by_genre self genre))
      else if truthy_int (flt_year args) then
        let y := default 0 (flt_year args) in
        Ok (finish [HeaderYear y] (get_tracks_by_year self y))
      else if truthy_int (flt_min_duration args) || truthy_int (flt_max_duration args) then
        let min_sec := or_default (flt_min_duration args) 0 in
        let max_sec := or_default (flt_max_duration args) 86400 in
        if min_sec >? max_sec then Ok [MinAboveMax]
        else Ok (finish [HeaderDuration min_sec max_sec]
                   (get_tracks_in_duration_range self min_sec max_sec))
      else Ok (finish [] [])
  end.

(** [remove(index)] of the second file, on the global playlist: the
    index counts from 1. *)
Definition remove (playlist : Playlist) (index : Z) : Playlist * list cli_output :=
  match tracks playlist with
  | [] => (playlist, [PlaylistEmpty])
  | _ =>
      if (index <? 1) || (index >? Playlist_len playlist)
      then (playlist, [BadIndex (Playlist_len playlist)])
      else
        (* [playlist.tracks[index - 1]], inside the list after the test above *)
        match tracks playlist !! Z.to_nat (index - 1) with
        | Some removed_track =>
            let '(ok, playlist) := remove_track playlist (index - 1) in
            if ok then (playlist, [TrackRemoved removed_track (Playlist_len playlist)])
            else (playlist, [RemoveFailed index])
        | None => (playlist, [])
        end
  end.

(** ** The invariants as the specification words them *)

(** The four construction invariants of the specification, the third one
    on the duration in whole seconds. *)
Definition spec_invariants (title artist : string) (duration : timedelta)
    (year : option Z) : Prop :=
  Py.strip title <> "" /\
  Py.strip artist <> "" /\
  0 < total_seconds_int duration /\
  match year with Some y => 1900 <= y <= 2100 | None => True end.

(** The invariants [__post_init__] checks: the third one on the time span
    itself. *)
Definition code_invariants (title artist : string) (duration : timedelta)
    (year : option Z) : Prop :=
  Py.strip title <> "" /\
  Py.strip artist <> "" /\
  0 < total_microseconds duration /\
  match year with Some y => 1900 <= y <= 2100 | None => True end.

(** A track the constructor accepts, holding a [timedelta] in range. *)
Definition valid (t : Track) : Prop :=
  Track_new (title t) (artist t) (duration t) (genre t) (year t) = Ok t /\
  td_in_range (duration t) = true.

Definition whole_seconds (d : timedelta) : Prop :=
  total_microseconds d mod us_per_second = 0.

(** ** Auxiliary notions for the proofs *)

Definition is_digit (c : ascii) : bool :=
  match Py.digit_of c with Some _ => true | None => false end.

Fixpoint is_digits (s : string) : bool :=
  match s with
  | EmptyString => true
  | String c r => is_digit c && is_digits r
  end.

(** Text of ASCII characters only, and text of ASCII whitespace only. *)
Definition is_ascii_char (c : ascii) : bool := (N_of_ascii c <? 128)%N.

Fixpoint is_ascii (s : string) : bool :=
  match s with
  | EmptyString => true
  | String c r => is_ascii_char c && is_ascii r
  end.

Fixpoint is_spaces (s : string) : bool :=
  match s with
  | EmptyString => true
  | String c r => is_ascii_char c && Py.isspace (N_of_ascii c) && is_spaces r
  end.

(** Lower case and trimming as they are for a text of ASCII characters:
    the letters A..Z become a..z, and the whitespace is TAB..CR, FS..US
    and the space. *)
Definition ascii_lower_char (c : ascii) : ascii :=
  let n := nat_of_ascii c in
  if ((65 <=? n)%nat && (n <=? 90)%nat) then ascii_of_nat (n + 32) else c.

Fixpoint ascii_lower (s : string) : string :=
  match s with
  | String c r => String (ascii_lower_char c) (ascii_lower r)
  | EmptyString => EmptyString
  end.

Definition ascii_isspace (c : ascii) : bool :=
  let n := nat_of_ascii c in
  ((9 <=? n)%nat && (n <=? 13)%nat) || ((28 <=? n)%nat && (n <=? 32)%nat).

Fixpoint ascii_lstrip (s : string) : string :=
  match s with
  | String c r => if ascii_isspace c then ascii_lstrip r else s
  | EmptyString => EmptyString
  end.

Fixpoint ascii_rstrip (s : string) : string :=
  match s with
  | String c r =>
      match ascii_rstrip r with
      | EmptyString => if ascii_isspace c then EmptyString else String c EmptyString
      | r' => String c r'
      end
  | EmptyString => EmptyString
  end.

Definition ascii_strip (s : string) : string := ascii_rstrip (ascii_lstrip s).

(** The bytes of a text, as numbers. *)
Definition bytes (s : string) : list N := List.map N_of_ascii (list_ascii_of_string s).



(** The first [k] bytes of [s] are there and continue a character. *)
Fixpoint continues (k : nat) (s : string) : bool :=
  match k, s with
  | O, _ => true
  | S k, String c r =>
      match Py.continuation c with Some _ => continues k r | None => false end
  | S _, EmptyString => false
  end.

(** The number a [Decimal.uint] denotes, read most significant digit
    first on top of [acc]. *)
Fixpoint uint_value (d : uint) (acc : N) : N :=
  match d with
  | Nil => acc
  | D0 d => uint_value d (10 * acc + 0)%N
  | D1 d => uint_value d (10 * acc + 1)%N
  | D2 d => uint_value d (10 * acc + 2)%N
  | D3 d => uint_value d (10 * acc + 3)%N
  | D4 d => uint_value d (10 * acc + 4)%N
  | D5 d => uint_value d (10 * acc + 5)%N
  | D6 d => uint_value d (10 * acc + 6)%N
  | D7 d => uint_value d (10 * acc + 7)%N
  | D8 d => uint_value d (10 * acc + 8)%N
  | D9 d => uint_value d (10 * acc + 9)%N
  end.

(** The tracks a list of records yields, in order, and the warnings for
    the records [from_dict] refuses. *)
Definition loaded_tracks (records : list json) : list Track :=
  omap (fun r => match from_dict r with Ok t => Some t | Raise _ => None end) records.

Definition skipped (records : list json) : list output :=
  omap (fun r => match from_dict r with Ok _ => None | Raise e => Some (TrackSkipped e) end)
    records.

Definition with_genre (g : MusicGenre) (t : Track) : Track :=
  mkTrack (title t) (artist t) (duration t) g (year t).

Definition result_map {A B} (f : A -> B) (r : result A) : result B :=
  match r with Ok a => Ok (f a) | Raise e => Raise e end.

(** How many tracks of the playlist carry genre [g]. *)
Definition genre_count (self : Playlist) (g : MusicGenre) : nat :=
  List.length (List.filter (fun track => bool_decide (genre track = g)) (tracks self)).

(** How many tracks of the playlist carry year [y]. *)
Definition year_count (self : Playlist) (y : Z) : nat :=
  List.length (get_tracks_by_year self y).

(** The artists of the playlist in lower case, one entry per track. *)
Definition artist_keys (self : Playlist) : list string :=
  List.map (fun t => Py.lower (artist t)) (tracks self).


(** The playlist after a run of [handle_add] calls. *)
Definition run_adds (self : Playlist) (commands : list AddArgs) : Playlist :=
  List.fold_left (fun p args => fst (handle_add p args)) commands self.

(** The track with its duration cut down to whole seconds. *)
Definition truncate_seconds (t : Track) : Track :=
  mkTrack (title t) (artist t) (Timedelta (duration_seconds t * us_per_second))
    (genre t) (year t).

(** ** Sample data *)

Definition bohemian : Track :=
  mkTrack "Bohemian Rhapsody" "Queen" (Timedelta (355 * us_per_second)) ROCK (Some 1975).
Definition so_what : Track :=
  mkTrack "So What" "Miles Davis" (Timedelta (3661 * us_per_second)) JAZZ None.
Definition one_more_time : Track :=
  mkTrack "One More Time" "Daft Punk" (Timedelta (125 * us_per_second)) ELECTRONIC (Some 2000).

Definition sample_playlist : Playlist :=
  mkPlaylist (JString "Favourites") [bohemian; so_what; one_more_time].

(** Two tracks of one artist, written in two ways. *)
Definition gruppa_krovi : Track :=
  mkTrack "Группа крови" "Кино" (Timedelta (285 * us_per_second)) ROCK (Some 1988).
Definition zvezda : Track :=
  mkTrack "Звезда по имени Солнце" "КИНО" (Timedelta (225 * us_per_second)) ROCK (Some 1989).

(** A document whose ["tracks"] entry is [null]. *)
Definition null_tracks_fs : gmap string file :=
  {[ "broken.json" :=
       FileJson (JObject [ ("playlist_name", JString "Other"); ("tracks", JNull) ]) ]}.

(** A document with two well-formed records around a malformed one. *)
Definition mixed_records : list json :=
  [ to_dict bohemian;
    JObject [ ("title", JString "No duration"); ("artist", JString "Nobody") ];
    to_dict so_what ].

Definition mixed_fs : gmap string file :=
  {[ "mixed.json" :=
       FileJson (JObject [ ("playlist_name", JString "Mixed");
                           ("tracks", JList mixed_records) ]) ]}.

(** A document without a ["tracks"] entry. *)
Definition no_tracks_fs : gmap string file :=
  {[ "empty.json" := FileJson (JObject [ ("playlist_name", JString "Empty") ]) ]}.

(** * Proofs *)

(** ** The built-ins on examples *)

Example strip_queen : Py.strip "  queen  " = "queen".
Proof. reflexivity. Qed.
Example lower_queen : Py.lower "Queen" = "queen".
Proof. reflexivity. Qed.
Example split_ex : Py.split ":" "1:2:3:4" = ["1"; "2"; "3"; "4"].
Proof. reflexivity. Qed.
Example split_bad : Py.split ":" "bad" = ["bad"].
Proof. reflexivity. Qed.
Example int_ex1 : Py.int " -1_0 " = Ok (-10).
Proof. reflexivity. Qed.
Example int_ex2 : is_ok (Py.int "1__0") = false.
Proof. reflexivity. Qed.
Example int_ex3 : Py.int "05" = Ok 5.
Proof. reflexivity. Qed.
Example int_ex4 : Py.int "１２" = Ok 12.
Proof. reflexivity. Qed.
Example lower_kino : Py.lower "КИНО" = "кино".
Proof. reflexivity. Qed.
Example lower_sigma : Py.lower "ΟΔΥΣΣΕΥΣ" = "οδυσσευς".
Proof. reflexivity. Qed.
Example strip_nbsp : Py.strip (Py.encode [160; 81; 8195]%N) = "Q".
Proof. reflexivity. Qed.
Example decode_ex : Py.decode "aПb" = [97; 1055; 98]%N.
Proof. reflexivity. Qed.
Example fmt_ex1 : Py.format_0d 2 5 = "05".
Proof. reflexivity. Qed.
Example fmt_ex2 : Py.format_0d 2 123 = "123".
Proof. reflexivity. Qed.
Example fmt_ex3 : Py.format_0d 2 (-5) = "-5".
Proof. reflexivity. Qed.
Example fmt_ex4 : Py.format_0d 6 (-5) = "-00005".
Proof. reflexivity. Qed.
Example chars_ex : List.length (Py.chars "aПb") = 3%nat.
Proof. reflexivity. Qed.
Example td_str_ex : td_str (Timedelta (90061 * us_per_second)) = "1 day, 1:01:01".
Proof. reflexivity. Qed.
Example int_fs : is_ok (Py.int (String (ascii_of_nat 28) "5")) = false.
Proof. reflexivity. Qed.

(** The longest [timedelta] has 86399999999999.999999 seconds; the double
    nearest to that is 86400000000000. The double rounds up from 2^34
    seconds on, not below. *)
Example total_seconds_max :
  total_seconds_int (Timedelta ((max_days + 1) * us_per_day - 1)) = 86400000000000.
Proof. vm_compute. reflexivity. Qed.
Example total_seconds_round_up :
  total_seconds_int (Timedelta (2 ^ 34 * us_per_second + 999999)) = 2 ^ 34 + 1.
Proof. vm_compute. reflexivity. Qed.
Example total_seconds_round_down :
  total_seconds_int (Timedelta ((2 ^ 34 - 1) * us_per_second + 999999)) = 2 ^ 34 - 1.
Proof. vm_compute. reflexivity. Qed.

(** Lower case before upper case of the same letter, in any script. *)
Example sort_by_title_ex :
  List.map title
    (tracks (sort_by_title
       (mkPlaylist (JString "p")
          [mkTrack "Я" "x" (Timedelta 1) OTHER None; mkTrack "а" "x" (Timedelta 1) OTHER None])
       false))
  = ["а"; "Я"].
Proof. vm_compute. reflexivity. Qed.

(** ** Decimal text *)

Lemma digit_char c :
  is_digit c = true ->
  Py.is_c_space c = false /\ Ascii.eqb c "-" = false /\ Ascii.eqb c "+" = false
  /\ Ascii.eqb c ":" = false /\ (N_of_ascii c <? 127)%N = true.
Proof.
  destruct c as [[] [] [] [] [] [] [] []]; vm_compute; intuition congruence.
Qed.

Lemma append_cons c a b : String c a +:+ b = String c (a +:+ b).
Proof. reflexivity. Qed.

Lemma append_nil b : "" +:+ b = b.
Proof. reflexivity. Qed.

Lemma decode_ascii_cons c r :
  (N_of_ascii c <? 128)%N = true -> Py.decode (String c r) = N_of_ascii c :: Py.decode r.
Proof.
  intros H. unfold Py.decode. cbn [Py.decode_from]. unfold Py.first_char.
  rewrite H. reflexivity.
Qed.

Lemma ascii_lt_127 c : (N_of_ascii c <? 127)%N = true -> (N_of_ascii c <? 128)%N = true.
Proof. rewrite !N.ltb_lt. lia. Qed.

(** The bytes a character takes are there; an ASCII byte is a character
    of its own, and no other character is an ASCII one. *)
Lemma first_char_spec c r :
  continues (snd (Py.first_char c r)) r = true /\
  ((N_of_ascii c <? 128)%N = true -> Py.first_char c r = (N_of_ascii c, 0%nat)) /\
  ((N_of_ascii c <? 128)%N = false -> (fst (Py.first_char c r) <? 127)%N = false).
Proof.
  unfold Py.first_char, Py.raw_byte. cbv zeta.
  destruct (N.ltb_spec (N_of_ascii c) 128) as [H|H].
  { repeat split; try reflexivity. discriminate. }
  split; [|split; [discriminate|intros _]].
  - repeat (destruct (_ <? _)%N; [try reflexivity|]); try reflexivity;
      repeat match goal with
             | |- context [match ?s with EmptyString => _ | String _ _ => _ end] =>
                 destruct s; try reflexivity
             | |- context [match Py.continuation ?a with _ => _ end] =>
                 destruct (Py.continuation a) eqn:?; try reflexivity
             | |- context [if ?b then _ else _] => destruct b; try reflexivity
             end;
      cbn [snd continues];
      repeat match goal with H : Py.continuation _ = Some _ |- _ => rewrite H; clear H end;
      reflexivity.
  - repeat (destruct (N.ltb_spec (N_of_ascii c) _); [|]);
      repeat match goal with
             | |- context [match ?s with EmptyString => _ | String _ _ => _ end] =>
                 destruct s
             | |- context [match Py.continuation ?a with _ => _ end] =>
                 destruct (Py.continuation a) eqn:?
             | |- context [if ?b then _ else _] => destruct b eqn:?
             end;
      cbn [fst]; apply N.ltb_ge; try lia;
      repeat match goal with
             | H : (_ && _)%bool = true |- _ => apply andb_prop in H as [? ?]
             | H : (_ <=? _)%N = true |- _ => apply N.leb_le in H
             | H : (_ <? _)%N = false |- _ => apply N.ltb_ge in H
             | H : (_ <? _)%N = true |- _ => apply N.ltb_lt in H
             end; lia.
Qed.

(** A text of ASCII digits reaches [int] as it is. *)
Lemma ascii_literal_digits s :
  is_digits s = true -> Py.ascii_literal (Py.decode s) = s.
Proof.
  induction s as [|c r IH]; [reflexivity|]. simpl is_digits.
  intros [Hc Hr]%andb_prop. apply digit_char in Hc as (_ & _ & _ & _ & Hc).
  rewrite decode_ascii_cons by (apply ascii_lt_127, Hc).
  cbn [Py.ascii_literal]. rewrite Hc, ascii_N_embedding, (IH Hr). reflexivity.
Qed.

Lemma is_digits_app a b :
  is_digits a = true -> is_digits b = true -> is_digits (a +:+ b) = true.
Proof.
  induction a as [|c a IH]; simpl; [tauto|].
  intros [Hc Ha]%andb_prop Hb. rewrite Hc. simpl. auto.
Qed.

Lemma is_digits_zeros n : is_digits (Py.zeros n) = true.
Proof. induction n; simpl; auto. Qed.

Lemma is_digits_uint d : is_digits (NilEmpty.string_of_uint d) = true.
Proof. induction d; simpl; auto. Qed.

Lemma is_digits_str_of_N n : is_digits (Py.str_of_N n) = true.
Proof. apply is_digits_uint. Qed.

Lemma to_uint_not_nil n : N.to_uint n <> Nil.
Proof.
  intros E. pose proof (DecimalN.Unsigned.of_to n) as H.
  rewrite E in H. simpl in H. subst n. discriminate E.
Qed.

Lemma str_of_N_nonempty n : Py.str_of_N n <> "".
Proof.
  unfold Py.str_of_N. pose proof (to_uint_not_nil n) as H.
  destruct (N.to_uint n); simpl; congruence.
Qed.

Lemma lstrip_c_digits s : is_digits s = true -> Py.lstrip_c s = s.
Proof.
  destruct s as [|c r]; simpl; [reflexivity|].
  intros [Hc _]%andb_prop. apply digit_char in Hc as (-> & _). reflexivity.
Qed.

Lemma rstrip_c_digits s : is_digits s = true -> Py.rstrip_c s = s.
Proof.
  induction s as [|c r IH]; simpl; [reflexivity|].
  intros [Hc Hr]%andb_prop. rewrite (IH Hr).
  apply digit_char in Hc as (-> & _). destruct r; reflexivity.
Qed.

Lemma scan_digits_step b c k r acc :
  Py.digit_of c = Some k ->
  Py.scan_digits b (String c r) acc = Py.scan_digits true r (10 * acc + k)%N.
Proof. intros H. simpl. rewrite H. reflexivity. Qed.

Lemma scan_digits_uint d : forall b acc,
  b = true \/ d <> Nil ->
  Py.scan_digits b (NilEmpty.string_of_uint d) acc = Some (uint_value d acc).
Proof.
  induction d; intros b acc Hb; simpl NilEmpty.string_of_uint;
    try (erewrite scan_digits_step by reflexivity; simpl uint_value;
         destruct d; solve [reflexivity | apply IHd; right; discriminate]).
  destruct Hb as [->|Hb]; [reflexivity | congruence].
Qed.

Lemma scan_digits_zeros n s : forall b,
  Py.scan_digits b (Py.zeros n +:+ s) 0
  = Py.scan_digits (match n with O => b | S _ => true end) s 0.
Proof.
  induction n as [|n IH]; intros b; [reflexivity|].
  simpl Py.zeros. rewrite append_cons.
  erewrite scan_digits_step by reflexivity. simpl (10 * 0 + 0)%N.
  rewrite IH. destruct n; reflexivity.
Qed.

Lemma of_uint_acc_value l : forall p,
  Npos (Pos.of_uint_acc l p) = uint_value l (Npos p).
Proof.
  induction l; intros p; simpl; try reflexivity;
    rewrite IHl; f_equal; lia.
Qed.

Lemma of_uint_value d : N.of_uint d = uint_value d 0.
Proof.
  unfold N.of_uint.
  induction d; simpl; try reflexivity; try apply of_uint_acc_value.
  exact IHd.
Qed.

Lemma uint_value_to_uint n : uint_value (N.to_uint n) 0 = n.
Proof. rewrite <- of_uint_value. apply DecimalN.Unsigned.of_to. Qed.

(** The number of digits of a printed number. *)
Lemma count_digits_length s : (Py.count_digits s <= String.length s)%nat.
Proof.
  induction s as [|c r IH]; simpl; [lia|]. destruct (Py.digit_of c); lia.
Qed.

Lemma length_append a b :
  String.length (a +:+ b) = (String.length a + String.length b)%nat.
Proof. induction a as [|c a IH]; [reflexivity|]. rewrite append_cons. simpl. lia. Qed.

Lemma length_zeros n : String.length (Py.zeros n) = n.
Proof. induction n; simpl; auto. Qed.

Lemma length_string_of_uint d :
  String.length (NilEmpty.string_of_uint d) = nb_digits d.
Proof. induction d; simpl; congruence. Qed.

Lemma uint_value_ge d : forall acc,
  (acc * 10 ^ N.of_nat (nb_digits d) <= uint_value d acc)%N.
Proof.
  induction d; intros acc; cbn [nb_digits uint_value];
    try (rewrite Nat2N.inj_succ, N.pow_succ_r';
         etransitivity; [|apply IHd];
         rewrite N.mul_assoc; apply N.mul_le_mono_r; lia).
  simpl. lia.
Qed.

Lemma to_uint_digits n k :
  (n < 10 ^ N.of_nat k)%N -> (1 <= k)%nat -> (nb_digits (N.to_uint n) <= k)%nat.
Proof.
  intros Hn Hk.
  assert (Hnorm : unorm (N.to_uint n) = N.to_uint n)
    by (rewrite <- DecimalN.Unsigned.to_of, DecimalN.Unsigned.of_to; reflexivity).
  pose proof (uint_value_to_uint n) as Hv.
  pose proof (DecimalFacts.nzhead_nonzero (N.to_uint n)) as Hnz.
  unfold unorm in Hnorm. rewrite <- Hnorm in Hv |- *.
  destruct (nzhead (N.to_uint n)) as [|u|u|u|u|u|u|u|u|u|u];
    [simpl; lia | exfalso; eapply Hnz; reflexivity | ..];
    cbn [uint_value nb_digits] in *;
    match type of Hv with uint_value ?u ?a = _ =>
      pose proof (uint_value_ge u a) as Hge end;
    rewrite Hv in Hge;
    (destruct (Nat.le_gt_cases (S (nb_digits u)) k) as [?|Hgt]; [assumption|]);
    exfalso;
    assert (10 ^ N.of_nat k <= 10 ^ N.of_nat (nb_digits u))%N
      by (apply N.pow_le_mono_r; lia);
    lia.
Qed.

Lemma length_str_of_N n k :
  (n < 10 ^ N.of_nat k)%N -> (1 <= k)%nat -> (String.length (Py.str_of_N n) <= k)%nat.
Proof.
  intros Hn Hk. unfold Py.str_of_N. rewrite length_string_of_uint.
  apply to_uint_digits; assumption.
Qed.

(** Forty digits hold every number of seconds or minutes of a
    [timedelta], with room to spare. *)
Lemma length_format_0d_le w z :
  0 <= z < 10 ^ 40 -> (w <= 40)%nat ->
  (String.length (Py.format_0d w z) <= Py.max_str_digits)%nat.
Proof.
  intros Hz Hw. unfold Py.format_0d. destruct (Z.ltb_spec z 0); [lia|].
  rewrite length_append, length_zeros.
  assert (String.length (Py.str_of_N (Z.to_N z)) <= 40)%nat.
  { apply length_str_of_N; [|lia]. change (10 ^ N.of_nat 40)%N with (Z.to_N (10 ^ 40)).
    lia. }
  unfold Py.max_str_digits. lia.
Qed.

(** Reading back a number printed with the ["0<w>d"] format. *)
Lemma int_format_0d w z :
  0 <= z -> (String.length (Py.format_0d w z) <= Py.max_str_digits)%nat ->
  Py.int (Py.format_0d w z) = Ok z.
Proof.
  intros Hz Hlen. unfold Py.format_0d in *.
  destruct (Z.ltb_spec z 0) as [?|_]; [lia|].
  set (text := Py.zeros _ +:+ _) in *.
  assert (Hd : is_digits text = true)
    by (apply is_digits_app; [apply is_digits_zeros | apply is_digits_str_of_N]).
  unfold Py.int.
  rewrite (ascii_literal_digits _ Hd), (lstrip_c_digits _ Hd), (rstrip_c_digits _ Hd).
  assert (Hsign : (match text with
                   | String c r =>
                       if Ascii.eqb c "-" then (true, r)
                       else if Ascii.eqb c "+" then (false, r) else (false, text)
                   | EmptyString => (false, text)
                   end) = (false, text)).
  { destruct text as [|c r]; [reflexivity|]. simpl in Hd.
    apply andb_prop in Hd as [Hc _]. apply digit_char in Hc as (_ & -> & -> & _).
    reflexivity. }
  rewrite Hsign.
  pose proof (count_digits_length text) as Hcount.
  destruct (Nat.ltb_spec Py.max_str_digits (Py.count_digits text)) as [?|_]; [lia|].
  subst text. rewrite scan_digits_zeros.
  unfold Py.str_of_N. rewrite scan_digits_uint.
  - rewrite uint_value_to_uint, Z2N.id by lia. reflexivity.
  - right. apply to_uint_not_nil.
Qed.

Lemma int_format_0d_small w z :
  0 <= z < 10 ^ 40 -> (w <= 40)%nat -> Py.int (Py.format_0d w z) = Ok z.
Proof.
  intros Hz Hw. apply int_format_0d; [lia|]. apply length_format_0d_le; assumption.
Qed.

(** Whatever [int] raises is its own error. *)
Lemma int_raise s e : Py.int s = Raise e -> e = IntError s.
Proof.
  unfold Py.int.
  destruct (match Py.rstrip_c (Py.lstrip_c (Py.ascii_literal (Py.decode s))) with
            | String c r =>
                if Ascii.eqb c "-" then (true, r)
                else if Ascii.eqb c "+" then (false, r)
                else (false, Py.rstrip_c (Py.lstrip_c (Py.ascii_literal (Py.decode s))))
            | EmptyString =>
                (false, Py.rstrip_c (Py.lstrip_c (Py.ascii_literal (Py.decode s))))
            end) as [neg digits].
  destruct (_ <? _)%nat; [congruence|].
  destruct (Py.scan_digits false digits 0); [discriminate|]. congruence.
Qed.

Lemma split_digits a : is_digits a = true -> Py.split ":" a = [a].
Proof.
  induction a as [|c r IH]; simpl; [reflexivity|].
  intros [Hc Hr]%andb_prop. apply digit_char in Hc as (_ & _ & _ & -> & _).
  rewrite (IH Hr). reflexivity.
Qed.

Lemma split_digits_colon a rest :
  is_digits a = true -> Py.split ":" (a +:+ ":" +:+ rest) = a :: Py.split ":" rest.
Proof.
  induction a as [|c r IH]; [reflexivity|]. simpl is_digits.
  intros [Hc Hr]%andb_prop. apply digit_char in Hc as (_ & _ & _ & Hc & _).
  rewrite append_cons. simpl Py.split. rewrite Hc, (IH Hr). reflexivity.
Qed.

Lemma is_digits_format_0d w z : 0 <= z -> is_digits (Py.format_0d w z) = true.
Proof.
  intros Hz. unfold Py.format_0d. destruct (Z.ltb_spec z 0); [lia|].
  apply is_digits_app; [apply is_digits_zeros | apply is_digits_str_of_N].
Qed.

(** ** Construction *)

Lemma Track_new_unfold title artist d g y :
  Track_new title artist d g y =
    if String.eqb (Py.strip title) "" then Raise (ValueError msg_title)
    else if String.eqb (Py.strip artist) "" then Raise (ValueError msg_artist)
    else if total_microseconds d <=? 0 then Raise (ValueError msg_duration)
    else match y with
         | Some z =>
             if (z <? 1900) || (z >? 2100) then Raise (ValueError msg_year)
             else Ok (mkTrack title artist d g y)
         | None => Ok (mkTrack title artist d g y)
         end.
Proof. unfold Track_new, Track_init. destruct y; reflexivity. Qed.

Lemma year_check z : (z <? 1900) || (z >? 2100) = false <-> 1900 <= z <= 2100.
Proof. rewrite orb_false_iff, Z.ltb_ge, Z.gtb_ltb, Z.ltb_ge. lia. Qed.

Lemma Track_new_ok title artist d g y :
  code_invariants title artist d y ->
  Track_new title artist d g y = Ok (mkTrack title artist d g y).
Proof.
  intros (Ht & Ha & Hd & Hy). rewrite Track_new_unfold.
  apply String.eqb_neq in Ht, Ha. rewrite Ht, Ha.
  destruct (Z.leb_spec (total_microseconds d) 0); [lia|].
  destruct y as [z|]; [|reflexivity].
  apply year_check in Hy. rewrite Hy. reflexivity.
Qed.

Lemma Track_new_inv title artist d g y t :
  Track_new title artist d g y = Ok t ->
  code_invariants title artist d y /\ t = mkTrack title artist d g y.
Proof.
  rewrite Track_new_unfold. unfold code_invariants.
  destruct (String.eqb_spec (Py.strip title) ""); [discriminate|].
  destruct (String.eqb_spec (Py.strip artist) ""); [discriminate|].
  destruct (Z.leb_spec (total_microseconds d) 0); [discriminate|].
  destruct y as [z|].
  - destruct ((z <? 1900) || (z >? 2100)) eqn:E; [discriminate|].
    apply year_check in E. intros [= <-]. auto.
  - intros [= <-]. auto.
Qed.

Lemma valid_inv t :
  valid t ->
  code_invariants (title t) (artist t) (duration t) (year t)
  /\ td_in_range (duration t) = true.
Proof. intros [H R]. apply Track_new_inv in H as [H _]. auto. Qed.

(** ** Whole seconds of a time span *)

Lemma round_div_exact n d : 0 < d -> round_div (n * d) d = n.
Proof.
  intros Hd. unfold round_div. rewrite Z.div_mul, Z.mod_mul by lia.
  destruct (Z.ltb_spec (2 * 0) d); [reflexivity|lia].
Qed.

Lemma round_div_bounds n d :
  0 <= n -> 0 < d -> n / d <= round_div n d <= n / d + 1.
Proof.
  intros Hn Hd. unfold round_div.
  destruct (_ <? _); [lia|]. destruct (_ <? _); [lia|]. destruct (Z.even _); lia.
Qed.

Lemma td_in_range_bounds d :
  td_in_range d = true ->
  - (max_days * us_per_day) <= total_microseconds d < (max_days + 1) * us_per_day.
Proof.
  unfold td_in_range, td_days. rewrite andb_true_iff, !Z.leb_le.
  unfold us_per_day, us_per_second, max_days. intros [H1 H2].
  pose proof (Z.div_mod (total_microseconds d) (86400 * 1000000) ltac:(lia)).
  pose proof (Z.mod_pos_bound (total_microseconds d) (86400 * 1000000) ltac:(lia)).
  lia.
Qed.

(** A whole number of seconds below 2^53 is a double: nothing is lost. *)
Lemma total_seconds_int_whole k :
  Z.abs k < 2 ^ 53 -> total_seconds_int (Timedelta (k * us_per_second)) = k.
Proof.
  intros Hk. unfold total_seconds_int. cbn [total_microseconds].
  assert (Hus : 0 < us_per_second) by (unfold us_per_second; lia).
  replace (Z.abs (k * us_per_second)) with (Z.abs k * us_per_second) by lia.
  rewrite Z.div_mul by lia.
  destruct (Z.eqb_spec (Z.abs k) 0) as [E|E]; [lia|].
  assert (Hlog : Z.log2 (Z.abs k) < 53) by (apply Z.log2_lt_pow2; lia).
  assert (Hsgn : Z.sgn (k * us_per_second) * Z.abs k = k) by nia.
  destruct (Z.ltb_spec (Z.log2 (Z.abs k) - 52) 0) as [He|He].
  - replace (Z.abs k * us_per_second * 2 ^ (- (Z.log2 (Z.abs k) - 52)))
      with (Z.abs k * 2 ^ (- (Z.log2 (Z.abs k) - 52)) * us_per_second) by lia.
    rewrite round_div_exact by lia.
    rewrite Z.div_mul; [exact Hsgn|].
    apply Z.pow_nonzero; lia.
  - replace (Z.log2 (Z.abs k) - 52) with 0 by lia.
    rewrite Z.pow_0_r, !Z.mul_1_r, round_div_exact by lia. exact Hsgn.
Qed.

(** Within the range of [timedelta] the seconds of a positive time span
    are its whole seconds, or one more where the double rounds up. *)
Lemma total_seconds_int_bounds d :
  0 <= total_microseconds d -> td_in_range d = true ->
  total_microseconds d / us_per_second <= total_seconds_int d
  <= total_microseconds d / us_per_second + 1.
Proof.
  intros Hp Hr. apply td_in_range_bounds in Hr.
  unfold total_seconds_int, max_days, us_per_day, us_per_second in *.
  rewrite Z.abs_eq by lia.
  set (us := total_microseconds d) in *. set (q := us / 1000000).
  assert (Hq : 0 <= q) by (apply Z.div_pos; lia).
  assert (Hq' : q < 2 ^ 47).
  { apply Z.div_lt_upper_bound; [lia|]. change (2 ^ 47) with 140737488355328. lia. }
  destruct (Z.eqb_spec q 0) as [E|E]; [lia|].
  assert (Hlog : Z.log2 q < 47) by (apply Z.log2_lt_pow2; lia).
  destruct (Z.ltb_spec (Z.log2 q - 52) 0) as [He|He]; [|lia].
  set (s := - (Z.log2 q - 52)). assert (Hs : 0 < 2 ^ s) by (apply Z.pow_pos_nonneg; lia).
  assert (Hsgn : Z.sgn us = 1).
  { apply Z.sgn_pos. destruct (Z.eq_dec us 0) as [H0|H0]; [|lia].
    subst q. rewrite H0 in E. discriminate E || (exfalso; apply E; reflexivity). }
  rewrite Hsgn, Z.mul_1_l.
  pose proof (round_div_bounds (us * 2 ^ s) 1000000 ltac:(nia) ltac:(lia)) as [Hlo Hhi].
  pose proof (Z.div_mod us 1000000 ltac:(lia)) as Hdm.
  pose proof (Z.mod_pos_bound us 1000000 ltac:(lia)) as Hmb.
  fold q in Hdm.
  assert (H1 : q * 2 ^ s <= us * 2 ^ s / 1000000).
  { apply Z.div_le_lower_bound; [lia|]. nia. }
  assert (H2 : us * 2 ^ s / 1000000 < (q + 1) * 2 ^ s).
  { apply Z.div_lt_upper_bound; [lia|]. nia. }
  split.
  - apply Z.div_le_lower_bound; [lia|]. lia.
  - apply Z.div_le_upper_bound; [lia|]. lia.
Qed.

Lemma total_seconds_int_nonneg d :
  0 <= total_microseconds d -> td_in_range d = true -> 0 <= total_seconds_int d.
Proof.
  intros Hp Hr. pose proof (total_seconds_int_bounds d Hp Hr) as [H _].
  etransitivity; [|exact H]. apply Z.div_pos; unfold us_per_second; lia.
Qed.

Lemma total_seconds_int_small d :
  0 <= total_microseconds d -> td_in_range d = true -> total_seconds_int d < 10 ^ 40.
Proof.
  intros Hp Hr. pose proof (total_seconds_int_bounds d Hp Hr) as [_ H].
  apply td_in_range_bounds in Hr.
  unfold max_days, us_per_day, us_per_second in *.
  assert (total_microseconds d / 1000000 < 10 ^ 20)
    by (apply Z.div_lt_upper_bound; lia).
  lia.
Qed.

(** ** Records *)

Lemma whole_seconds_total d :
  whole_seconds d -> 0 < total_microseconds d -> td_in_range d = true ->
  total_microseconds d = total_seconds_int d * us_per_second
  /\ 0 < total_seconds_int d.
Proof.
  intros Hw Hp Hr. apply td_in_range_bounds in Hr.
  unfold whole_seconds, max_days, us_per_day in *.
  pose proof (Z.div_mod (total_microseconds d) us_per_second) as E.
  rewrite Hw in E. destruct d as [us]. cbn [total_microseconds] in *.
  set (k := us / us_per_second) in *.
  assert (Hus : us = k * us_per_second) by (unfold us_per_second in *; lia).
  rewrite Hus at 2 3. rewrite total_seconds_int_whole.
  - unfold us_per_second in *. lia.
  - change (2 ^ 53) with 9007199254740992. unfold us_per_second in *. lia.
Qed.

Lemma parse_duration_str t :
  whole_seconds (duration t) -> 0 < total_microseconds (duration t) ->
  td_in_range (duration t) = true ->
  parse_duration (duration_str t) = Ok (duration t).
Proof.
  intros Hw Hp Hr. destruct (whole_seconds_total _ Hw Hp Hr) as [E HT].
  pose proof (total_seconds_int_small (duration t) ltac:(lia) Hr) as Hsmall.
  unfold duration_str, parse_duration.
  set (T := total_seconds_int (duration t)) in *.
  assert (Hm : 0 <= T / 60 < 10 ^ 40)
    by (split; [apply Z.div_pos; lia | apply Z.div_lt_upper_bound; lia]).
  assert (Hs : 0 <= T mod 60 < 60) by (apply Z.mod_pos_bound; lia).
  rewrite split_digits_colon by (apply is_digits_format_0d; lia).
  rewrite split_digits by (apply is_digits_format_0d; lia).
  rewrite !int_format_0d_small by lia. simpl.
  unfold timedelta_new.
  replace ((0 * 3600 + T / 60 * 60 + T mod 60) * us_per_second)
    with (total_microseconds (duration t))
    by (rewrite E; f_equal; pose proof (Z.div_mod T 60); lia).
  destruct (duration t) as [us]. simpl in *. rewrite Hr. reflexivity.
Qed.

Lemma find_genre_value g : find_genre (JString (value g)) = g.
Proof. destruct g; reflexivity. Qed.

Lemma bind_Ok {A B} (a : A) (f : A -> result B) : Ok a ≫= f = f a.
Proof. reflexivity. Qed.

Lemma from_dict_to_dict t :
  valid t -> whole_seconds (duration t) -> from_dict (to_dict t) = Ok t.
Proof.
  intros Hv Hw. destruct (valid_inv _ Hv) as [(_ & _ & Hp & _) Hr].
  unfold from_dict, to_dict.
  set (items := [("title", _); _; _; _; _]).
  replace (dict_item items "duration") with (Ok (JString (duration_str t)))
    by reflexivity.
  replace (dict_item items "title") with (Ok (JString (title t))) by reflexivity.
  replace (dict_item items "artist") with (Ok (JString (artist t))) by reflexivity.
  replace (dict_get items "genre") with (Some (JString (value (genre t))))
    by reflexivity.
  replace (dict_get items "year") with (Some (json_of_year (year t)))
    by reflexivity.
  rewrite bind_Ok, parse_duration_str, !bind_Ok by assumption.
  simpl default. rewrite find_genre_value.
  apply Hv.
Qed.

(** ** Loading and saving *)

Lemma loaded_tracks_cons r rs :
  loaded_tracks (r :: rs)
  = match from_dict r with
    | Ok t => t :: loaded_tracks rs
    | Raise _ => loaded_tracks rs
    end.
Proof. unfold loaded_tracks. simpl. destruct (from_dict r); reflexivity. Qed.

Lemma skipped_cons r rs :
  skipped (r :: rs)
  = match from_dict r with
    | Ok _ => skipped rs
    | Raise e => TrackSkipped e :: skipped rs
    end.
Proof. unfold skipped. simpl. destruct (from_dict r); reflexivity. Qed.

Lemma load_track_fold records : forall self out,
  List.fold_left load_track records (self, out)
  = (mkPlaylist (name self) (tracks self ++ loaded_tracks records),
     (out ++ skipped records)%list).
Proof.
  induction records as [|r records IH]; intros self out.
  - simpl. rewrite !app_nil_r. destruct self; reflexivity.
  - simpl List.fold_left. unfold load_track at 2.
    rewrite loaded_tracks_cons, skipped_cons.
    destruct (from_dict r) as [t|e]; simpl fst; simpl snd; rewrite IH.
    + unfold add_track. simpl. rewrite <- app_assoc. reflexivity.
    + rewrite <- app_assoc. reflexivity.
Qed.

Lemma loaded_tracks_to_dict ts :
  Forall (fun t => valid t /\ whole_seconds (duration t)) ts ->
  loaded_tracks (List.map to_dict ts) = ts /\ skipped (List.map to_dict ts) = [].
Proof.
  induction 1 as [|t ts [Hv Hw] _ [IH1 IH2]]; [split; reflexivity|].
  change (List.map to_dict (t :: ts)) with (to_dict t :: List.map to_dict ts).
  rewrite loaded_tracks_cons, skipped_cons, (from_dict_to_dict t Hv Hw), IH1, IH2.
  split; reflexivity.
Qed.

Lemma load_from_json_object fs self filename items records :
  read_json fs filename = Ok (JObject items) ->
  iterate (default (JList []) (dict_get items "tracks")) = Ok records ->
  load_from_json fs self filename
  = (true,
     mkPlaylist (default (name self) (dict_get items "playlist_name"))
                (loaded_tracks records),
     (skipped records ++ [Loaded filename (List.length (loaded_tracks records))])%list).
Proof.
  intros Hr Hi. unfold load_from_json. rewrite Hr. simpl name. rewrite Hi.
  rewrite load_track_fold. reflexivity.
Qed.

Lemma save_then_load fs self filename fresh_name :
  Forall (fun t => valid t /\ whole_seconds (duration t)) (tracks self) ->
  fs !! filename <> Some FileDenied ->
  exists fs',
    save_to_json fs self filename = (true, fs', [Saved filename]) /\
    load_from_json fs' (mkPlaylist fresh_name []) filename
    = (true, self, [Loaded filename (List.length (tracks self))]).
Proof.
  intros Hts Hf. unfold save_to_json, write_json.
  set (items := [("playlist_name", _); _]).
  exists (<[filename := FileJson (JObject items)]> fs). split.
  - destruct (fs !! filename) as [[]|]; congruence.
  - destruct (loaded_tracks_to_dict _ Hts) as [Hl Hs].
    rewrite (load_from_json_object _ _ _ items (List.map to_dict (tracks self))).
    + rewrite Hl, Hs. destruct self; reflexivity.
    + unfold read_json. rewrite lookup_insert_eq. reflexivity.
    + reflexivity.
Qed.

(** ** The properties of the specification *)

(** C1. A valid track whose duration is a whole number of seconds comes
    back from [from_dict (to_dict t)] unchanged in every field, an absent
    year included; so [to_dict] after that gives the same record again;
    and a playlist of such tracks written by [save_to_json] and read by
    [load_from_json] into a fresh playlist has the same tracks in the same
    order. *)
Theorem record_round_trip :
  (forall t, valid t -> whole_seconds (duration t) ->
     from_dict (to_dict t) = Ok t /\
     result_map to_dict (from_dict (to_dict t)) = Ok (to_dict t)) /\
  (forall fs self filename fresh_name,
     Forall (fun t => valid t /\ whole_seconds (duration t)) (tracks self) ->
     fs !! filename <> Some FileDenied ->
     exists fs',
       save_to_json fs self filename = (true, fs', [Saved filename]) /\
       load_from_json fs' (mkPlaylist fresh_name []) filename
       = (true, self, [Loaded filename (List.length (tracks self))])).
Proof.
  split.
  - intros t Hv Hw. rewrite (from_dict_to_dict t Hv Hw). split; reflexivity.
  - apply save_then_load.
Qed.

Lemma record_round_trip_witness :
  from_dict (to_dict so_what) = Ok so_what /\
  exists fs',
    save_to_json ∅ sample_playlist "playlist.json" = (true, fs', [Saved "playlist.json"]) /\
    load_from_json fs' (mkPlaylist (JString "New") []) "playlist.json"
    = (true, sample_playlist, [Loaded "playlist.json" 3%nat]).
Proof.
  split.
  - apply (proj1 record_round_trip so_what); [split; reflexivity | reflexivity].
  - apply (proj2 record_round_trip ∅ sample_playlist).
    + repeat (constructor; [split; [split; reflexivity | reflexivity] |]).
      constructor.
    + rewrite lookup_empty. discriminate.
Defined.

(** C2, the claim as worded fails: a duration of half a second is
    accepted, although the duration in whole seconds is 0. *)
Lemma sub_second_track_accepted :
  ~ (is_ok (Track_new "a" "b" (Timedelta 500000) OTHER None) = true
     <-> spec_invariants "a" "b" (Timedelta 500000) None).
Proof.
  intros [H _]. destruct (H eq_refl) as (_ & _ & Hd & _).
  vm_compute in Hd. discriminate.
Qed.

(** C2, amended. Construction succeeds exactly when the title and the
    artist are non-empty after trimming, the duration is a strictly
    positive time span, and the year is absent or within 1900..2100; when
    a check fails the [ValueError] carries the message of the first field
    that failed, in the order title, artist, duration, year. Trimming
    removes the whitespace of every script: a title made of a no-break
    space and an em space is refused as an empty one is. *)
Theorem Track_new_validation title artist d g y :
  (is_ok (Track_new title artist d g y) = true <-> code_invariants title artist d y) /\
  (code_invariants title artist d y ->
     Track_new title artist d g y = Ok (mkTrack title artist d g y)) /\
  (Py.strip title = "" ->
     Track_new title artist d g y = Raise (ValueError msg_title)) /\
  (Py.strip title <> "" -> Py.strip artist = "" ->
     Track_new title artist d g y = Raise (ValueError msg_artist)) /\
  (Py.strip title <> "" -> Py.strip artist <> "" -> total_microseconds d <= 0 ->
     Track_new title artist d g y = Raise (ValueError msg_duration)) /\
  (Py.strip title <> "" -> Py.strip artist <> "" -> 0 < total_microseconds d ->
   forall z, y = Some z -> z < 1900 \/ 2100 < z ->
     Track_new title artist d g y = Raise (ValueError msg_year)) /\
  NoDup [msg_title; msg_artist; msg_duration; msg_year] /\
  Track_new "" artist d g y = Raise (ValueError msg_title) /\
  Track_new "   " artist d g y = Raise (ValueError msg_title) /\
  Track_new "Song" "Singer" (Timedelta 0) g None = Raise (ValueError msg_duration) /\
  Track_new "Song" "Singer" (Timedelta (- us_per_second)) g None
    = Raise (ValueError msg_duration) /\
  Track_new "Song" "Singer" (Timedelta us_per_second) g (Some 1899)
    = Raise (ValueError msg_year) /\
  Track_new "Song" "Singer" (Timedelta us_per_second) g (Some 2101)
    = Raise (ValueError msg_year) /\
  Track_new (Py.encode [160; 8195]%N) artist d g y = Raise (ValueError msg_title).
Proof.
  repeat match goal with |- _ /\ _ => split end; try reflexivity.
  - split.
    + destruct (Track_new title artist d g y) as [t|e] eqn:E; [|discriminate].
      intros _. apply Track_new_inv in E. tauto.
    + intros H. rewrite (Track_new_ok _ _ _ g _ H). reflexivity.
  - apply Track_new_ok.
  - intros Ht. rewrite Track_new_unfold, Ht. reflexivity.
  - intros Ht%String.eqb_neq Ha. rewrite Track_new_unfold, Ht, Ha. reflexivity.
  - intros Ht%String.eqb_neq Ha%String.eqb_neq Hd%Z.leb_le.
    rewrite Track_new_unfold, Ht, Ha, Hd. reflexivity.
  - intros Ht%String.eqb_neq Ha%String.eqb_neq Hd%Z.leb_gt z -> Hz.
    rewrite Track_new_unfold, Ht, Ha, Hd.
    destruct ((z <? 1900) || (z >? 2100)) eqn:E; [reflexivity|].
    apply year_check in E. lia.
  - compute_done.
Qed.

Lemma Track_new_validation_witness :
  Track_new "Song" "Singer" (Timedelta us_per_second) OTHER (Some 1900)
  = Ok (mkTrack "Song" "Singer" (Timedelta us_per_second) OTHER (Some 1900)) /\
  Track_new "Song" " " (Timedelta us_per_second) OTHER None
  = Raise (ValueError msg_artist).
Proof.
  split.
  - apply (Track_new_validation "Song" "Singer" (Timedelta us_per_second) OTHER (Some 1900)).
    repeat split; try discriminate; vm_compute; congruence.
  - apply (Track_new_validation "Song" " " (Timedelta us_per_second) OTHER None).
    + discriminate.
    + reflexivity.
Defined.

(** C3, the claim as worded fails: the document below parses, its
    ["tracks"] entry cannot be iterated, and the load reports failure
    after it has replaced the name and emptied the tracks. *)
Lemma load_failure_after_clear :
  load_from_json null_tracks_fs sample_playlist "broken.json"
  = (false, mkPlaylist (JString "Other") [], [LoadFailed "broken.json" TypeError])
  /\ mkPlaylist (JString "Other") [] <> sample_playlist.
Proof. split; [reflexivity | discriminate]. Qed.

(** C3, amended. When the file is missing, cannot be opened or is not
    JSON, or when the document is not an object, [load_from_json]
    reports failure (each kind with its own message) and leaves the name
    and the tracks as they were; the playlist changes only after the file
    has been read and parsed. *)
Theorem load_failure_keeps_state fs self filename :
  (read_json fs filename = Raise FileNotFoundError ->
     load_from_json fs self filename = (false, self, [NotFound filename])) /\
  (read_json fs filename = Raise JSONDecodeError ->
     load_from_json fs self filename = (false, self, [BadJson filename])) /\
  (forall e, read_json fs filename = Raise e ->
     e <> FileNotFoundError -> e <> JSONDecodeError ->
     load_from_json fs self filename = (false, self, [LoadFailed filename e])) /\
  (forall doc, read_json fs filename = Ok doc -> (forall items, doc <> JObject items) ->
     load_from_json fs self filename
     = (false, self, [LoadFailed filename AttributeError])) /\
  (forall ok self' out, load_from_json fs self filename = (ok, self', out) ->
     self' <> self -> exists items, read_json fs filename = Ok (JObject items)).
Proof.
  unfold load_from_json. repeat split.
  - intros ->. reflexivity.
  - intros ->. reflexivity.
  - intros e -> H1 H2. destruct e; congruence.
  - intros doc -> H. destruct doc; try reflexivity. destruct (H items eq_refl).
  - intros ok self' out. destruct (read_json fs filename) as [doc|e].
    + destruct doc; try (intros [= <- <- <-]; congruence). eauto.
    + destruct e; intros [= <- <- <-]; congruence.
Qed.

Lemma load_failure_keeps_state_witness :
  load_from_json ∅ sample_playlist "missing.json"
  = (false, sample_playlist, [NotFound "missing.json"]).
Proof.
  apply (load_failure_keeps_state ∅ sample_playlist "missing.json").
  reflexivity.
Defined.



(** C10. When the document is an object without a ["tracks"] entry, the
    load succeeds and leaves no track; the name is the one under
    ["playlist_name"] when there is one, the old name otherwise. *)
Theorem load_without_tracks_key fs self filename items :
  read_json fs filename = Ok (JObject items) ->
  dict_get items "tracks" = None ->
  load_from_json fs self filename
  = (true, mkPlaylist (default (name self) (dict_get items "playlist_name")) [],
     [Loaded filename 0%nat])
  /\ (forall n, dict_get items "playlist_name" = Some n ->
        load_from_json fs self filename
        = (true, mkPlaylist n [], [Loaded filename 0%nat]))
  /\ (dict_get items "playlist_name" = None ->
        load_from_json fs self filename
        = (true, mkPlaylist (name self) [], [Loaded filename 0%nat])).
Proof.
  intros Hr Ht.
  assert (H : load_from_json fs self filename
              = (true, mkPlaylist (default (name self) (dict_get items "playlist_name")) [],
                 [Loaded filename 0%nat])).
  { rewrite (load_from_json_object fs self filename items []); [reflexivity|assumption|].
    rewrite Ht. reflexivity. }
  split; [exact H|]. split.
  - intros n Hn. rewrite H, Hn. reflexivity.
  - intros Hn. rewrite H, Hn. reflexivity.
Qed.

Lemma load_without_tracks_key_witness :
  load_from_json no_tracks_fs sample_playlist "empty.json"
  = (true, mkPlaylist (JString "Empty") [], [Loaded "empty.json" 0%nat]).
Proof.
  exact (proj1 (load_without_tracks_key no_tracks_fs sample_playlist "empty.json"
                  [("playlist_name", JString "Empty")] eq_refl eq_refl)).
Defined.

(** ** Queries and statistics *)

Lemma get_tracks_by_artist_filter self q :
  get_tracks_by_artist self q
  = filter (fun t => Py.lower (artist t) = Py.lower (Py.strip q)) (tracks self).
Proof.
  unfold get_tracks_by_artist.
  induction (tracks self) as [|t ts IH]; [reflexivity|].
  simpl List.filter. rewrite filter_cons, IH.
  destruct (String.eqb_spec (Py.lower (artist t)) (Py.lower (Py.strip q)));
    destruct (decide _); congruence.
Qed.

(** On a text of ASCII characters [lower] and [strip] are the plain
    ones. *)
Lemma ascii_char_facts c :
  is_ascii_char c = true ->
  Py.lower_char (N_of_ascii c) = [N_of_ascii (ascii_lower_char c)] /\
  Py.isspace (N_of_ascii c) = ascii_isspace c /\
  (N_of_ascii c =? 931)%N = false /\
  is_ascii_char (ascii_lower_char c) = true /\
  ascii_isspace (ascii_lower_char c) = ascii_isspace c /\
  ascii_lower_char (ascii_lower_char c) = ascii_lower_char c /\
  Py.encode_char (N_of_ascii c) = String c "".
Proof.
  destruct c as [[] [] [] [] [] [] [] []]; intros H; try discriminate H;
    vm_compute; repeat split.
Qed.

Lemma decode_bytes s : is_ascii s = true -> Py.decode s = bytes s.
Proof.
  induction s as [|c r IH]; [reflexivity|]. simpl is_ascii.
  intros [Hc Hr]%andb_prop. rewrite decode_ascii_cons by exact Hc.
  rewrite (IH Hr). reflexivity.
Qed.

Lemma encode_bytes s : is_ascii s = true -> Py.encode (bytes s) = s.
Proof.
  induction s as [|c r IH]; [reflexivity|]. simpl is_ascii.
  intros [Hc Hr]%andb_prop. unfold bytes in *. cbn [list_ascii_of_string List.map Py.encode].
  destruct (ascii_char_facts c Hc) as (_ & _ & _ & _ & _ & _ & ->).
  rewrite (IH Hr). reflexivity.
Qed.

Lemma is_ascii_lower s : is_ascii s = true -> is_ascii (ascii_lower s) = true.
Proof.
  induction s as [|c r IH]; [reflexivity|]. simpl.
  intros [Hc Hr]%andb_prop.
  destruct (ascii_char_facts c Hc) as (_ & _ & _ & -> & _). auto.
Qed.

Lemma lower_from_bytes s : forall before,
  is_ascii s = true -> Py.encode (Py.lower_from before (bytes s)) = ascii_lower s.
Proof.
  induction s as [|c r IH]; intros before; [reflexivity|]. simpl is_ascii.
  intros [Hc Hr]%andb_prop. unfold bytes in *.
  cbn [list_ascii_of_string List.map Py.lower_from ascii_lower].
  destruct (ascii_char_facts c Hc) as (-> & _ & -> & Hl & _).
  cbn [app Py.encode]. rewrite (IH _ Hr).
  destruct (ascii_char_facts _ Hl) as (_ & _ & _ & _ & _ & _ & ->). reflexivity.
Qed.

Lemma lower_is_ascii s : is_ascii s = true -> Py.lower s = ascii_lower s.
Proof.
  intros H. unfold Py.lower. rewrite (decode_bytes s H). apply lower_from_bytes, H.
Qed.

Lemma is_ascii_lstrip s : is_ascii s = true -> is_ascii (ascii_lstrip s) = true.
Proof.
  induction s as [|c r IH]; [reflexivity|]. simpl.
  intros [Hc Hr]%andb_prop. destruct (ascii_isspace c); [auto|]. simpl. rewrite Hc. exact Hr.
Qed.

Lemma is_ascii_rstrip s : is_ascii s = true -> is_ascii (ascii_rstrip s) = true.
Proof.
  induction s as [|c r IH]; [reflexivity|]. simpl.
  intros [Hc Hr]%andb_prop. specialize (IH Hr).
  destruct (ascii_rstrip r); [destruct (ascii_isspace c)|]; simpl in *; rewrite ?Hc; auto.
Qed.

Lemma lstrip_chars_bytes s :
  is_ascii s = true -> Py.lstrip_chars (bytes s) = bytes (ascii_lstrip s).
Proof.
  induction s as [|c r IH]; [reflexivity|]. simpl is_ascii.
  intros [Hc Hr]%andb_prop. unfold bytes in *.
  cbn [list_ascii_of_string List.map Py.lstrip_chars ascii_lstrip].
  destruct (ascii_char_facts c Hc) as (_ & -> & _).
  destruct (ascii_isspace c); [exact (IH Hr)|reflexivity].
Qed.

Lemma rstrip_chars_bytes s :
  is_ascii s = true -> Py.rstrip_chars (bytes s) = bytes (ascii_rstrip s).
Proof.
  induction s as [|c r IH]; [reflexivity|]. simpl is_ascii.
  intros [Hc Hr]%andb_prop. unfold bytes in *.
  cbn [list_ascii_of_string List.map Py.rstrip_chars ascii_rstrip].
  rewrite (IH Hr). destruct (ascii_char_facts c Hc) as (_ & -> & _).
  destruct (ascii_rstrip r); [destruct (ascii_isspace c)|]; reflexivity.
Qed.

Lemma strip_is_ascii s : is_ascii s = true -> Py.strip s = ascii_strip s.
Proof.
  intros H. unfold Py.strip, ascii_strip.
  rewrite (decode_bytes s H), (lstrip_chars_bytes s H).
  rewrite rstrip_chars_bytes by (apply is_ascii_lstrip, H).
  apply encode_bytes, is_ascii_rstrip, is_ascii_lstrip, H.
Qed.

Lemma is_ascii_strip s : is_ascii s = true -> is_ascii (ascii_strip s) = true.
Proof. intros H. apply is_ascii_rstrip, is_ascii_lstrip, H. Qed.

(** Trimming in all. The whitespace at both ends of a text goes,
    whatever the text holds. *)
Lemma is_spaces_ascii a : is_spaces a = true -> is_ascii a = true.
Proof.
  induction a as [|c r IH]; [reflexivity|]. simpl.
  intros [[Hc _]%andb_prop Hr]%andb_prop. rewrite Hc. auto.
Qed.

Lemma is_spaces_bytes a : is_spaces a = true -> forallb Py.isspace (bytes a) = true.
Proof.
  induction a as [|c r IH]; [reflexivity|]. simpl.
  intros [[_ Hc]%andb_prop Hr]%andb_prop. rewrite Hc. auto.
Qed.

Lemma decode_app_ascii a s :
  is_ascii a = true -> Py.decode (a +:+ s) = (bytes a ++ Py.decode s)%list.
Proof.
  induction a as [|c r IH]; [reflexivity|]. simpl is_ascii.
  intros [Hc Hr]%andb_prop. rewrite append_cons, decode_ascii_cons by exact Hc.
  rewrite (IH Hr). reflexivity.
Qed.

Lemma continuation_ascii c : is_ascii_char c = true -> Py.continuation c = None.
Proof.
  unfold is_ascii_char, Py.continuation. intros H%N.ltb_lt.
  destruct (N.leb_spec 128 (N_of_ascii c)); [lia|]. reflexivity.
Qed.

Lemma first_char_app c r b :
  is_ascii b = true -> Py.first_char c (r +:+ b) = Py.first_char c r.
Proof.
  intros Hb. unfold Py.first_char. cbv zeta.
  assert (Hb0 : match b with String b0 _ => Py.continuation b0 = None | _ => True end).
  { destruct b as [|b0 b']; [exact I|]. simpl in Hb. apply andb_prop in Hb as [Hb _].
    apply continuation_ascii, Hb. }
  repeat (destruct (_ <? _)%N; [try reflexivity|]); try reflexivity;
    destruct r as [|c1 [|c2 [|c3 r']]]; rewrite ?append_cons, ?append_nil;
    try reflexivity;
    destruct b as [|b0 [|b1 [|b2 b']]]; try reflexivity; rewrite ?Hb0;
    repeat match goal with
           | |- context [Py.continuation ?a] =>
               lazymatch a with
               | b0 => fail
               | _ => destruct (Py.continuation a)
               end
           end; reflexivity.
Qed.

Lemma decode_from_app s b : forall k,
  is_ascii b = true -> continues k s = true ->
  Py.decode_from k (s +:+ b) = (Py.decode_from k s ++ bytes b)%list.
Proof.
  induction s as [|c r IH]; intros k Hb Hk.
  - destruct k; [|discriminate]. rewrite append_nil. apply (decode_bytes b Hb).
  - rewrite append_cons. cbn [Py.decode_from]. destruct k as [|k].
    + rewrite (first_char_app c r b Hb).
      pose proof (first_char_spec c r) as (Hcont & _).
      destruct (Py.first_char c r) as [cp n]. cbn [snd] in Hcont.
      rewrite (IH n Hb Hcont). reflexivity.
    + cbn [continues] in Hk. destruct (Py.continuation c); [|discriminate].
      apply IH; assumption.
Qed.

Lemma lstrip_chars_app a l :
  forallb Py.isspace a = true -> Py.lstrip_chars (a ++ l) = Py.lstrip_chars l.
Proof.
  induction a as [|c a IH]; [reflexivity|]. simpl.
  intros [-> Ha]%andb_prop. auto.
Qed.

Lemma rstrip_chars_spaces b : forallb Py.isspace b = true -> Py.rstrip_chars b = [].
Proof.
  induction b as [|c b IH]; [reflexivity|]. simpl.
  intros [Hc Hb]%andb_prop. rewrite (IH Hb), Hc. reflexivity.
Qed.

Lemma rstrip_chars_app l b :
  forallb Py.isspace b = true -> Py.rstrip_chars (l ++ b) = Py.rstrip_chars l.
Proof.
  intros Hb. induction l as [|c l IH]; [apply rstrip_chars_spaces, Hb|].
  simpl. rewrite IH. reflexivity.
Qed.

Lemma lstrip_chars_spaces b : forallb Py.isspace b = true -> Py.lstrip_chars b = [].
Proof.
  induction b as [|c b IH]; [reflexivity|]. simpl.
  intros [-> Hb]%andb_prop. auto.
Qed.

Lemma strip_chars_app l b :
  forallb Py.isspace b = true ->
  Py.rstrip_chars (Py.lstrip_chars (l ++ b)) = Py.rstrip_chars (Py.lstrip_chars l).
Proof.
  intros Hb. induction l as [|c l IH].
  - simpl. rewrite (lstrip_chars_spaces b Hb). reflexivity.
  - simpl. destruct (Py.isspace c); [exact IH|].
    change (c :: (l ++ b))%list with ((c :: l) ++ b)%list. apply rstrip_chars_app, Hb.
Qed.

Lemma strip_pad a s b :
  is_spaces a = true -> is_spaces b = true -> Py.strip (a +:+ s +:+ b) = Py.strip s.
Proof.
  intros Ha Hb. unfold Py.strip.
  rewrite (decode_app_ascii a _ (is_spaces_ascii a Ha)).
  unfold Py.decode at 1. rewrite (decode_from_app s b 0 (is_spaces_ascii b Hb) eq_refl).
  fold (Py.decode s).
  rewrite (lstrip_chars_app _ _ (is_spaces_bytes a Ha)).
  rewrite (strip_chars_app _ _ (is_spaces_bytes b Hb)). reflexivity.
Qed.

(** The plain lower case and trimming commute. *)
Lemma ascii_lower_char_facts c :
  ascii_isspace (ascii_lower_char c) = ascii_isspace c /\
  ascii_lower_char (ascii_lower_char c) = ascii_lower_char c.
Proof. destruct c as [[] [] [] [] [] [] [] []]; split; reflexivity. Qed.

Lemma ascii_lower_idem s : ascii_lower (ascii_lower s) = ascii_lower s.
Proof.
  induction s as [|c s IH]; [reflexivity|]. simpl.
  rewrite (proj2 (ascii_lower_char_facts c)), IH. reflexivity.
Qed.

Lemma ascii_lstrip_lower s : ascii_lstrip (ascii_lower s) = ascii_lower (ascii_lstrip s).
Proof.
  induction s as [|c s IH]; [reflexivity|]. simpl.
  rewrite (proj1 (ascii_lower_char_facts c)).
  destruct (ascii_isspace c); [exact IH|reflexivity].
Qed.

Lemma ascii_rstrip_lower s : ascii_rstrip (ascii_lower s) = ascii_lower (ascii_rstrip s).
Proof.
  induction s as [|c s IH]; [reflexivity|]. simpl.
  rewrite IH, (proj1 (ascii_lower_char_facts c)).
  destruct (ascii_rstrip s); simpl; [destruct (ascii_isspace c)|]; reflexivity.
Qed.

Lemma ascii_strip_lower s : ascii_strip (ascii_lower s) = ascii_lower (ascii_strip s).
Proof. unfold ascii_strip. rewrite ascii_lstrip_lower, ascii_rstrip_lower. reflexivity. Qed.

(** The key a query of ASCII characters is compared by. *)
Lemma query_key_ascii q :
  is_ascii q = true -> Py.lower (Py.strip q) = ascii_strip (ascii_lower q).
Proof.
  intros H. rewrite (strip_is_ascii q H), lower_is_ascii by (apply is_ascii_strip, H).
  symmetry. apply ascii_strip_lower.
Qed.

(** C5. [get_tracks_by_artist] keeps exactly the tracks whose artist, in
    lower case, equals the query trimmed and put in lower case, every one
    as often as the playlist holds it and in their original order.
    Whitespace around the query makes no difference. For a query and an
    artist of ASCII characters the comparison is the plain one: the
    letters A..Z count as a..z, so that two queries that differ in the
    case of their letters find the same tracks. The letters of other
    scripts are treated alike: a track by "Queen" is found by
    "  queen  ", and a track by "Кино" by "КИНО" between a no-break space
    and an em space. *)
Theorem get_tracks_by_artist_spec self q :
  get_tracks_by_artist self q
  = filter (fun t => Py.lower (artist t) = Py.lower (Py.strip q)) (tracks self)
  /\ sublist (get_tracks_by_artist self q) (tracks self)
  /\ (forall t, t ∈ get_tracks_by_artist self q
               <-> t ∈ tracks self /\ Py.lower (artist t) = Py.lower (Py.strip q))
  /\ (forall a b, is_spaces a = true -> is_spaces b = true ->
        get_tracks_by_artist self (a +:+ q +:+ b) = get_tracks_by_artist self q)
  /\ (is_ascii q = true ->
      forall t, t ∈ tracks self -> is_ascii (artist t) = true ->
        (t ∈ get_tracks_by_artist self q
         <-> ascii_lower (artist t) = ascii_lower (ascii_strip q)))
  /\ (is_ascii q = true ->
      forall q', is_ascii q' = true -> ascii_lower q' = ascii_lower q ->
        get_tracks_by_artist self q' = get_tracks_by_artist self q)
  /\ (forall t, t ∈ tracks self -> artist t = "Queen" ->
               t ∈ get_tracks_by_artist self "  queen  ")
  /\ (forall t, t ∈ tracks self -> artist t = "Кино" ->
               t ∈ get_tracks_by_artist self
                     (Py.encode [160]%N +:+ "КИНО" +:+ Py.encode [8195]%N)).
Proof.
  rewrite !get_tracks_by_artist_filter.
  split; [reflexivity|]. split; [apply sublist_filter|].
  split; [|split; [|split; [|split; [|split]]]].
  - intros t. rewrite list_elem_of_filter. tauto.
  - intros a b Ha Hb. rewrite get_tracks_by_artist_filter, (strip_pad a q b Ha Hb).
    reflexivity.
  - intros Hq t Ht Ha. rewrite list_elem_of_filter.
    rewrite (lower_is_ascii _ Ha), (query_key_ascii q Hq), ascii_strip_lower. tauto.
  - intros Hq q' Hq' E.
    rewrite get_tracks_by_artist_filter, (query_key_ascii q Hq), (query_key_ascii q' Hq'), E.
    reflexivity.
  - intros t Ht Ha. apply list_elem_of_filter. rewrite Ha.
    split; [vm_compute; reflexivity|assumption].
  - intros t Ht Ha. apply list_elem_of_filter. rewrite Ha.
    split; [vm_compute; reflexivity|assumption].
Qed.

Lemma get_tracks_by_artist_spec_witness :
  bohemian ∈ get_tracks_by_artist sample_playlist "  queen  " /\
  get_tracks_by_artist sample_playlist "QUEEN" = get_tracks_by_artist sample_playlist "queen".
Proof.
  split.
  - apply (proj1 (proj2 (proj2 (proj2 (proj2 (proj2 (proj2
             (get_tracks_by_artist_spec sample_playlist "  queen  ")))))))).
    + left.
    + reflexivity.
  - apply (proj1 (proj2 (proj2 (proj2 (proj2 (proj2
             (get_tracks_by_artist_spec sample_playlist "queen"))))))
             eq_refl "QUEEN" eq_refl eq_refl).
Defined.

(** The stored artist is compared as it is stored: only the query is
    trimmed. *)
Example stored_artist_not_trimmed :
  get_tracks_by_artist
    (mkPlaylist (JString "p") [mkTrack "Song" " Queen" (Timedelta us_per_second) ROCK None])
    "queen" = [].
Proof. reflexivity. Qed.

(** ** Durations as text *)

Lemma length_format_0d w z :
  0 <= z -> (w <= String.length (Py.format_0d w z))%nat.
Proof.
  intros Hz. unfold Py.format_0d. destruct (Z.ltb_spec z 0); [lia|].
  rewrite length_append, length_zeros. lia.
Qed.

Lemma length_format_02d_small z :
  0 <= z < 60 -> String.length (Py.format_0d 2 z) = 2%nat.
Proof.
  intros Hz. rewrite <- (Z2Nat.id z) by lia.
  assert (Hk : (Z.to_nat z < 60)%nat) by lia.
  generalize dependent (Z.to_nat z). clear. intros k Hk.
  do 60 (destruct k as [|k]; [reflexivity|]). lia.
Qed.

Lemma valid_duration_seconds t : valid t -> 0 <= duration_seconds t < 10 ^ 40.
Proof.
  intros Hv. apply valid_inv in Hv as [(_ & _ & Hp & _) Hr].
  unfold duration_seconds. split.
  - apply total_seconds_int_nonneg; [lia|exact Hr].
  - apply total_seconds_int_small; [lia|exact Hr].
Qed.

(** C7. For a valid track [duration_str] is the minutes, a colon and the
    seconds: the minutes are the whole seconds divided by 60, however
    large, written in at least two digits; the seconds are the remainder,
    written in exactly two digits. 125 s gives "02:05" and 3661 s gives
    "61:01". *)
Theorem duration_str_format :
  (forall t, valid t ->
     exists mm ss,
       duration_str t = mm +:+ ":" +:+ ss /\
       is_digits mm = true /\ (2 <= String.length mm)%nat /\
       Py.int mm = Ok (duration_seconds t / 60) /\
       is_digits ss = true /\ String.length ss = 2%nat /\
       Py.int ss = Ok (duration_seconds t mod 60)) /\
  (forall t, duration t = Timedelta (125 * us_per_second) -> duration_str t = "02:05") /\
  (forall t, duration t = Timedelta (3661 * us_per_second) -> duration_str t = "61:01").
Proof.
  split; [|split].
  - intros t Hv. pose proof (valid_duration_seconds t Hv) as HT.
    unfold duration_seconds in *.
    assert (Hm : 0 <= total_seconds_int (duration t) / 60 < 10 ^ 40)
      by (split; [apply Z.div_pos; lia | apply Z.div_lt_upper_bound; lia]).
    assert (Hs : 0 <= total_seconds_int (duration t) mod 60 < 60)
      by (apply Z.mod_pos_bound; lia).
    eexists _, _. split; [reflexivity|].
    repeat split;
      auto using is_digits_format_0d, length_format_0d, int_format_0d_small,
                 length_format_02d_small with lia.
  - intros t H. unfold duration_str. rewrite H. reflexivity.
  - intros t H. unfold duration_str. rewrite H. reflexivity.
Qed.

Lemma duration_str_format_witness :
  duration_str one_more_time = "02:05" /\
  exists mm ss,
    duration_str so_what = mm +:+ ":" +:+ ss /\
    is_digits mm = true /\ (2 <= String.length mm)%nat /\
    Py.int mm = Ok (duration_seconds so_what / 60) /\
    is_digits ss = true /\ String.length ss = 2%nat /\
    Py.int ss = Ok (duration_seconds so_what mod 60).
Proof.
  split.
  - apply (proj1 (proj2 duration_str_format) one_more_time). reflexivity.
  - apply (proj1 duration_str_format so_what). split; reflexivity.
Defined.

(** ** Parsing a record *)

Lemma timedelta_new_seconds h m s d :
  timedelta_new h m s = Ok d ->
  total_microseconds d = (h * 3600 + m * 60 + s) * us_per_second
  /\ total_seconds_int d = h * 3600 + m * 60 + s.
Proof.
  unfold timedelta_new. destruct (td_in_range _) eqn:Hr; [|discriminate].
  intros [= <-]. split; [reflexivity|].
  apply td_in_range_bounds in Hr. cbn [total_microseconds] in Hr.
  apply total_seconds_int_whole.
  change (2 ^ 53) with 9007199254740992.
  unfold max_days, us_per_day, us_per_second in Hr. lia.
Qed.

Lemma msg_format_not_validation text :
  ~ ValueError (msg_format +:+ text)
    ∈ [ValueError msg_title; ValueError msg_artist;
       ValueError msg_duration; ValueError msg_year].
Proof.
  rewrite !elem_of_cons, elem_of_nil.
  intros [H|[H|[H|[H|[]]]]]; vm_compute in H; discriminate H.
Qed.

Lemma parse_duration_other text :
  List.length (Py.split ":" text) <> 2%nat ->
  List.length (Py.split ":" text) <> 3%nat ->
  parse_duration text = Raise (ValueError (msg_format +:+ text)).
Proof.
  unfold parse_duration. intros H2 H3.
  destruct (Py.split ":" text) as [|a [|b [|c [|e l]]]]; simpl in *;
    congruence.
Qed.

(** A record with a duration that parses and a title, an artist and a
    year that pass the checks gives a track. *)
Lemma from_dict_ok items text d ti ar y :
  dict_get items "duration" = Some (JString text) ->
  parse_duration text = Ok d ->
  dict_get items "title" = Some (JString ti) ->
  dict_get items "artist" = Some (JString ar) ->
  default JNull (dict_get items "year") = json_of_year y ->
  code_invariants ti ar d y ->
  from_dict (JObject items)
  = Ok (mkTrack ti ar d
          (find_genre (default (JString (value OTHER)) (dict_get items "genre"))) y).
Proof.
  intros Hd Hp Ht Ha Hy Hc. unfold from_dict, dict_item.
  rewrite Hd, bind_Ok, Hp, bind_Ok, Ht, bind_Ok, Ha, bind_Ok, Hy.
  apply (Track_new_ok ti ar d _ y Hc).
Qed.

Lemma from_dict_duration_raise items text e :
  dict_get items "duration" = Some (JString text) ->
  parse_duration text = Raise e ->
  from_dict (JObject items) = Raise e.
Proof.
  intros Hd Hp. unfold from_dict, dict_item. rewrite Hd, bind_Ok, Hp. reflexivity.
Qed.

(** C6. [from_dict] splits the duration text on ":". With two parts it
    reads minutes and seconds, with three parts hours, minutes and
    seconds, each part as [int] reads it: the track it returns lasts
    60 * minutes + seconds, or 3600 * hours + 60 * minutes + seconds; a
    part that is no integer raises the error of [int], and a time span
    beyond the range of [timedelta] raises [OverflowError]. Any other
    number of parts raises the format error, a [ValueError] whose
    message is none of the four validation messages. "bad" and "1:2:3:4"
    raise it. *)
Theorem from_dict_duration_format :
  (forall items text m s minutes seconds,
     dict_get items "duration" = Some (JString text) ->
     Py.split ":" text = [m; s] ->
     Py.int m = Ok minutes -> Py.int s = Ok seconds ->
     (td_in_range (Timedelta ((minutes * 60 + seconds) * us_per_second)) = false ->
        from_dict (JObject items) = Raise OverflowError) /\
     (forall ti ar y,
        td_in_range (Timedelta ((minutes * 60 + seconds) * us_per_second)) = true ->
        dict_get items "title" = Some (JString ti) ->
        dict_get items "artist" = Some (JString ar) ->
        default JNull (dict_get items "year") = json_of_year y ->
        code_invariants ti ar (Timedelta ((minutes * 60 + seconds) * us_per_second)) y ->
        exists t,
          from_dict (JObject items) = Ok t /\
          duration t = Timedelta ((minutes * 60 + seconds) * us_per_second) /\
          duration_seconds t = minutes * 60 + seconds /\
          title t = ti /\ artist t = ar /\ year t = y)) /\
  (forall items text h m s hours minutes seconds,
     dict_get items "duration" = Some (JString text) ->
     Py.split ":" text = [h; m; s] ->
     Py.int h = Ok hours -> Py.int m = Ok minutes -> Py.int s = Ok seconds ->
     (td_in_range
        (Timedelta ((hours * 3600 + minutes * 60 + seconds) * us_per_second)) = false ->
        from_dict (JObject items) = Raise OverflowError) /\
     (forall ti ar y,
        td_in_range
          (Timedelta ((hours * 3600 + minutes * 60 + seconds) * us_per_second)) = true ->
        dict_get items "title" = Some (JString ti) ->
        dict_get items "artist" = Some (JString ar) ->
        default JNull (dict_get items "year") = json_of_year y ->
        code_invariants ti ar
          (Timedelta ((hours * 3600 + minutes * 60 + seconds) * us_per_second)) y ->
        exists t,
          from_dict (JObject items) = Ok t /\
          duration t
          = Timedelta ((hours * 3600 + minutes * 60 + seconds) * us_per_second) /\
          duration_seconds t = hours * 3600 + minutes * 60 + seconds /\
          title t = ti /\ artist t = ar /\ year t = y)) /\
  (forall items text parts part,
     dict_get items "duration" = Some (JString text) ->
     Py.split ":" text = parts ->
     List.length parts = 2%nat \/ List.length parts = 3%nat ->
     part ∈ parts -> is_ok (Py.int part) = false ->
     exists bad, bad ∈ parts /\ from_dict (JObject items) = Raise (IntError bad)) /\
  (forall items text,
     dict_get items "duration" = Some (JString text) ->
     List.length (Py.split ":" text) <> 2%nat ->
     List.length (Py.split ":" text) <> 3%nat ->
     from_dict (JObject items) = Raise (ValueError (msg_format +:+ text)) /\
     ~ ValueError (msg_format +:+ text)
       ∈ [ValueError msg_title; ValueError msg_artist;
          ValueError msg_duration; ValueError msg_year]) /\
  (forall items, dict_get items "duration" = Some (JString "bad") ->
     from_dict (JObject items) = Raise (ValueError (msg_format +:+ "bad"))) /\
  (forall items, dict_get items "duration" = Some (JString "1:2:3:4") ->
     from_dict (JObject items) = Raise (ValueError (msg_format +:+ "1:2:3:4"))).
Proof.
  assert (Hother : forall items text,
            dict_get items "duration" = Some (JString text) ->
            List.length (Py.split ":" text) <> 2%nat ->
            List.length (Py.split ":" text) <> 3%nat ->
            from_dict (JObject items) = Raise (ValueError (msg_format +:+ text))).
  { intros items text Hd H2 H3.
    apply (from_dict_duration_raise items text _ Hd), parse_duration_other; assumption. }
  assert (Hread : forall items text h m s d,
            dict_get items "duration" = Some (JString text) ->
            parse_duration text = timedelta_new h m s ->
            d = Timedelta ((h * 3600 + m * 60 + s) * us_per_second) ->
            (td_in_range d = false -> from_dict (JObject items) = Raise OverflowError) /\
            (forall ti ar y,
               td_in_range d = true ->
               dict_get items "title" = Some (JString ti) ->
               dict_get items "artist" = Some (JString ar) ->
               default JNull (dict_get items "year") = json_of_year y ->
               code_invariants ti ar d y ->
               exists t,
                 from_dict (JObject items) = Ok t /\ duration t = d /\
                 duration_seconds t = h * 3600 + m * 60 + s /\
                 title t = ti /\ artist t = ar /\ year t = y)).
  { intros items text h m s d Hd Hp ->. unfold timedelta_new in Hp. split.
    - intros Hr. rewrite Hr in Hp. exact (from_dict_duration_raise items text _ Hd Hp).
    - intros ti ar y Hr Ht Ha Hy Hc. rewrite Hr in Hp.
      eexists. split; [exact (from_dict_ok items text _ ti ar y Hd Hp Ht Ha Hy Hc)|].
      cbn [duration title artist year]. repeat split.
      unfold duration_seconds. cbn [duration].
      apply (timedelta_new_seconds h m s). unfold timedelta_new. rewrite Hr. reflexivity. }
  split; [|split; [|split; [|split; [|split]]]].
  - intros items text m s minutes seconds Hd Hsp Hm Hs.
    replace (minutes * 60 + seconds) with (0 * 3600 + minutes * 60 + seconds) by lia.
    apply (Hread items text 0 minutes seconds _ Hd); [|reflexivity].
    unfold parse_duration. rewrite Hsp, Hm, Hs. reflexivity.
  - intros items text h m s hours minutes seconds Hd Hsp Hh Hm Hs.
    apply (Hread items text hours minutes seconds _ Hd); [|reflexivity].
    unfold parse_duration. rewrite Hsp, Hh, Hm, Hs. reflexivity.
  - intros items text parts part Hd Hsp Hlen Hin Hbad.
    assert (Hp : exists bad, bad ∈ parts /\ parse_duration text = Raise (IntError bad)).
    { unfold parse_duration. rewrite Hsp.
      destruct parts as [|a [|b [|c [|x l]]]]; simpl in Hlen; try lia.
      - destruct (Py.int a) as [za|ea] eqn:Ea.
        + destruct (Py.int b) as [zb|eb] eqn:Eb.
          * exfalso. apply elem_of_cons in Hin as [->|Hin];
              [rewrite Ea in Hbad; discriminate|].
            apply list_elem_of_singleton in Hin as ->. rewrite Eb in Hbad. discriminate.
          * apply int_raise in Eb as ->. exists b. split; [set_solver|reflexivity].
        + apply int_raise in Ea as ->. exists a. split; [set_solver|reflexivity].
      - destruct (Py.int a) as [za|ea] eqn:Ea;
          [|apply int_raise in Ea as ->; exists a; split; [set_solver|reflexivity]].
        destruct (Py.int b) as [zb|eb] eqn:Eb;
          [|apply int_raise in Eb as ->; exists b; split; [set_solver|reflexivity]].
        destruct (Py.int c) as [zc|ec] eqn:Ec;
          [|apply int_raise in Ec as ->; exists c; split; [set_solver|reflexivity]].
        exfalso. apply elem_of_cons in Hin as [->|Hin];
          [rewrite Ea in Hbad; discriminate|].
        apply elem_of_cons in Hin as [->|Hin]; [rewrite Eb in Hbad; discriminate|].
        apply list_elem_of_singleton in Hin as ->. rewrite Ec in Hbad. discriminate. }
    destruct Hp as (bad & Hb & Hp). exists bad. split; [exact Hb|].
    exact (from_dict_duration_raise items text _ Hd Hp).
  - intros items text Hd H2 H3. split; [auto|apply msg_format_not_validation].
  - intros items Hd. apply (Hother items "bad" Hd); vm_compute; lia.
  - intros items Hd. apply (Hother items "1:2:3:4" Hd); vm_compute; lia.
Qed.

Lemma from_dict_duration_format_witness :
  from_dict (JObject [ ("title", JString "Song"); ("artist", JString "Singer");
                       ("duration", JString "bad") ])
  = Raise (ValueError (msg_format +:+ "bad")) /\
  exists t,
    from_dict (JObject [ ("title", JString "Song"); ("artist", JString "Singer");
                         ("duration", JString "61:01") ]) = Ok t /\
    duration t = Timedelta ((61 * 60 + 1) * us_per_second) /\
    duration_seconds t = 61 * 60 + 1 /\
    title t = "Song" /\ artist t = "Singer" /\ year t = None.
Proof.
  split.
  - apply (proj1 (proj2 (proj2 (proj2 (proj2 from_dict_duration_format))))). reflexivity.
  - apply (proj2 (proj1 from_dict_duration_format
                    [ ("title", JString "Song"); ("artist", JString "Singer");
                      ("duration", JString "61:01") ]
                    "61:01" "61" "01" 61 1 eq_refl eq_refl eq_refl eq_refl)
             "Song" "Singer" None eq_refl eq_refl eq_refl eq_refl).
    repeat split; discriminate.
Defined.

(** ** Genres *)

Lemma Track_init_with_genre ti ar d g g' y :
  Track_init ti ar d g' y = result_map (with_genre g') (Track_init ti ar d g y).
Proof.
  unfold Track_init.
  destruct ti; try reflexivity. destruct (String.eqb _ ""); [reflexivity|].
  destruct ar; try reflexivity. destruct (String.eqb _ ""); [reflexivity|].
  destruct (total_seconds_nonpos d); [reflexivity|].
  destruct y as [|[]|z| | |]; try reflexivity.
  simpl as_int. cbv iota. destruct ((z <? 1900) || (z >? 2100)); reflexivity.
Qed.

Lemma Track_init_genre ti ar d g y t : Track_init ti ar d g y = Ok t -> genre t = g.
Proof.
  rewrite (Track_init_with_genre ti ar d g g).
  destruct (Track_init ti ar d g y); [|discriminate]. intros [= <-]. reflexivity.
Qed.

Lemma from_dict_genre items t :
  from_dict (JObject items) = Ok t ->
  genre t = find_genre (default (JString (value OTHER)) (dict_get items "genre")).
Proof.
  unfold from_dict.
  destruct (dict_item items "duration") as [d|]; [|discriminate]. rewrite bind_Ok.
  destruct (match d with JString text => parse_duration text | _ => Raise AttributeError end)
    as [dur|]; [|discriminate]. rewrite bind_Ok.
  destruct (dict_item items "title") as [ti|]; [|discriminate]. rewrite bind_Ok.
  destruct (dict_item items "artist") as [ar|]; [|discriminate]. rewrite bind_Ok.
  apply Track_init_genre.
Qed.

Lemma find_genre_unmatched v :
  (forall g, v <> JString (value g)) -> find_genre v = OTHER.
Proof.
  intros H. unfold find_genre.
  assert (Hn : forall gs, List.find (fun g => str_eq (value g) v) gs = None).
  { induction gs as [|g gs IH]; [reflexivity|]. simpl.
    destruct v; simpl; try exact IH.
    destruct (String.eqb_spec (value g) s) as [<-|_]; [|exact IH].
    destruct (H g eq_refl). }
  rewrite Hn. reflexivity.
Qed.

(** The ["genre"] entry of a record decides the genre of the track and
    nothing else. *)
Lemma from_dict_genre_only items items' :
  (forall k, k <> "genre" -> dict_get items' k = dict_get items k) ->
  from_dict (JObject items')
  = result_map
      (with_genre (find_genre (default (JString (value OTHER)) (dict_get items' "genre"))))
      (from_dict (JObject items)).
Proof.
  intros H. unfold from_dict, dict_item.
  rewrite (H "duration"), (H "title"), (H "artist"), (H "year") by discriminate.
  destruct (dict_get items "duration") as [d|]; [|reflexivity]. rewrite !bind_Ok.
  destruct (match d with JString text => parse_duration text | _ => Raise AttributeError end)
    as [dur|]; [|reflexivity]. rewrite !bind_Ok.
  destruct (dict_get items "title") as [ti|]; [|reflexivity]. rewrite !bind_Ok.
  destruct (dict_get items "artist") as [ar|]; [|reflexivity]. rewrite !bind_Ok.
  apply Track_init_with_genre.
Qed.

(** C9. The genre of the track [from_dict] builds is found by looking the
    record's ["genre"] value up among the display labels, which are all
    different. For a record whose other entries are good [from_dict]
    returns the track: with the genre [OTHER] when the entry is absent,
    the label of [OTHER] being looked up; with the genre of the label
    when the value is a known label; and with [OTHER], and no error, for
    any other value. Whatever the entry holds, it changes the genre of
    the result and nothing else: never whether [from_dict] raises. *)
Theorem from_dict_genre_resolution :
  (forall items t, from_dict (JObject items) = Ok t ->
     genre t = find_genre (default (JString (value OTHER)) (dict_get items "genre"))) /\
  (forall items text d ti ar y,
     dict_get items "duration" = Some (JString text) ->
     parse_duration text = Ok d ->
     dict_get items "title" = Some (JString ti) ->
     dict_get items "artist" = Some (JString ar) ->
     default JNull (dict_get items "year") = json_of_year y ->
     code_invariants ti ar d y ->
     (dict_get items "genre" = None ->
        from_dict (JObject items) = Ok (mkTrack ti ar d OTHER y)) /\
     (forall g, dict_get items "genre" = Some (JString (value g)) ->
        from_dict (JObject items) = Ok (mkTrack ti ar d g y)) /\
     (forall v, dict_get items "genre" = Some v -> (forall g, v <> JString (value g)) ->
        from_dict (JObject items) = Ok (mkTrack ti ar d OTHER y))) /\
  (forall items items',
     (forall k, k <> "genre" -> dict_get items' k = dict_get items k) ->
     from_dict (JObject items')
     = result_map
         (with_genre
            (find_genre (default (JString (value OTHER)) (dict_get items' "genre"))))
         (from_dict (JObject items)) /\
     is_ok (from_dict (JObject items')) = is_ok (from_dict (JObject items))) /\
  (forall g, find_genre (JString (value g)) = g) /\
  (forall v, (forall g, v <> JString (value g)) -> find_genre v = OTHER) /\
  NoDup (List.map value all_genres).
Proof.
  split; [exact from_dict_genre|]. split; [|split; [|split; [|split]]].
  - intros items text d ti ar y Hd Hp Ht Ha Hy Hc.
    pose proof (from_dict_ok items text d ti ar y Hd Hp Ht Ha Hy Hc) as H.
    split; [|split].
    + intros Hg. rewrite H, Hg. reflexivity.
    + intros g Hg. rewrite H, Hg. simpl default. rewrite find_genre_value. reflexivity.
    + intros v Hg Hv. rewrite H, Hg. simpl default.
      rewrite (find_genre_unmatched v Hv). reflexivity.
  - intros items items' H. pose proof (from_dict_genre_only items items' H) as E.
    split; [exact E|]. rewrite E. destruct (from_dict (JObject items)); reflexivity.
  - exact find_genre_value.
  - exact find_genre_unmatched.
  - compute_done.
Qed.

Lemma from_dict_genre_resolution_witness :
  from_dict (JObject [ ("title", JString "Song"); ("artist", JString "Singer");
                       ("duration", JString "1:05"); ("genre", JString "Polka") ])
  = Ok (mkTrack "Song" "Singer" (Timedelta (65 * us_per_second)) OTHER None) /\
  from_dict (JObject [ ("title", JString "Song"); ("artist", JString "Singer");
                       ("duration", JString "1:05"); ("genre", JString "Джаз") ])
  = Ok (mkTrack "Song" "Singer" (Timedelta (65 * us_per_second)) JAZZ None).
Proof.
  split.
  - apply (proj2 (proj2 (proj1 (proj2 from_dict_genre_resolution)
             [ ("title", JString "Song"); ("artist", JString "Singer");
               ("duration", JString "1:05"); ("genre", JString "Polka") ]
             "1:05" (Timedelta (65 * us_per_second)) "Song" "Singer" None
             eq_refl eq_refl eq_refl eq_refl eq_refl
             ltac:(repeat split; discriminate)))
           (JString "Polka") eq_refl).
    intros g. destruct g; discriminate.
  - apply (proj1 (proj2 (proj1 (proj2 from_dict_genre_resolution)
             [ ("title", JString "Song"); ("artist", JString "Singer");
               ("duration", JString "1:05"); ("genre", JString "Джаз") ]
             "1:05" (Timedelta (65 * us_per_second)) "Song" "Singer" None
             eq_refl eq_refl eq_refl eq_refl eq_refl
             ltac:(repeat split; discriminate)))
           JAZZ eq_refl).
Defined.

(** ** Statistics *)

Lemma dict_set_fresh {V} (items : list (string * V)) key v :
  key ∉ List.map fst items -> dict_set items key v = (items ++ [(key, v)])%list.
Proof.
  induction items as [|[k w] items IH]; [reflexivity|].
  simpl. rewrite not_elem_of_cons. intros [Hk Hi].
  destruct (String.eqb_spec k key); [congruence|]. rewrite (IH Hi). reflexivity.
Qed.

Lemma genre_fold self gs : forall acc,
  NoDup (List.map value gs) ->
  (forall g, g ∈ gs -> value g ∉ List.map fst acc) ->
  List.fold_left
    (fun acc g =>
       let count := List.length (get_tracks_by_genre self g) in
       if (0 <? count)%nat then dict_set acc (value g) count else acc)
    gs acc
  = (acc ++ List.map (fun g => (value g, genre_count self g))
              (List.filter (fun g => (0 <? genre_count self g)%nat) gs))%list.
Proof.
  induction gs as [|g gs IH]; intros acc Hnd Hacc.
  - simpl. rewrite app_nil_r. reflexivity.
  - simpl in Hnd. apply NoDup_cons in Hnd as [Hg Hnd].
    simpl List.fold_left. simpl List.filter.
    change (List.length (get_tracks_by_genre self g)) with (genre_count self g).
    destruct (0 <? genre_count self g)%nat.
    + rewrite dict_set_fresh by (apply Hacc; left).
      rewrite IH; [simpl; rewrite <- app_assoc; reflexivity | assumption |].
      intros g' Hg'. rewrite map_app, elem_of_app. simpl.
      rewrite list_elem_of_singleton. intros [H|H].
      * revert H. apply Hacc. right. exact Hg'.
      * apply Hg. rewrite <- H. apply list_elem_of_In, in_map, list_elem_of_In, Hg'.
    + apply IH; [assumption|]. intros g' Hg'. apply Hacc. right. exact Hg'.
Qed.

Lemma genre_statistics_eq self :
  genre_statistics self
  = List.map (fun g => (value g, genre_count self g))
      (List.filter (fun g => (0 <? genre_count self g)%nat) all_genres).
Proof.
  unfold genre_statistics. rewrite genre_fold; [reflexivity | compute_done |].
  intros g _. simpl. apply not_elem_of_nil.
Qed.

Lemma sum_positive_counts {A} (c : A -> nat) l :
  list_sum (List.map c (List.filter (fun g => (0 <? c g)%nat) l))
  = list_sum (List.map c l).
Proof.
  induction l as [|a l IH]; [reflexivity|]. simpl.
  destruct (Nat.ltb_spec 0 (c a)); simpl; lia.
Qed.

Lemma genre_count_total n ts :
  list_sum (List.map (genre_count (mkPlaylist n ts)) all_genres) = List.length ts.
Proof.
  induction ts as [|t ts IH]; [reflexivity|].
  unfold all_genres, genre_count in *. cbn [List.map list_sum tracks] in *.
  cbn [List.filter List.length].
  destruct (genre t);
    repeat (case_bool_decide; [try congruence | try congruence]);
    unfold list_sum in *; cbn [fold_right List.length] in *; lia.
Qed.

Lemma all_genres_complete g : g ∈ all_genres.
Proof. destruct g; compute_done. Qed.

(** C8. The genre part of the statistics lists, under its display label
    and with its number of tracks, every genre that has at least one
    track and no other, in the order of the enumeration; the numbers add
    up to the number of tracks. [get_statistics] returns this list and
    that number whenever the total duration is a [timedelta]. *)
Theorem genre_statistics_spec self :
  genre_statistics self
  = List.map (fun g => (value g, genre_count self g))
      (List.filter (fun g => (0 <? genre_count self g)%nat) all_genres)
  /\ (forall label n, (label, n) ∈ genre_statistics self
        <-> exists g, label = value g /\ n = genre_count self g /\ (0 < n)%nat)
  /\ list_sum (List.map snd (genre_statistics self)) = List.length (tracks self)
  /\ (forall s, get_statistics self = Ok s ->
        genres s = genre_statistics self /\ total_tracks s = List.length (tracks self))
  /\ (td_in_range
        (Timedelta (sum_Z (List.map duration_seconds (tracks self)) * us_per_second))
      = true ->
      exists s, get_statistics self = Ok s).
Proof.
  split; [apply genre_statistics_eq|]. split; [|split; [|split]].
  - intros label n. rewrite genre_statistics_eq, list_elem_of_In, in_map_iff.
    split.
    + intros (g & [= <- <-] & Hg). apply filter_In in Hg as [_ Hg].
      apply Nat.ltb_lt in Hg. eauto.
    + intros (g & -> & -> & Hg). exists g. split; [reflexivity|].
      apply filter_In. split.
      * apply list_elem_of_In, all_genres_complete.
      * apply Nat.ltb_lt, Hg.
  - rewrite genre_statistics_eq, List.map_map.
    rewrite (List.map_ext _ (genre_count self) (fun _ => eq_refl)).
    rewrite (sum_positive_counts (genre_count self)).
    destruct self as [n ts]. apply genre_count_total.
  - intros s. unfold get_statistics.
    destruct (get_total_duration self); [|discriminate].
    rewrite bind_Ok. intros [= <-]. split; reflexivity.
  - intros Hr. unfold get_statistics, get_total_duration, timedelta_new.
    replace ((0 * 3600 + 0 * 60 + sum_Z (List.map duration_seconds (tracks self)))
             * us_per_second)
      with (sum_Z (List.map duration_seconds (tracks self)) * us_per_second) by lia.
    rewrite Hr, bind_Ok. eauto.
Qed.

Lemma genre_statistics_spec_witness :
  exists s, get_statistics sample_playlist = Ok s /\
    genres s = [(value ROCK, 1%nat); (value JAZZ, 1%nat); (value ELECTRONIC, 1%nat)].
Proof.
  destruct (proj2 (proj2 (proj2 (proj2 (genre_statistics_spec sample_playlist)))) eq_refl)
    as [s Hs].
  exists s. split; [exact Hs|].
  rewrite (proj1 (proj1 (proj2 (proj2 (proj2 (genre_statistics_spec sample_playlist)))) s Hs)).
  reflexivity.
Defined.

(** * Further properties of the code *)


(** ** Adding and removing *)

Lemma add_tracks_tracks ts : forall self,
  add_tracks self ts = mkPlaylist (name self) (tracks self ++ ts).
Proof.
  induction ts as [|t ts IH]; intros self.
  - unfold add_tracks. simpl. rewrite app_nil_r. destruct self; reflexivity.
  - change (add_tracks self (t :: ts)) with (add_tracks (add_track self t) ts).
    rewrite IH. unfold add_track. simpl. rewrite <- app_assoc. reflexivity.
Qed.

(** X1. [remove_track] succeeds exactly for an index from 0 to the
    length minus one. It then takes out that one track and keeps the
    others in order; any other index, a negative one included, changes
    nothing. *)
Theorem remove_track_spec self index :
  (0 <= index < Playlist_len self ->
     remove_track self index
     = (true, mkPlaylist (name self)
                (take (Z.to_nat index) (tracks self)
                 ++ drop (S (Z.to_nat index)) (tracks self))) /\
     Playlist_len (snd (remove_track self index)) = Playlist_len self - 1) /\
  (~ 0 <= index < Playlist_len self -> remove_track self index = (false, self)) /\
  (fst (remove_track self index) = true <-> 0 <= index < Playlist_len self).
Proof.
  unfold remove_track, Playlist_len.
  destruct (Z.leb_spec 0 index); destruct (Z.ltb_spec index (Z.of_nat (List.length (tracks self))));
    simpl; (split; [|split]); try (intros; lia); try tauto;
    try (split; [intros; lia | intros; discriminate]); try (split; [discriminate | lia]).
  intros _. rewrite delete_take_drop. split; [reflexivity|].
  simpl. rewrite length_app, length_take, length_drop. lia.
Qed.

Lemma remove_track_spec_witness :
  remove_track sample_playlist 1
  = (true, mkPlaylist (JString "Favourites") [bohemian; one_more_time]).
Proof.
  apply (proj1 (remove_track_spec sample_playlist 1)). vm_compute. split; congruence.
Defined.

(** X2. [add_tracks] appends the given tracks in their order, and
    removing the track just added by [add_track] gives the playlist
    back. *)
Theorem add_then_remove self t ts :
  tracks (add_tracks self ts) = (tracks self ++ ts)%list /\
  name (add_tracks self ts) = name self /\
  Playlist_len (add_tracks self ts) = Playlist_len self + Z.of_nat (List.length ts) /\
  remove_track (add_track self t) (Playlist_len self) = (true, self).
Proof.
  rewrite add_tracks_tracks. unfold Playlist_len. simpl.
  split; [reflexivity|]. split; [reflexivity|]. split.
  - rewrite length_app. lia.
  - unfold remove_track, add_track. simpl. rewrite length_app. simpl.
    destruct (Z.leb_spec 0 (Z.of_nat (List.length (tracks self)))); [|lia].
    destruct (Z.ltb_spec (Z.of_nat (List.length (tracks self)))
                (Z.of_nat (List.length (tracks self) + 1))); [|lia].
    simpl. rewrite Nat2Z.id, delete_take_drop, take_app_length.
    rewrite drop_app_ge by lia.
    replace (S (List.length (tracks self)) - List.length (tracks self))%nat with 1%nat by lia.
    simpl. rewrite app_nil_r. destruct self; reflexivity.
Qed.

(** ** Sorting *)

Section list_sort_facts.
Context {A K : Type} `{EqDecision K} (leb : K -> K -> bool) (key : A -> K).
Hypothesis leb_total : forall a b, leb a b = true \/ leb b a = true.
Hypothesis leb_trans : forall a b c, leb a b = true -> leb b c = true -> leb a c = true.

Lemma insert_sorted_perm x l : insert_sorted leb key x l ≡ₚ x :: l.
Proof.
  induction l as [|y r IH]; simpl; [reflexivity|].
  destruct (leb (key x) (key y)); [reflexivity|].
  rewrite IH. apply Permutation_swap.
Qed.

Lemma stable_sort_perm l : stable_sort leb key l ≡ₚ l.
Proof.
  induction l as [|x l IH]; simpl; [reflexivity|].
  rewrite insert_sorted_perm, IH. reflexivity.
Qed.

Lemma insert_sorted_sorted x l :
  StronglySorted (key_le leb key) l ->
  StronglySorted (key_le leb key) (insert_sorted leb key x l).
Proof.
  induction 1 as [|y r Hr IH Hy]; simpl.
  - repeat constructor.
  - destruct (leb (key x) (key y)) eqn:E.
    + constructor; [constructor; assumption|].
      constructor; [exact E|].
      eapply Forall_impl; [exact Hy|]. intros z Hz. exact (leb_trans _ _ _ E Hz).
    + constructor; [assumption|].
      rewrite insert_sorted_perm. constructor; [|assumption].
      destruct (leb_total (key x) (key y)) as [H|H]; [congruence|exact H].
Qed.

Lemma stable_sort_sorted l : StronglySorted (key_le leb key) (stable_sort leb key l).
Proof.
  induction l as [|x l IH]; simpl; [constructor|].
  apply insert_sorted_sorted, IH.
Qed.

Lemma insert_sorted_filter k x l :
  filter (fun t => key t = k) (insert_sorted leb key x l)
  = filter (fun t => key t = k) (x :: l).
Proof.
  induction l as [|y r IH]; simpl; [reflexivity|].
  destruct (leb (key x) (key y)) eqn:E; [reflexivity|].
  rewrite (filter_cons _ y), IH, !filter_cons.
  destruct (decide (key y = k)) as [Hy|Hy]; [|reflexivity].
  destruct (decide (key x = k)) as [Hx|Hx]; [|reflexivity].
  rewrite Hx, Hy in E. destruct (leb_total k k); congruence.
Qed.

Lemma stable_sort_filter k l :
  filter (fun t => key t = k) (stable_sort leb key l) = filter (fun t => key t = k) l.
Proof.
  induction l as [|x l IH]; simpl; [reflexivity|].
  rewrite insert_sorted_filter, !filter_cons, IH. reflexivity.
Qed.

Lemma stable_sort_id l : StronglySorted (key_le leb key) l -> stable_sort leb key l = l.
Proof.
  induction 1 as [|x l Hl IH Hx]; simpl; [reflexivity|].
  rewrite IH. destruct l as [|y r]; [reflexivity|]. simpl.
  apply Forall_cons in Hx as [Hxy _]. unfold key_le in Hxy. rewrite Hxy. reflexivity.
Qed.

Lemma StronglySorted_reverse_flip (R : relation A) l :
  StronglySorted R l -> StronglySorted (flip R) (reverse l).
Proof.
  induction 1 as [|x l Hl IH Hx]; [constructor|].
  rewrite reverse_cons. apply StronglySorted_app_2.
  - intros a b Ha Hb%list_elem_of_singleton. subst b.
    rewrite elem_of_reverse in Ha. rewrite Forall_forall in Hx. apply Hx, Ha.
  - exact IH.
  - repeat constructor.
Qed.

Lemma list_sort_perm r l : list_sort leb key r l ≡ₚ l.
Proof.
  destruct r; simpl; [|apply stable_sort_perm].
  rewrite reverse_Permutation, stable_sort_perm. apply reverse_Permutation.
Qed.

Lemma list_sort_ascending l :
  StronglySorted (key_le leb key) (list_sort leb key false l).
Proof. apply stable_sort_sorted. Qed.

Lemma list_sort_descending l :
  StronglySorted (flip (key_le leb key)) (list_sort leb key true l).
Proof. apply StronglySorted_reverse_flip, stable_sort_sorted. Qed.

Lemma list_sort_stable k r l :
  filter (fun t => key t = k) (list_sort leb key r l) = filter (fun t => key t = k) l.
Proof.
  destruct r; simpl; [|apply stable_sort_filter].
  rewrite filter_reverse, stable_sort_filter, filter_reverse. apply reverse_involutive.
Qed.

Lemma list_sort_idem r l :
  list_sort leb key r (list_sort leb key r l) = list_sort leb key r l.
Proof.
  destruct r; simpl.
  - rewrite reverse_involutive. f_equal. apply stable_sort_id, stable_sort_sorted.
  - apply stable_sort_id, stable_sort_sorted.
Qed.
End list_sort_facts.

Lemma Z_leb_total a b : (a <=? b) = true \/ (b <=? a) = true.
Proof. rewrite !Z.leb_le. lia. Qed.

Lemma Z_leb_trans a b c : (a <=? b) = true -> (b <=? c) = true -> (a <=? c) = true.
Proof. rewrite !Z.leb_le. lia. Qed.

Lemma String_leb_trans a b c :
  String.leb a b = true -> String.leb b c = true -> String.leb a c = true.
Proof.
  intros H1%Is_true_true H2%Is_true_true. apply Is_true_true.
  exact (transitivity (R := String.le) H1 H2).
Qed.

Lemma StronglySorted_weaken {A} (R R' : relation A) l :
  (forall a b, R a b -> R' a b) -> StronglySorted R l -> StronglySorted R' l.
Proof.
  intros HR. induction 1 as [|x l Hl IH Hx]; constructor; [assumption|].
  eapply Forall_impl; [exact Hx|]. auto.
Qed.

(** X3. The three sort methods keep the name and the tracks, only their
    order changes, and leave the tracks ordered by the key: the seconds
    of [duration_seconds], or the title or artist in lower case, compared
    code point by code point; from the smallest key on, or from the
    largest when [descending] is set. *)
Theorem sort_by_sorted self descending :
  (name (sort_by_duration self descending) = name self /\
   tracks (sort_by_duration self descending) ≡ₚ tracks self /\
   StronglySorted
     (fun a b => if descending then duration_seconds b <= duration_seconds a
                 else duration_seconds a <= duration_seconds b)
     (tracks (sort_by_duration self descending))) /\
  (name (sort_by_title self descending) = name self /\
   tracks (sort_by_title self descending) ≡ₚ tracks self /\
   StronglySorted
     (fun a b => if descending
                 then String.leb (Py.lower (title b)) (Py.lower (title a)) = true
                 else String.leb (Py.lower (title a)) (Py.lower (title b)) = true)
     (tracks (sort_by_title self descending))) /\
  (name (sort_by_artist self descending) = name self /\
   tracks (sort_by_artist self descending) ≡ₚ tracks self /\
   StronglySorted
     (fun a b => if descending
                 then String.leb (Py.lower (artist b)) (Py.lower (artist a)) = true
                 else String.leb (Py.lower (artist a)) (Py.lower (artist b)) = true)
     (tracks (sort_by_artist self descending))).
Proof.
  unfold sort_by_duration, sort_by_title, sort_by_artist. simpl.
  repeat split; try apply list_sort_perm.
  - destruct descending.
    + eapply StronglySorted_weaken;
        [|apply (list_sort_descending Z.leb duration_seconds Z_leb_total Z_leb_trans)].
      intros a b H. apply Z.leb_le, H.
    + eapply StronglySorted_weaken;
        [|apply (list_sort_ascending Z.leb duration_seconds Z_leb_total Z_leb_trans)].
      intros a b H. apply Z.leb_le, H.
  - destruct descending.
    + apply (list_sort_descending String.leb _ String.leb_total String_leb_trans).
    + apply (list_sort_ascending String.leb _ String.leb_total String_leb_trans).
  - destruct descending.
    + apply (list_sort_descending String.leb _ String.leb_total String_leb_trans).
    + apply (list_sort_ascending String.leb _ String.leb_total String_leb_trans).
Qed.

(** X4. The sorts are stable in both directions: the tracks that share a
    key (the same seconds, the same title or artist up to the case of
    the letters of any script) stay in the order they had. *)
Theorem sort_by_stable self descending :
  (forall k, filter (fun t => duration_seconds t = k) (tracks (sort_by_duration self descending))
             = filter (fun t => duration_seconds t = k) (tracks self)) /\
  (forall k, filter (fun t => Py.lower (title t) = k) (tracks (sort_by_title self descending))
             = filter (fun t => Py.lower (title t) = k) (tracks self)) /\
  (forall k, filter (fun t => Py.lower (artist t) = k) (tracks (sort_by_artist self descending))
             = filter (fun t => Py.lower (artist t) = k) (tracks self)).
Proof.
  unfold sort_by_duration, sort_by_title, sort_by_artist. simpl.
  split; [|split]; intros k.
  - apply (list_sort_stable Z.leb duration_seconds Z_leb_total).
  - apply (list_sort_stable String.leb _ String.leb_total).
  - apply (list_sort_stable String.leb _ String.leb_total).
Qed.

(** X5. Sorting again by the same key in the same direction changes
    nothing. *)
Theorem sort_by_idempotent self descending :
  sort_by_duration (sort_by_duration self descending) descending
  = sort_by_duration self descending /\
  sort_by_title (sort_by_title self descending) descending
  = sort_by_title self descending /\
  sort_by_artist (sort_by_artist self descending) descending
  = sort_by_artist self descending.
Proof.
  unfold sort_by_duration, sort_by_title, sort_by_artist. simpl.
  rewrite (list_sort_idem Z.leb duration_seconds Z_leb_total Z_leb_trans).
  rewrite !(list_sort_idem String.leb _ String.leb_total String_leb_trans).
  auto.
Qed.

(** ** Filters *)

Lemma filter_sublist_weaken {A} (f g : A -> bool) l :
  (forall a, f a = true -> g a = true) -> sublist (List.filter f l) (List.filter g l).
Proof.
  intros H. induction l as [|a l IH]; simpl; [constructor|].
  destruct (f a) eqn:E.
  - rewrite (H a E). constructor. exact IH.
  - destruct (g a); [constructor|]; exact IH.
Qed.

Lemma filter_sublist_self {A} (f : A -> bool) l : sublist (List.filter f l) l.
Proof.
  induction l as [|a l IH]; simpl; [constructor|].
  destruct (f a); constructor; exact IH.
Qed.

Lemma filter_bool_Prop {A} (f : A -> bool) (P : A -> Prop) `{forall a, Decision (P a)} l :
  (forall a, f a = true <-> P a) -> List.filter f l = filter P l.
Proof.
  intros Hf. induction l as [|a l IH]; [reflexivity|].
  simpl List.filter. rewrite filter_cons, IH.
  destruct (f a) eqn:E; destruct (decide (P a)) as [Hp|Hp]; try reflexivity.
  - destruct Hp. apply Hf, E.
  - apply Hf in Hp. congruence.
Qed.

(** X6. [get_tracks_by_year] returns, in playlist order, exactly the
    tracks whose year is the given one, each as often as the playlist
    holds it: a track with that year at some place of the playlist
    stands in the result between the tracks returned from before it and
    those returned from after it, and any other track is left out. A
    track without a year is never returned. *)
Theorem get_tracks_by_year_spec self y :
  get_tracks_by_year self y = filter (fun t => year t = Some y) (tracks self) /\
  (forall before t after, tracks self = (before ++ t :: after)%list ->
     get_tracks_by_year self y
     = (get_tracks_by_year (mkPlaylist (name self) before) y
        ++ (if decide (year t = Some y) then [t] else [])
        ++ get_tracks_by_year (mkPlaylist (name self) after) y)%list) /\
  (forall t, t ∈ get_tracks_by_year self y <-> t ∈ tracks self /\ year t = Some y) /\
  sublist (get_tracks_by_year self y) (tracks self) /\
  (forall t, year t = None -> t ∉ get_tracks_by_year self y).
Proof.
  assert (E : forall p, get_tracks_by_year p y = filter (fun t => year t = Some y) (tracks p)).
  { intros p. apply filter_bool_Prop. intros t. apply bool_decide_eq_true. }
  assert (H : forall t, t ∈ get_tracks_by_year self y
                        <-> t ∈ tracks self /\ year t = Some y).
  { intros t. rewrite E, list_elem_of_filter. tauto. }
  split; [apply E|]. split; [|split; [exact H|split; [apply filter_sublist_self|]]].
  - intros before t after Ht. rewrite !E, Ht. cbn [tracks].
    rewrite filter_app, filter_cons. destruct (decide _); reflexivity.
  - intros t Hn Ht. apply H in Ht as [_ Ht]. congruence.
Qed.

(** X7. [get_tracks_in_duration_range] returns, in playlist order,
    exactly the tracks whose seconds, as [duration_seconds] gives them,
    lie between the two bounds, both included, each as often as the
    playlist holds it: a track at some place of the playlist stands in
    the result, if its seconds are in the range, between the tracks
    returned from before it and those returned from after it. It returns
    nothing when the lower bound exceeds the upper one, and a wider
    range returns every track a narrower one returns. *)
Theorem get_tracks_in_duration_range_spec self min_sec max_sec :
  get_tracks_in_duration_range self min_sec max_sec
  = filter (fun t => min_sec <= duration_seconds t <= max_sec) (tracks self) /\
  (forall before t after, tracks self = (before ++ t :: after)%list ->
     get_tracks_in_duration_range self min_sec max_sec
     = (get_tracks_in_duration_range (mkPlaylist (name self) before) min_sec max_sec
        ++ (if decide (min_sec <= duration_seconds t <= max_sec) then [t] else [])
        ++ get_tracks_in_duration_range (mkPlaylist (name self) after) min_sec max_sec)%list) /\
  (forall t, t ∈ get_tracks_in_duration_range self min_sec max_sec
             <-> t ∈ tracks self /\ min_sec <= duration_seconds t <= max_sec) /\
  sublist (get_tracks_in_duration_range self min_sec max_sec) (tracks self) /\
  (max_sec < min_sec -> get_tracks_in_duration_range self min_sec max_sec = []) /\
  (forall lo hi, lo <= min_sec -> max_sec <= hi ->
     sublist (get_tracks_in_duration_range self min_sec max_sec)
             (get_tracks_in_duration_range self lo hi)).
Proof.
  assert (E : forall p, get_tracks_in_duration_range p min_sec max_sec
                        = filter (fun t => min_sec <= duration_seconds t <= max_sec)
                            (tracks p)).
  { intros p. apply filter_bool_Prop. intros t.
    rewrite andb_true_iff, !Z.leb_le. tauto. }
  split; [apply E|]. split.
  { intros before t after Ht. rewrite !E, Ht. cbn [tracks].
    rewrite filter_app, filter_cons. destruct (decide _); reflexivity. }
  unfold get_tracks_in_duration_range.
  split; [|split; [apply filter_sublist_self|split]].
  - intros t. rewrite !list_elem_of_In, filter_In, andb_true_iff, !Z.leb_le. tauto.
  - intros H. induction (tracks self) as [|t ts IH]; [reflexivity|]. simpl.
    destruct (Z.leb_spec min_sec (duration_seconds t));
      destruct (Z.leb_spec (duration_seconds t) max_sec); simpl; try exact IH. lia.
  - intros lo hi Hlo Hhi. apply filter_sublist_weaken. intros t.
    rewrite !andb_true_iff, !Z.leb_le. lia.
Qed.

Lemma get_tracks_in_duration_range_bounds self min_sec max_sec t :
  t ∈ get_tracks_in_duration_range self min_sec max_sec ->
  min_sec <= duration_seconds t <= max_sec.
Proof.
  unfold get_tracks_in_duration_range.
  rewrite list_elem_of_In, filter_In, andb_true_iff, !Z.leb_le. tauto.
Qed.

Lemma get_tracks_in_duration_range_spec_witness :
  get_tracks_in_duration_range sample_playlist 400 300 = [] /\
  get_tracks_in_duration_range
    (mkPlaylist (JString "Twice") [bohemian; so_what; bohemian]) 300 400
  = [bohemian; bohemian].
Proof.
  split.
  - apply (proj1 (proj2 (proj2 (proj2 (proj2
             (get_tracks_in_duration_range_spec sample_playlist 400 300)))))).
    lia.
  - apply (proj1 (proj2 (get_tracks_in_duration_range_spec
                           (mkPlaylist (JString "Twice") [bohemian; so_what; bohemian])
                           300 400))
             [bohemian] so_what [bohemian]).
    reflexivity.
Defined.

Lemma get_tracks_by_year_spec_witness :
  (so_what ∉ get_tracks_by_year sample_playlist 1975) /\
  get_tracks_by_year (mkPlaylist (JString "Twice") [bohemian; so_what; bohemian]) 1975
  = [bohemian; bohemian].
Proof.
  split.
  - apply (proj2 (proj2 (proj2 (proj2 (get_tracks_by_year_spec sample_playlist 1975))))).
    reflexivity.
  - apply (proj1 (proj2 (get_tracks_by_year_spec
                           (mkPlaylist (JString "Twice") [bohemian; so_what; bohemian]) 1975))
             [bohemian] so_what [bohemian]).
    reflexivity.
Defined.

(** ** Totals and statistics *)

Lemma fold_left_add l : forall a, List.fold_left Z.add l a = a + sum_Z l.
Proof.
  unfold sum_Z. induction l as [|x l IH]; intros a; [simpl; lia|].
  cbn [List.fold_left]. rewrite (IH (a + x)), (IH (0 + x)). lia.
Qed.

Lemma sum_Z_cons x l : sum_Z (x :: l) = x + sum_Z l.
Proof. unfold sum_Z at 1. simpl. apply fold_left_add. Qed.

Lemma sum_Z_app l1 l2 : sum_Z (l1 ++ l2) = sum_Z l1 + sum_Z l2.
Proof.
  induction l1 as [|x l1 IH]; [reflexivity|].
  simpl. rewrite !sum_Z_cons, IH. lia.
Qed.

Lemma sum_Z_perm l1 l2 : l1 ≡ₚ l2 -> sum_Z l1 = sum_Z l2.
Proof. induction 1; rewrite ?sum_Z_cons; lia. Qed.

Lemma total_seconds_perm ts1 ts2 :
  ts1 ≡ₚ ts2 ->
  sum_Z (List.map duration_seconds ts1) = sum_Z (List.map duration_seconds ts2).
Proof. intros H. apply sum_Z_perm, Permutation_map, H. Qed.

(** X8. [get_total_duration] is the sum of the seconds of the tracks,
    as [duration_seconds] gives them track by track, without the
    fractions of a second. It returns that time span exactly when the
    sum is within the range of [timedelta], and raises [OverflowError]
    exactly when it is not; the sum grows by the seconds of an added
    track and does not depend on the order of the tracks. *)
Theorem get_total_duration_spec self :
  get_total_duration self
  = (if td_in_range
          (Timedelta (sum_Z (List.map duration_seconds (tracks self)) * us_per_second))
     then Ok (Timedelta (sum_Z (List.map duration_seconds (tracks self)) * us_per_second))
     else Raise OverflowError) /\
  (td_in_range
     (Timedelta (sum_Z (List.map duration_seconds (tracks self)) * us_per_second)) = false
   <-> get_total_duration self = Raise OverflowError) /\
  (forall d, get_total_duration self = Ok d ->
     total_seconds_int d = sum_Z (List.map duration_seconds (tracks self)) /\
     whole_seconds d) /\
  (forall e, get_total_duration self = Raise e ->
     e = OverflowError /\
     td_in_range
       (Timedelta (sum_Z (List.map duration_seconds (tracks self)) * us_per_second))
     = false) /\
  (forall t, sum_Z (List.map duration_seconds (tracks (add_track self t)))
             = sum_Z (List.map duration_seconds (tracks self)) + duration_seconds t) /\
  (forall other, tracks other ≡ₚ tracks self ->
     get_total_duration other = get_total_duration self).
Proof.
  assert (E : get_total_duration self
    = (if td_in_range
            (Timedelta (sum_Z (List.map duration_seconds (tracks self)) * us_per_second))
       then Ok (Timedelta (sum_Z (List.map duration_seconds (tracks self)) * us_per_second))
       else Raise OverflowError)).
  { unfold get_total_duration, timedelta_new.
    replace ((0 * 3600 + 0 * 60 + sum_Z (List.map duration_seconds (tracks self)))
             * us_per_second)
      with (sum_Z (List.map duration_seconds (tracks self)) * us_per_second) by lia.
    reflexivity. }
  split; [exact E|]. split; [|split; [|split; [|split]]].
  - rewrite E. destruct (td_in_range _); split; congruence.
  - intros d Hd. unfold get_total_duration in Hd.
    pose proof (timedelta_new_seconds _ _ _ _ Hd) as [Hus Hs].
    split; [rewrite Hs; lia|].
    unfold whole_seconds. rewrite Hus. apply Z.mod_mul. unfold us_per_second. lia.
  - rewrite E. intros e. destruct (td_in_range _); [discriminate|]. intros [= <-]. auto.
  - intros t. unfold add_track. simpl. rewrite List.map_app, sum_Z_app.
    simpl. rewrite sum_Z_cons. change (sum_Z []) with 0. lia.
  - intros other H. unfold get_total_duration.
    rewrite (total_seconds_perm _ _ H). reflexivity.
Qed.

Lemma get_total_duration_spec_witness :
  total_seconds_int (Timedelta (4141 * us_per_second))
  = sum_Z (List.map duration_seconds (tracks sample_playlist)) /\
  get_total_duration
    (mkPlaylist (JString "Long")
       [mkTrack "Song" "Singer" (Timedelta (max_days * us_per_day)) OTHER None;
        mkTrack "Song" "Singer" (Timedelta us_per_day) OTHER None])
  = Raise OverflowError.
Proof.
  split.
  - apply (proj1 (proj2 (proj2 (get_total_duration_spec sample_playlist)))
             (Timedelta (4141 * us_per_second))).
    reflexivity.
  - apply (proj1 (proj2 (get_total_duration_spec _))). vm_compute. reflexivity.
Defined.

Lemma year_fold l : forall (acc : gmap Z nat) y,
  List.fold_left
    (fun (acc : gmap Z nat) track =>
       match year track with
       | Some y => if y =? 0 then acc else <[y := (default 0%nat (acc !! y) + 1)%nat]> acc
       | None => acc
       end) l acc !! y
  = if decide (y = 0) then acc !! y
    else match List.length (List.filter (fun t => bool_decide (year t = Some y)) l) with
         | O => acc !! y
         | S c => Some (default 0%nat (acc !! y) + S c)%nat
         end.
Proof.
  induction l as [|t l IH]; intros acc y.
  - simpl. destruct (decide (y = 0)); reflexivity.
  - simpl List.fold_left. rewrite IH. destruct (decide (y = 0)) as [Hy|Hy].
    + destruct (year t) as [z|]; [|reflexivity].
      destruct (Z.eqb_spec z 0); [reflexivity|]. rewrite lookup_insert_ne by lia.
      reflexivity.
    + simpl List.filter. destruct (year t) as [z|] eqn:Ez.
      * destruct (decide (z = y)) as [->|Hz].
        -- rewrite bool_decide_eq_true_2 by reflexivity.
           destruct (Z.eqb_spec y 0); [contradiction|].
           rewrite lookup_insert_eq. simpl.
           destruct (List.length _); simpl; f_equal; lia.
        -- rewrite bool_decide_eq_false_2 by congruence.
           destruct (Z.eqb_spec z 0); [reflexivity|].
           rewrite lookup_insert_ne by assumption. reflexivity.
      * rewrite bool_decide_eq_false_2 by congruence. reflexivity.
Qed.

(** X9. The year part of the statistics maps every year that at least
    one track carries to the number of tracks that carry it, and holds no
    other year; a track without a year, or with the year 0, is not
    counted. *)
Theorem year_statistics_spec self :
  (forall y n, year_statistics self !! y = Some n
               <-> y <> 0 /\ n = year_count self y /\ (0 < n)%nat) /\
  year_statistics self !! 0 = None /\
  (forall s, get_statistics self = Ok s -> years s = year_statistics self).
Proof.
  assert (H : forall y, year_statistics self !! y
                        = if decide (y = 0) then None
                          else match year_count self y with
                               | O => None
                               | S c => Some (S c)
                               end).
  { intros y. unfold year_statistics. rewrite year_fold, lookup_empty.
    unfold year_count, get_tracks_by_year. reflexivity. }
  split; [|split].
  - intros y n. rewrite H. destruct (decide (y = 0)).
    + split; [discriminate|tauto].
    + destruct (year_count self y); split; try discriminate; try (intros [= <-]; lia);
        intros (_ & -> & Hn); try lia; reflexivity.
  - rewrite H. reflexivity.
  - intros s. unfold get_statistics.
    destruct (get_total_duration self); [|discriminate].
    rewrite bind_Ok. intros [= <-]. reflexivity.
Qed.

Lemma year_statistics_spec_witness :
  year_statistics sample_playlist !! 1975 = Some 1%nat.
Proof.
  apply (proj1 (year_statistics_spec sample_playlist) 1975 1%nat).
  split; [lia|]. split; [reflexivity|lia].
Defined.

Lemma year_statistics_lookup self y :
  year_statistics self !! y
  = if decide (y = 0) then None
    else match year_count self y with
         | O => None
         | S c => Some (S c)
         end.
Proof.
  unfold year_statistics. rewrite year_fold, lookup_empty. reflexivity.
Qed.

Lemma filter_length_perm {A} (f : A -> bool) l1 l2 :
  l1 ≡ₚ l2 -> List.length (List.filter f l1) = List.length (List.filter f l2).
Proof.
  induction 1 as [|x l1 l2 _ IH|x y l|l1 l2 l3 _ IH1 _ IH2]; simpl.
  - reflexivity.
  - destruct (f x); simpl; lia.
  - destruct (f x), (f y); reflexivity.
  - lia.
Qed.

Lemma get_statistics_perm self other :
  tracks other ≡ₚ tracks self -> get_statistics other = get_statistics self.
Proof.
  intros H. unfold get_statistics.
  replace (get_total_duration other) with (get_total_duration self)
    by (unfold get_total_duration; rewrite (total_seconds_perm _ _ H); reflexivity).
  destruct (get_total_duration self) as [d|e]; [|reflexivity]. rewrite !bind_Ok.
  f_equal. f_equal.
  - apply Permutation_length, H.
  - f_equal. apply list_to_set_perm_L, Permutation_map, H.
  - rewrite !genre_statistics_eq.
    assert (Hc : forall g, genre_count other g = genre_count self g)
      by (intros g; apply filter_length_perm, H).
    induction all_genres as [|g gs IH]; [reflexivity|]. simpl.
    rewrite Hc. destruct (0 <? genre_count self g)%nat; simpl; rewrite ?Hc, IH; reflexivity.
  - apply map_eq. intros y. rewrite !year_statistics_lookup.
    unfold year_count, get_tracks_by_year. rewrite (filter_length_perm _ _ _ H).
    reflexivity.
Qed.

(** X10. Sorting the playlist, by any key and in any direction, leaves
    every statistic as it was; so does any other reordering of the
    tracks. *)
Theorem get_statistics_order_independent self descending :
  get_statistics (sort_by_duration self descending) = get_statistics self /\
  get_statistics (sort_by_title self descending) = get_statistics self /\
  get_statistics (sort_by_artist self descending) = get_statistics self /\
  (forall other, tracks other ≡ₚ tracks self ->
     get_statistics other = get_statistics self).
Proof.
  repeat split; try (intros other; apply get_statistics_perm);
    apply get_statistics_perm; unfold sort_by_duration, sort_by_title, sort_by_artist;
    simpl; apply list_sort_perm.
Qed.

Lemma get_statistics_order_independent_witness :
  get_statistics (mkPlaylist (JString "Reordered") [so_what; one_more_time; bohemian])
  = get_statistics sample_playlist.
Proof.
  apply (proj2 (proj2 (proj2 (get_statistics_order_independent sample_playlist false)))).
  simpl. apply Permutation_sym, (Permutation_cons_append [so_what; one_more_time] bohemian).
Defined.

Lemma size_list_to_set_le (l : list string) :
  (size (list_to_set l : gset string) <= List.length l)%nat.
Proof.
  induction l as [|x l IH].
  - rewrite list_to_set_nil, size_empty. simpl. lia.
  - rewrite list_to_set_cons, size_union_alt, size_singleton. simpl.
    assert (Hsub : (list_to_set l : gset string) ∖ {[x]} ⊆ list_to_set l) by set_solver.
    apply subseteq_size in Hsub. lia.
Qed.

(** X11. The number of artists in the statistics counts the artists up
    to the case of their letters, of any script: it is at most the number
    of tracks, it is 0 only for an empty playlist, and adding a track
    raises it by one when no track has the same artist in lower case and
    leaves it as it is otherwise. *)
Theorem artists_count_spec self s :
  get_statistics self = Ok s ->
  (artists s <= total_tracks s)%nat /\
  (artists s = 0%nat <-> tracks self = []) /\
  (forall t s', get_statistics (add_track self t) = Ok s' ->
     artists s' = if decide (Py.lower (artist t) ∈ artist_keys self)
                  then artists s else S (artists s)).
Proof.
  unfold get_statistics. destruct (get_total_duration self); [|discriminate].
  rewrite bind_Ok. intros [= <-]. simpl. fold (artist_keys self).
  split; [|split].
  - unfold artist_keys at 1. rewrite <- (length_map (fun t => Py.lower (artist t))).
    apply size_list_to_set_le.
  - split.
    + intros H. apply (size_empty_inv (C := gset string)) in H.
      unfold artist_keys in H.
      destruct (tracks self) as [|t ts]; [reflexivity|].
      change (List.map (fun t => Py.lower (artist t)) (t :: ts))
        with (Py.lower (artist t) :: List.map (fun t => Py.lower (artist t)) ts) in H.
      rewrite list_to_set_cons in H. set_solver.
    + unfold artist_keys. intros ->. apply (size_empty (C := gset string)).
  - intros t s'. destruct (get_total_duration (add_track self t)); [|discriminate].
    rewrite bind_Ok. intros [= <-]. simpl. unfold add_track. simpl.
    rewrite List.map_app. simpl. fold (artist_keys self).
    rewrite list_to_set_snoc_L. destruct (decide _) as [Hin|Hin].
    + f_equal. apply (elem_of_list_to_set (C := gset string)) in Hin. set_solver.
    + rewrite size_union, size_singleton; [lia|].
      rewrite <- (elem_of_list_to_set (C := gset string)) in Hin. set_solver.
Qed.

Lemma artists_count_spec_witness :
  exists s s',
    get_statistics (mkPlaylist (JString "Rock") [gruppa_krovi]) = Ok s /\
    get_statistics (add_track (mkPlaylist (JString "Rock") [gruppa_krovi]) zvezda) = Ok s' /\
    artists s'
    = if decide (Py.lower (artist zvezda)
                 ∈ artist_keys (mkPlaylist (JString "Rock") [gruppa_krovi]))
      then artists s else S (artists s).
Proof.
  eexists _, _. split; [reflexivity|]. split; [reflexivity|].
  apply (proj2 (proj2 (artists_count_spec (mkPlaylist (JString "Rock") [gruppa_krovi])
                         _ eq_refl)) zvezda _ eq_refl).
Defined.

(** The two spellings count as one artist. *)
Example artists_kino :
  Py.lower (artist zvezda) ∈ artist_keys (mkPlaylist (JString "Rock") [gruppa_krovi]).
Proof. vm_compute. left. Qed.

(** ** Reading records *)

Lemma timedelta_new_ok h m s d :
  timedelta_new h m s = Ok d -> td_in_range d = true /\ whole_seconds d.
Proof.
  unfold timedelta_new.
  destruct (td_in_range (Timedelta _)) eqn:E; [|discriminate].
  intros [= <-]. split; [exact E|].
  unfold whole_seconds. simpl. apply Z.mod_mul. unfold us_per_second. lia.
Qed.

Lemma parse_duration_ok text d :
  parse_duration text = Ok d -> td_in_range d = true /\ whole_seconds d.
Proof.
  unfold parse_duration.
  destruct (Py.split ":" text) as [|a [|b [|c [|e l]]]]; try discriminate.
  - destruct (Py.int a); [|discriminate]. destruct (Py.int b); [|discriminate].
    rewrite !bind_Ok. apply timedelta_new_ok.
  - destruct (Py.int a); [|discriminate]. destruct (Py.int b); [|discriminate].
    destruct (Py.int c); [|discriminate].
    rewrite !bind_Ok. apply timedelta_new_ok.
Qed.

Lemma Track_init_inv ti ar d g y t :
  Track_init ti ar d g y = Ok t ->
  ti = JString (title t) /\ ar = JString (artist t) /\ duration t = d /\ genre t = g /\
  (y = JNull /\ year t = None \/ exists z, as_int y = Some z /\ year t = Some z) /\
  code_invariants (title t) (artist t) d (year t).
Proof.
  unfold Track_init, code_invariants.
  destruct ti as [| | |ts| |]; try discriminate.
  destruct (String.eqb_spec (Py.strip ts) ""); [discriminate|].
  destruct ar as [| | |as'| |]; try discriminate.
  destruct (String.eqb_spec (Py.strip as') ""); [discriminate|].
  unfold total_seconds_nonpos.
  destruct (Z.leb_spec (total_microseconds d) 0); [discriminate|].
  destruct y as [|b|z| | |]; try discriminate.
  - intros [= <-]. simpl. repeat split; auto.
  - destruct b; discriminate.
  - simpl. destruct ((z <? 1900) || (z >? 2100)) eqn:E; [discriminate|].
    apply year_check in E. intros [= <-]. simpl.
    split; [reflexivity|]. split; [reflexivity|]. split; [reflexivity|].
    split; [reflexivity|]. split; [right; eauto|]. auto.
Qed.

Lemma from_dict_inv r t :
  from_dict r = Ok t ->
  exists items text,
    r = JObject items /\
    dict_get items "duration" = Some (JString text) /\
    parse_duration text = Ok (duration t) /\
    dict_get items "title" = Some (JString (title t)) /\
    dict_get items "artist" = Some (JString (artist t)) /\
    genre t = find_genre (default (JString (value OTHER)) (dict_get items "genre")) /\
    (default JNull (dict_get items "year") = JNull /\ year t = None \/
     exists z, as_int (default JNull (dict_get items "year")) = Some z /\ year t = Some z) /\
    code_invariants (title t) (artist t) (duration t) (year t).
Proof.
  destruct r as [| | | | |items]; try discriminate.
  unfold from_dict, dict_item.
  destruct (dict_get items "duration") as [dv|] eqn:Edv; [|discriminate]. rewrite bind_Ok.
  destruct dv as [| | |text| |]; try discriminate.
  destruct (parse_duration text) as [d|] eqn:Ed; [|discriminate]. rewrite bind_Ok.
  destruct (dict_get items "title") as [ti|] eqn:Eti; [|discriminate]. rewrite bind_Ok.
  destruct (dict_get items "artist") as [ar|] eqn:Ear; [|discriminate]. rewrite bind_Ok.
  intros H. apply Track_init_inv in H as (-> & -> & Hd & Hg & Hy & Hc).
  exists items, text. rewrite Hd.
  split; [reflexivity|]. split; [exact Edv|]. split; [exact Ed|].
  split; [exact Eti|]. split; [exact Ear|]. split; [exact Hg|].
  split; [exact Hy|exact Hc].
Qed.

Lemma from_dict_valid_whole r t :
  from_dict r = Ok t -> valid t /\ whole_seconds (duration t).
Proof.
  intros H. destruct (from_dict_inv r t H)
    as (items & text & -> & _ & Hp & _ & _ & _ & _ & Hc).
  destruct (parse_duration_ok _ _ Hp) as [Hr Hw].
  split; [|exact Hw]. split; [|exact Hr].
  rewrite (Track_new_ok _ _ _ (genre t) _ Hc). destruct t; reflexivity.
Qed.

(** X12. A track [from_dict] returns has its title and artist exactly
    as the record gives them, the genre found from the record, a year
    that is absent or within 1900..2100, and a positive duration of whole
    seconds inside the [timedelta] range: it satisfies every check of the
    constructor, and writing it with [to_dict] and reading it again gives
    the same track. *)
Theorem from_dict_valid r t :
  from_dict r = Ok t ->
  valid t /\ whole_seconds (duration t) /\
  (exists items, r = JObject items /\
     dict_get items "title" = Some (JString (title t)) /\
     dict_get items "artist" = Some (JString (artist t))) /\
  from_dict (to_dict t) = Ok t.
Proof.
  intros H. destruct (from_dict_inv r t H)
    as (items & text & -> & _ & Hp & Ht & Ha & _ & _ & Hc).
  destruct (parse_duration_ok _ _ Hp) as [Hr Hw].
  assert (Hv : valid t).
  { split; [|exact Hr]. rewrite (Track_new_ok _ _ _ (genre t) _ Hc).
    destruct t; reflexivity. }
  split; [exact Hv|]. split; [exact Hw|]. split; [eauto|].
  apply from_dict_to_dict; assumption.
Qed.

Lemma from_dict_valid_witness :
  from_dict (to_dict (mkTrack "Song" "Singer" (Timedelta (3661 * us_per_second)) OTHER None))
  = Ok (mkTrack "Song" "Singer" (Timedelta (3661 * us_per_second)) OTHER None).
Proof.
  apply (from_dict_valid
           (JObject [ ("title", JString "Song"); ("artist", JString "Singer");
                      ("duration", JString "1:01:01") ])).
  reflexivity.
Defined.

(** X13. What [from_dict] does with a record that lacks something: a
    value that is no object raises [TypeError]; a missing ["duration"],
    ["title"] or ["artist"] raises [KeyError] with that key, the duration
    being looked at first; a duration or a title that is no string raises
    [AttributeError]; a missing ["year"] is no error and gives a track
    without a year. *)
Theorem from_dict_missing :
  (forall r, (forall items, r <> JObject items) -> from_dict r = Raise TypeError) /\
  (forall items, dict_get items "duration" = None ->
     from_dict (JObject items) = Raise (KeyError "duration")) /\
  (forall items v, dict_get items "duration" = Some v -> (forall text, v <> JString text) ->
     from_dict (JObject items) = Raise AttributeError) /\
  (forall items text d, dict_get items "duration" = Some (JString text) ->
     parse_duration text = Ok d -> dict_get items "title" = None ->
     from_dict (JObject items) = Raise (KeyError "title")) /\
  (forall items text d ti, dict_get items "duration" = Some (JString text) ->
     parse_duration text = Ok d -> dict_get items "title" = Some ti ->
     dict_get items "artist" = None ->
     from_dict (JObject items) = Raise (KeyError "artist")) /\
  (forall items text d ti ar, dict_get items "duration" = Some (JString text) ->
     parse_duration text = Ok d ->
     dict_get items "title" = Some ti -> dict_get items "artist" = Some ar ->
     (forall s, ti <> JString s) ->
     from_dict (JObject items) = Raise AttributeError) /\
  (forall items t, from_dict (JObject items) = Ok t ->
     dict_get items "year" = None -> year t = None).
Proof.
  split; [|split; [|split; [|split; [|split; [|split]]]]].
  - intros r H. destruct r; try reflexivity. destruct (H items eq_refl).
  - intros items H. unfold from_dict, dict_item. rewrite H. reflexivity.
  - intros items v H Hv. unfold from_dict, dict_item. rewrite H, bind_Ok.
    destruct v; try reflexivity. destruct (Hv s eq_refl).
  - intros items text d H Hp Ht. unfold from_dict, dict_item.
    rewrite H, bind_Ok, Hp, bind_Ok, Ht. reflexivity.
  - intros items text d ti H Hp Ht Ha. unfold from_dict, dict_item.
    rewrite H, bind_Ok, Hp, bind_Ok, Ht, bind_Ok, Ha. reflexivity.
  - intros items text d ti ar H Hp Ht Ha Hs. unfold from_dict, dict_item.
    rewrite H, bind_Ok, Hp, bind_Ok, Ht, bind_Ok, Ha, bind_Ok. unfold Track_init.
    destruct ti as [| | |ts| |]; auto. destruct (Hs ts eq_refl).
  - intros items t H Hy. apply from_dict_inv in H
      as (items' & text & [= <-] & _ & _ & _ & _ & _ & Hyr & _).
    rewrite Hy in Hyr. simpl in Hyr. destruct Hyr as [[_ H]|(z & Hz & _)];
      [exact H|discriminate].
Qed.

Lemma from_dict_missing_witness :
  from_dict (JObject [ ("title", JString "Song"); ("artist", JString "Singer") ])
  = Raise (KeyError "duration").
Proof.
  apply (proj1 (proj2 from_dict_missing)). reflexivity.
Defined.

(** ** Loading *)

Lemma loaded_tracks_valid records :
  Forall (fun t => valid t /\ whole_seconds (duration t)) (loaded_tracks records).
Proof.
  induction records as [|r rs IH]; [constructor|].
  rewrite loaded_tracks_cons. destruct (from_dict r) as [t|] eqn:E; [|exact IH].
  constructor; [|exact IH]. apply (from_dict_valid_whole r t E).
Qed.

Lemma load_success_inv fs self filename p out :
  load_from_json fs self filename = (true, p, out) ->
  exists items records,
    read_json fs filename = Ok (JObject items) /\
    iterate (default (JList []) (dict_get items "tracks")) = Ok records /\
    p = mkPlaylist (default (name self) (dict_get items "playlist_name"))
                   (loaded_tracks records) /\
    out = (skipped records ++ [Loaded filename (List.length (loaded_tracks records))])%list.
Proof.
  intros H. destruct (read_json fs filename) as [doc|e] eqn:Er.
  - destruct doc as [| | | | |items];
      try (unfold load_from_json in H; rewrite Er in H; discriminate).
    destruct (iterate (default (JList []) (dict_get items "tracks"))) as [records|e] eqn:Ei.
    + rewrite (load_from_json_object fs self filename items records Er Ei) in H.
      injection H as <- <-. eauto 10.
    + unfold load_from_json in H. rewrite Er in H. simpl name in H. rewrite Ei in H.
      discriminate.
  - unfold load_from_json in H. rewrite Er in H. destruct e; discriminate.
Qed.

(** X14. The file holding a document of the embedding, that is text
    that UTF-8 can encode and whole numbers: after a successful
    [load_from_json] every track of the playlist passes the checks of the
    constructor and lasts a whole number of seconds, whatever records the
    document held; so saving that playlist to a file that can be written
    and loading it again, into any playlist, gives the same name and
    tracks, without a warning. *)
Theorem load_then_save_then_load fs self filename p out :
  load_from_json fs self filename = (true, p, out) ->
  Forall (fun t => valid t /\ whole_seconds (duration t)) (tracks p) /\
  (forall fs2 file2 other,
     fs2 !! file2 <> Some FileDenied ->
     exists fs3,
       save_to_json fs2 p file2 = (true, fs3, [Saved file2]) /\
       load_from_json fs3 other file2
       = (true, p, [Loaded file2 (List.length (tracks p))])).
Proof.
  intros H. apply load_success_inv in H as (items & records & _ & _ & -> & _).
  simpl tracks. split; [apply loaded_tracks_valid|].
  intros fs2 file2 other Hw.
  destruct (save_then_load fs2
              (mkPlaylist (default (name self) (dict_get items "playlist_name"))
                          (loaded_tracks records))
              file2 (name other) (loaded_tracks_valid records) Hw) as (fs3 & Hs & Hl).
  exists fs3. split; [exact Hs|].
  apply load_success_inv in Hl as (items' & records' & Hr' & Hi' & Hp' & Ho').
  rewrite (load_from_json_object fs3 other file2 items' records' Hr' Hi').
  unfold save_to_json, write_json in Hs.
  destruct (fs2 !! file2) as [[]|]; try congruence;
    injection Hs as <-; unfold read_json in Hr'; rewrite lookup_insert_eq in Hr';
    injection Hr' as <-; simpl in Hi'; injection Hi' as <-; simpl dict_get; simpl default;
    destruct (loaded_tracks_to_dict _ (loaded_tracks_valid records)) as [-> ->];
    reflexivity.
Qed.

Lemma load_then_save_then_load_witness :
  exists fs3,
    save_to_json ∅ (mkPlaylist (JString "Mixed") [bohemian; so_what]) "copy.json"
    = (true, fs3, [Saved "copy.json"]) /\
    load_from_json fs3 sample_playlist "copy.json"
    = (true, mkPlaylist (JString "Mixed") [bohemian; so_what], [Loaded "copy.json" 2%nat]).
Proof.
  apply (proj2 (load_then_save_then_load mixed_fs sample_playlist "mixed.json"
                  (mkPlaylist (JString "Mixed") [bohemian; so_what])
                  [TrackSkipped (KeyError "duration"); Loaded "mixed.json" 2%nat]
                  eq_refl) ∅ "copy.json" sample_playlist).
  rewrite lookup_empty. discriminate.
Defined.

Lemma records_of_strings l :
  loaded_tracks (List.map JString l) = [] /\
  skipped (List.map JString l) = replicate (List.length l) (TrackSkipped TypeError).
Proof.
  induction l as [|s l [IH1 IH2]]; [split; reflexivity|].
  change (List.map JString (s :: l)) with (JString s :: List.map JString l).
  rewrite loaded_tracks_cons, skipped_cons. simpl. rewrite IH1, IH2. split; reflexivity.
Qed.

(** X15. When the document is an object whose ["tracks"] entry is not a
    list: a string or an object is walked through character by character
    or key by key, each one is skipped with a warning and the load
    succeeds with no track; [null], a boolean or a number cannot be
    walked through, and the load reports failure after it has replaced
    the name and removed the tracks. *)
Theorem load_tracks_not_a_list fs self filename items :
  read_json fs filename = Ok (JObject items) ->
  (forall s, dict_get items "tracks" = Some (JString s) ->
     load_from_json fs self filename
     = (true, mkPlaylist (default (name self) (dict_get items "playlist_name")) [],
        (replicate (List.length (Py.chars s)) (TrackSkipped TypeError)
         ++ [Loaded filename 0%nat])%list)) /\
  (forall members, dict_get items "tracks" = Some (JObject members) ->
     load_from_json fs self filename
     = (true, mkPlaylist (default (name self) (dict_get items "playlist_name")) [],
        (replicate (List.length members) (TrackSkipped TypeError)
         ++ [Loaded filename 0%nat])%list)) /\
  (forall v, dict_get items "tracks" = Some v ->
     v = JNull \/ (exists b, v = JBool b) \/ (exists z, v = JInt z) ->
     load_from_json fs self filename
     = (false, mkPlaylist (default (name self) (dict_get items "playlist_name")) [],
        [LoadFailed filename TypeError])).
Proof.
  intros Hr. split; [|split].
  - intros s Ht.
    rewrite (load_from_json_object fs self filename items (List.map JString (Py.chars s)) Hr)
      by (rewrite Ht; reflexivity).
    destruct (records_of_strings (Py.chars s)) as [-> ->]. reflexivity.
  - intros members Ht.
    rewrite (load_from_json_object fs self filename items
               (List.map JString (List.map fst members)) Hr)
      by (rewrite Ht; simpl; rewrite List.map_map; reflexivity).
    destruct (records_of_strings (List.map fst members)) as [-> ->].
    rewrite length_map. reflexivity.
  - intros v Ht Hv. unfold load_from_json. rewrite Hr, Ht. simpl.
    destruct Hv as [->|[[b ->]|[z ->]]]; reflexivity.
Qed.

Lemma load_tracks_not_a_list_witness :
  load_from_json null_tracks_fs sample_playlist "broken.json"
  = (false, mkPlaylist (JString "Other") [], [LoadFailed "broken.json" TypeError]).
Proof.
  apply (proj2 (proj2 (load_tracks_not_a_list null_tracks_fs sample_playlist "broken.json"
                         [("playlist_name", JString "Other"); ("tracks", JNull)] eq_refl))
           JNull eq_refl).
  left. reflexivity.
Defined.

(** ** Durations on the command line *)

Lemma timedelta_new_raise h m s e : timedelta_new h m s = Raise e -> e = OverflowError.
Proof. unfold timedelta_new. destruct (td_in_range _); congruence. Qed.

Lemma str_nonneg n : 0 <= n -> Py.str n = Py.format_0d 0 n.
Proof.
  intros H. unfold Py.str, Py.format_0d. destruct (Z.ltb_spec n 0); [lia|]. reflexivity.
Qed.










Lemma cli_parse_duration_ok text d :
  cli_parse_duration text = Return d -> td_in_range d = true /\ whole_seconds d.
Proof.
  unfold cli_parse_duration.
  match goal with |- context [match ?a with Ok _ => _ | Raise _ => _ end] =>
    destruct a as [d'|e] eqn:E end.
  - intros [= <-].
    destruct (Py.split ":" text) as [|a [|b [|c [|e l]]]];
      repeat match type of E with
             | context [Py.int ?x] => destruct (Py.int x); [|discriminate E]
             end;
      rewrite ?bind_Ok in E; apply timedelta_new_ok in E; exact E.
  - destruct (is_ValueError e); discriminate.
Qed.

Lemma cli_parse_duration_throw text e :
  cli_parse_duration text = Throw e ->
  e = ArgumentTypeError (msg_cli_format text) \/ e = Core OverflowError.
Proof.
  unfold cli_parse_duration.
  match goal with |- context [match ?a with Ok _ => _ | Raise _ => _ end] =>
    destruct a as [d'|e'] eqn:E end; [discriminate|].
  destruct (is_ValueError e') eqn:Ev; intros [= <-]; [left; reflexivity|].
  right. f_equal.
  destruct (Py.split ":" text) as [|a [|b [|c [|x l]]]];
    repeat match type of E with
           | context [Py.int ?x] =>
               destruct (Py.int x) eqn:?;
               [|injection E as <-;
                 match goal with H : Py.int _ = Raise _ |- _ =>
                   apply int_raise in H; subst; discriminate Ev end]
           end;
    rewrite ?bind_Ok in E; apply timedelta_new_raise in E; exact E.
Qed.

(** X16. The command line reads a duration as the records do: whatever
    [from_dict] accepts as a duration text, [parse_duration] turns into
    the same [timedelta]; it also takes a plain number of seconds; and
    what it returns is a whole number of seconds inside the [timedelta]
    range. *)
Theorem cli_parse_duration_accepts :
  (forall text d, parse_duration text = Ok d -> cli_parse_duration text = Return d) /\
  (forall n, 0 <= n -> td_in_range (Timedelta (n * us_per_second)) = true ->
     cli_parse_duration (Py.str n) = Return (Timedelta (n * us_per_second))) /\
  (forall text d, cli_parse_duration text = Return d ->
     td_in_range d = true /\ whole_seconds d).
Proof.
  split; [|split].
  - intros text d. unfold parse_duration, cli_parse_duration.
    destruct (Py.split ":" text) as [|a [|b [|c [|e l]]]]; try discriminate;
      intros ->; reflexivity.
  - intros n Hn Hr. unfold cli_parse_duration.
    rewrite (str_nonneg n Hn), split_digits by (apply is_digits_format_0d, Hn).
    assert (Hsmall : n < 10 ^ 40).
    { pose proof (td_in_range_bounds _ Hr) as Hb. cbn [total_microseconds] in Hb.
      unfold max_days, us_per_day, us_per_second in Hb. lia. }
    rewrite int_format_0d_small, bind_Ok by lia. unfold timedelta_new.
    replace ((0 * 3600 + 0 * 60 + n) * us_per_second) with (n * us_per_second) by lia.
    rewrite Hr. reflexivity.
  - apply cli_parse_duration_ok.
Qed.

Lemma cli_parse_duration_accepts_witness :
  cli_parse_duration "90" = Return (Timedelta (90 * us_per_second)) /\
  cli_parse_duration "1:01:01" = Return (Timedelta (3661 * us_per_second)).
Proof.
  split.
  - apply (proj1 (proj2 cli_parse_duration_accepts) 90); [lia|reflexivity].
  - apply (proj1 cli_parse_duration_accepts). reflexivity.
Defined.



(** ** Commands *)

Lemma genre_by_name_inv n g : genre_by_name n = Ok g -> genre_name g = n.
Proof.
  unfold genre_by_name.
  destruct (List.find _ all_genres) as [g'|] eqn:E; [|discriminate].
  intros [= <-]. apply find_some in E as [_ E]. apply String.eqb_eq, E.
Qed.

Lemma genre_by_name_raise n e : genre_by_name n = Raise e -> e = KeyError n.
Proof.
  unfold genre_by_name. destruct (List.find _ all_genres); congruence.
Qed.

Lemma Track_new_raise title artist d g y e :
  Track_new title artist d g y = Raise e ->
  exists m, e = ValueError m /\ m ∈ [msg_title; msg_artist; msg_duration; msg_year].
Proof.
  rewrite Track_new_unfold.
  destruct (String.eqb _ ""); [intros [= <-]; eexists; split; [reflexivity|set_solver]|].
  destruct (String.eqb _ ""); [intros [= <-]; eexists; split; [reflexivity|set_solver]|].
  destruct (_ <=? 0); [intros [= <-]; eexists; split; [reflexivity|set_solver]|].
  destruct y as [z|]; [|discriminate].
  destruct ((z <? 1900) || (z >? 2100)); [|discriminate].
  intros [= <-]. eexists. split; [reflexivity|set_solver].
Qed.

Lemma handle_add_cases self args :
  (exists t,
     handle_add self args = (add_track self t, [TrackAdded t]) /\
     valid t /\ whole_seconds (duration t) /\
     title t = add_title args /\ artist t = add_artist args /\
     year t = add_year args /\ genre_name (genre t) = add_genre args) \/
  (exists m,
     handle_add self args = (self, [AddError (Core (ValueError m))]) /\
     m ∈ [msg_title; msg_artist; msg_duration; msg_year]) \/
  (exists e,
     handle_add self args = (self, [UnexpectedError e]) /\
     (e = ArgumentTypeError (msg_cli_format (add_duration args)) \/
      e = Core OverflowError \/ e = Core (KeyError (add_genre args)))).
Proof.
  unfold handle_add.
  destruct (cli_parse_duration (add_duration args)) as [d|e] eqn:Ed.
  - destruct (genre_by_name (add_genre args)) as [g|e] eqn:Eg.
    + destruct (Track_new _ _ d g _) as [t|e] eqn:Et.
      * left. exists t. split; [reflexivity|].
        apply Track_new_inv in Et as [Hc ->]. simpl.
        destruct (cli_parse_duration_ok _ _ Ed) as [Hr Hw].
        repeat split; auto using genre_by_name_inv.
        apply Track_new_ok, Hc.
      * right. left. apply Track_new_raise in Et as (m & -> & Hm). eauto.
    + right. right. apply genre_by_name_raise in Eg as ->. simpl. eauto.
  - right. right.
    destruct (cli_parse_duration_throw _ e Ed) as [->| ->]; simpl; eauto.
Qed.


Lemma handle_add_name_tracks self args :
  name (fst (handle_add self args)) = name self /\
  (tracks (fst (handle_add self args)) = tracks self \/
   exists t, tracks (fst (handle_add self args)) = (tracks self ++ [t])%list /\
             valid t /\ whole_seconds (duration t)).
Proof.
  destruct (handle_add_cases self args)
    as [(t & -> & Hv & Hw & _)|[(m & -> & _)|(e & -> & _)]]; simpl; [|auto..].
  split; [reflexivity|]. right. exists t. auto.
Qed.

Lemma run_adds_valid commands : forall self,
  Forall (fun t => valid t /\ whole_seconds (duration t)) (tracks self) ->
  Forall (fun t => valid t /\ whole_seconds (duration t)) (tracks (run_adds self commands))
  /\ name (run_adds self commands) = name self.
Proof.
  induction commands as [|args commands IH]; intros self H; [auto|].
  change (run_adds self (args :: commands))
    with (run_adds (fst (handle_add self args)) commands).
  destruct (handle_add_name_tracks self args) as [Hn Ht].
  destruct (IH (fst (handle_add self args))) as [IH1 IH2].
  - destruct Ht as [->|(t & -> & Hv & Hw)]; [exact H|].
    apply Forall_app. split; [exact H|]. constructor; [split; assumption|constructor].
  - split; [exact IH1|]. rewrite IH2. exact Hn.
Qed.

(** X19. A playlist filled by [handle_add] calls only, whatever their
    arguments as long as UTF-8 can encode their text, as it can every
    [string] of the embedding, holds only tracks that pass the checks of
    the constructor; saved to a file that can be written and loaded into
    another playlist it comes back with the same name and the same
    tracks in the same order. *)
Theorem added_tracks_round_trip playlist_name commands fs filename other :
  fs !! filename <> Some FileDenied ->
  Forall (fun t => valid t /\ whole_seconds (duration t))
    (tracks (run_adds (mkPlaylist playlist_name []) commands)) /\
  exists fs',
    save_to_json fs (run_adds (mkPlaylist playlist_name []) commands) filename
    = (true, fs', [Saved filename]) /\
    fst (fst (load_from_json fs' other filename)) = true /\
    snd (fst (load_from_json fs' other filename))
    = run_adds (mkPlaylist playlist_name []) commands.
Proof.
  intros Hw.
  destruct (run_adds_valid commands (mkPlaylist playlist_name []) (List.Forall_nil _))
    as [Hv _].
  split; [exact Hv|].
  set (p := run_adds (mkPlaylist playlist_name []) commands) in *.
  destruct (save_then_load fs p filename (name other) Hv Hw) as (fs' & Hs & Hl).
  exists fs'. split; [exact Hs|].
  apply load_success_inv in Hl as (items & records & Hr & Hi & Hp & _).
  rewrite (load_from_json_object fs' other filename items records Hr Hi). simpl.
  split; [reflexivity|]. rewrite Hp. reflexivity.
Qed.

Lemma added_tracks_round_trip_witness :
  exists fs',
    save_to_json ∅
      (run_adds (mkPlaylist (JString "Mine") [])
         [mkAddArgs "Song" "Singer" "3:05" "ROCK" (Some 1999);
          mkAddArgs "" "Nobody" "1:00" "POP" None])
      "mine.json"
    = (true, fs', [Saved "mine.json"]) /\
    fst (fst (load_from_json fs' sample_playlist "mine.json")) = true /\
    snd (fst (load_from_json fs' sample_playlist "mine.json"))
    = run_adds (mkPlaylist (JString "Mine") [])
        [mkAddArgs "Song" "Singer" "3:05" "ROCK" (Some 1999);
         mkAddArgs "" "Nobody" "1:00" "POP" None].
Proof.
  apply (added_tracks_round_trip (JString "Mine")
           [mkAddArgs "Song" "Singer" "3:05" "ROCK" (Some 1999);
            mkAddArgs "" "Nobody" "1:00" "POP" None]
           ∅ "mine.json" sample_playlist).
  rewrite lookup_empty. discriminate.
Defined.

(** X20. The demonstration command cannot succeed: its seventh track
    has the year 1801, which the constructor refuses, so building the
    list raises the year error before any track is added, in
    [handle_demo] and, for every count, in [demo] of the second file. *)
Theorem demo_always_fails self count :
  demo_tracks = Raise (ValueError msg_year) /\
  handle_demo self = Raise (ValueError msg_year) /\
  demo self count = Raise (ValueError msg_year).
Proof. repeat split. Qed.

Lemma sort_tracks_perm sort r l : sort_tracks sort r l ≡ₚ l.
Proof.
  unfold sort_tracks. destruct sort as [k|]; [|reflexivity].
  repeat (destruct (String.eqb k _); [apply list_sort_perm|]). reflexivity.
Qed.

(** X21. [handle_show] prints the empty-playlist line for an empty
    playlist and changes nothing. Otherwise it displays all the tracks,
    in the order in which it leaves them in the playlist: the same tracks
    as before, and in the same order when no sort is asked for. *)
Theorem handle_show_spec self sort reverse_order :
  (tracks self = [] -> handle_show self sort reverse_order = (self, [PlaylistEmpty])) /\
  (tracks self <> [] ->
     exists after,
       handle_show self sort reverse_order
       = (after, [Displayed (name self) (tracks after)]) /\
       name after = name self /\ tracks after ≡ₚ tracks self /\
       (sort = None -> after = self)).
Proof.
  unfold handle_show. split.
  - intros ->. reflexivity.
  - intros Hne. destruct (tracks self) as [|t ts] eqn:Et; [congruence|].
    set (after := match sort with Some _ => _ | None => _ end).
    assert (Ha : name after = name self /\ tracks after ≡ₚ tracks self).
    { subst after. destruct sort as [k|]; [|split; reflexivity].
      repeat (destruct (String.eqb k _);
              [first [split; reflexivity
                     |split; [reflexivity|simpl; apply list_sort_perm]]|]).
      split; reflexivity. }
    destruct Ha as [Hn Hp]. exists after.
    split; [|split; [exact Hn|split; [rewrite Hp, Et; reflexivity|]]].
    + unfold display_tracks. simpl default. rewrite <- Hn.
      rewrite Et in Hp. destruct (tracks after); [|reflexivity].
      apply Permutation_nil_cons in Hp. destruct Hp.
    + intros ->. reflexivity.
Qed.

Lemma handle_show_spec_witness :
  handle_show (mkPlaylist (JString "Empty") []) (Some "title") false
  = (mkPlaylist (JString "Empty") [], [PlaylistEmpty]).
Proof.
  apply (proj1 (handle_show_spec (mkPlaylist (JString "Empty") []) (Some "title") false)).
  reflexivity.
Defined.

Lemma finish_displayed self (args : FilterArgs) header filtered out :
  out = match filtered with
        | [] => (header ++ [NoMatch])%list
        | _ =>
            (header ++ display_tracks self
               (Some (if truthy_str (flt_sort args)
                      then sort_tracks (flt_sort args) (flt_reverse args) filtered
                      else filtered)))%list
        end ->
  (forall n ts, Displayed n ts ∉ header) ->
  forall n ts, Displayed n ts ∈ out -> n = name self /\ ts ≡ₚ filtered /\ ts <> [].
Proof.
  intros -> Hh n ts. destruct filtered as [|t l].
  - rewrite elem_of_app. intros [H|H]; [destruct (Hh _ _ H)|]. set_solver.
  - rewrite elem_of_app. intros [H|H]; [destruct (Hh _ _ H)|].
    unfold display_tracks in H. simpl default in H.
    set (shown := if truthy_str _ then _ else _) in H.
    assert (Hp : shown ≡ₚ t :: l)
      by (subst shown; destruct (truthy_str _); [apply sort_tracks_perm|reflexivity]).
    destruct shown as [|x shown]; [apply Permutation_nil_cons in Hp; destruct Hp|].
    apply list_elem_of_singleton in H. injection H as -> ->. auto.
Qed.

Lemma finish_cases self (args : FilterArgs) header filtered :
  (filtered = [] ->
     match filtered with
     | [] => (header ++ [NoMatch])%list
     | _ =>
         (header ++ display_tracks self
            (Some (if truthy_str (flt_sort args)
                   then sort_tracks (flt_sort args) (flt_reverse args) filtered
                   else filtered)))%list
     end = (header ++ [NoMatch])%list) /\
  (filtered <> [] ->
     exists shown,
       match filtered with
       | [] => (header ++ [NoMatch])%list
       | _ =>
           (header ++ display_tracks self
              (Some (if truthy_str (flt_sort args)
                     then sort_tracks (flt_sort args) (flt_reverse args) filtered
                     else filtered)))%list
       end = (header ++ [Displayed (name self) shown])%list /\
       shown ≡ₚ filtered /\
       (truthy_str (flt_sort args) = false -> shown = filtered)).
Proof.
  split; [intros ->; reflexivity|]. intros Hne.
  destruct filtered as [|t l]; [congruence|].
  set (shown := if truthy_str _ then _ else _).
  assert (Hp : shown ≡ₚ t :: l)
    by (subst shown; destruct (truthy_str _); [apply sort_tracks_perm|reflexivity]).
  exists shown. split; [|split; [exact Hp|]].
  - unfold display_tracks. simpl default.
    destruct shown as [|x shown]; [apply Permutation_nil_cons in Hp; destruct Hp|].
    reflexivity.
  - subst shown. intros ->. reflexivity.
Qed.

(** X22. [handle_filter] displays only tracks of the playlist, under the
    playlist's name, and never an empty list. When an artist is given the
    artist filter is the one applied, whatever the other criteria are:
    after the artist header comes the no-match line when
    [get_tracks_by_artist] finds nothing, and otherwise one display of
    exactly the tracks it finds, in the order it finds them unless a sort
    is asked for. The only exception [handle_filter] can raise is the
    [KeyError] of a genre name that is no member of the enumeration, and
    only when no artist is given. *)
Theorem handle_filter_safe self args :
  (forall out n ts, handle_filter self args = Ok out -> Displayed n ts ∈ out ->
     n = name self /\ ts <> [] /\ forall t, t ∈ ts -> t ∈ tracks self) /\
  (forall e, handle_filter self args = Raise e ->
     truthy_str (flt_artist args) = false /\
     e = KeyError (default EmptyString (flt_genre args))) /\
  (tracks self <> [] -> truthy_str (flt_artist args) = true ->
     (get_tracks_by_artist self (default EmptyString (flt_artist args)) = [] ->
        handle_filter self args
        = Ok [HeaderArtist (default EmptyString (flt_artist args)); NoMatch]) /\
     (get_tracks_by_artist self (default EmptyString (flt_artist args)) <> [] ->
        exists shown,
          handle_filter self args
          = Ok [HeaderArtist (default EmptyString (flt_artist args));
                Displayed (name self) shown] /\
          shown ≡ₚ get_tracks_by_artist self (default EmptyString (flt_artist args)) /\
          (truthy_str (flt_sort args) = false ->
             shown = get_tracks_by_artist self (default EmptyString (flt_artist args))))).
Proof.
  unfold handle_filter. split; [|split].
  - intros out n ts. destruct (tracks self) as [|t0 l0] eqn:Et.
    { intros [= <-]. set_solver. }
    rewrite <- Et.
    assert (Hsub : forall filtered header,
               (forall n ts, Displayed n ts ∉ header) ->
               (forall t, t ∈ filtered -> t ∈ tracks self) ->
               Displayed n ts ∈
                 match filtered with
                 | [] => (header ++ [NoMatch])%list
                 | _ =>
                   (header ++ display_tracks self
                      (Some (if truthy_str (flt_sort args)
                             then sort_tracks (flt_sort args) (flt_reverse args) filtered
                             else filtered)))%list
                 end ->
               n = name self /\ ts <> [] /\ forall t, t ∈ ts -> t ∈ tracks self).
    { intros filtered header Hh Hf Hin.
      destruct (finish_displayed self args header filtered _ eq_refl Hh n ts Hin)
        as (Hn & Hp & Hne).
      split; [exact Hn|]. split; [exact Hne|].
      intros t Ht. apply Hf. rewrite <- Hp. exact Ht. }
    destruct (truthy_str (flt_artist args)).
    { intros [= <-] Hin. cbv zeta in Hin.
      refine (Hsub (get_tracks_by_artist self _) [HeaderArtist _] _ _ Hin); [set_solver|].
      intros t Ht. rewrite (get_tracks_by_artist_filter self) in Ht.
      apply list_elem_of_filter in Ht. tauto. }
    destruct (truthy_str (flt_genre args)).
    { destruct (genre_by_name _) as [g|]; [|discriminate]. rewrite bind_Ok.
      intros [= <-] Hin. cbv zeta in Hin.
      refine (Hsub (get_tracks_by_genre self g) [HeaderGenre _] _ _ Hin); [set_solver|].
      intros t. unfold get_tracks_by_genre. rewrite !list_elem_of_In, filter_In. tauto. }
    destruct (truthy_int (flt_year args)).
    { intros [= <-] Hin. cbv zeta in Hin.
      refine (Hsub (get_tracks_by_year self _) [HeaderYear _] _ _ Hin); [set_solver|].
      intros t. unfold get_tracks_by_year. rewrite !list_elem_of_In, filter_In. tauto. }
    destruct (truthy_int (flt_min_duration args) || truthy_int (flt_max_duration args)).
    { destruct (_ >? _); intros [= <-] Hin; [set_solver|].
      cbv zeta in Hin.
      refine (Hsub (get_tracks_in_duration_range self _ _) [HeaderDuration _ _] _ _ Hin);
        [set_solver|].
      intros t. unfold get_tracks_in_duration_range.
      rewrite !list_elem_of_In, filter_In. tauto. }
    intros [= <-]. set_solver.
  - intros e. destruct (tracks self); [discriminate|].
    destruct (truthy_str (flt_artist args)); [discriminate|].
    destruct (truthy_str (flt_genre args)).
    + destruct (genre_by_name _) as [g|e'] eqn:Eg; [discriminate|].
      intros [= <-]. apply genre_by_name_raise in Eg. auto.
    + destruct (truthy_int (flt_year args)); [discriminate|].
      destruct (_ || _); [destruct (_ >? _)|]; discriminate.
  - intros Hne ->. destruct (tracks self) as [|t0 l0]; [congruence|].
    destruct (finish_cases self args
                [HeaderArtist (default EmptyString (flt_artist args))]
                (get_tracks_by_artist self (default EmptyString (flt_artist args))))
      as [Hnone Hsome].
    split.
    + intros H. cbv zeta. rewrite (Hnone H). reflexivity.
    + intros H. destruct (Hsome H) as (shown & Hout & Hp & Hs).
      exists shown. cbv zeta. rewrite Hout. auto.
Qed.

Lemma handle_filter_safe_witness :
  exists shown,
    handle_filter sample_playlist
      (mkFilterArgs (Some "queen") (Some "JAZZ") None None None None false)
    = Ok [HeaderArtist "queen"; Displayed (JString "Favourites") shown] /\
    shown ≡ₚ [bohemian] /\
    (false = false -> shown = [bohemian]).
Proof.
  apply (proj2 (proj2 (proj2 (handle_filter_safe sample_playlist
                         (mkFilterArgs (Some "queen") (Some "JAZZ") None None None None false)))
                 ltac:(discriminate) eq_refl)).
  discriminate.
Defined.

Lemma handle_filter_duration self args :
  tracks self <> [] ->
  truthy_str (flt_artist args) = false -> truthy_str (flt_genre args) = false ->
  truthy_int (flt_year args) = false ->
  truthy_int (flt_min_duration args) || truthy_int (flt_max_duration args) = true ->
  let min_sec := or_default (flt_min_duration args) 0 in
  let max_sec := or_default (flt_max_duration args) 86400 in
  (max_sec < min_sec -> handle_filter self args = Ok [MinAboveMax]) /\
  (min_sec <= max_sec ->
     exists rest,
       handle_filter self args = Ok (HeaderDuration min_sec max_sec :: rest) /\
       forall n ts, Displayed n ts ∈ rest ->
         ts ≡ₚ get_tracks_in_duration_range self min_sec max_sec).
Proof.
  intros Hne Ha Hg Hy Hd min_sec max_sec. unfold handle_filter.
  destruct (tracks self) as [|t0 l0] eqn:Et; [congruence|].
  rewrite Ha, Hg, Hy, Hd. fold min_sec max_sec. split.
  - intros H. destruct (Z.gtb_spec min_sec max_sec); [reflexivity|lia].
  - intros H. destruct (Z.gtb_spec min_sec max_sec); [lia|].
    destruct (get_tracks_in_duration_range self min_sec max_sec) as [|t l] eqn:Ef.
    + exists [NoMatch]. split; [reflexivity|]. intros n ts Hin. set_solver.
    + eexists. split; [reflexivity|]. intros n ts Hin.
      refine (proj1 (proj2 (finish_displayed self args [] (t :: l) _ eq_refl _ n ts Hin))).
      set_solver.
Qed.

(** X23. In [handle_filter], when no artist, genre or year is given, a
    bound that is 0 counts as not given: a minimum alone is paired with a
    maximum of 86400 seconds, so a track longer than a day is never
    shown and a minimum above 86400 gives the min-above-max line; a
    maximum alone is paired with a minimum of 0; and with both bounds
    absent or 0 the command prints the no-match line. *)
Theorem handle_filter_duration_defaults self args :
  tracks self <> [] ->
  truthy_str (flt_artist args) = false -> truthy_str (flt_genre args) = false ->
  truthy_int (flt_year args) = false ->
  (forall m, flt_min_duration args = Some m -> m <> 0 ->
     truthy_int (flt_max_duration args) = false ->
     (86400 < m -> handle_filter self args = Ok [MinAboveMax]) /\
     (m <= 86400 ->
        exists rest,
          handle_filter self args = Ok (HeaderDuration m 86400 :: rest) /\
          forall n ts, Displayed n ts ∈ rest ->
            ts ≡ₚ get_tracks_in_duration_range self m 86400 /\
            forall t, t ∈ ts -> m <= duration_seconds t <= 86400)) /\
  (forall M, flt_max_duration args = Some M -> M <> 0 ->
     truthy_int (flt_min_duration args) = false ->
     (M < 0 -> handle_filter self args = Ok [MinAboveMax]) /\
     (0 <= M ->
        exists rest,
          handle_filter self args = Ok (HeaderDuration 0 M :: rest) /\
          forall n ts, Displayed n ts ∈ rest ->
            ts ≡ₚ get_tracks_in_duration_range self 0 M)) /\
  (truthy_int (flt_min_duration args) = false ->
   truthy_int (flt_max_duration args) = false ->
   handle_filter self args = Ok [NoMatch]).
Proof.
  intros Hne Ha Hg Hy. split; [|split].
  - intros m Hm Hm0 Hmax.
    assert (Hmin : truthy_int (flt_min_duration args) = true)
      by (rewrite Hm; simpl; destruct (Z.eqb_spec m 0); [contradiction|reflexivity]).
    destruct (handle_filter_duration self args Hne Ha Hg Hy) as [H1 H2];
      [rewrite Hmin; reflexivity|].
    unfold or_default in H1, H2. rewrite Hmin, Hmax, Hm in H1, H2. simpl in H1, H2.
    split; [exact H1|].
    intros Hle. destruct (H2 Hle) as (rest & Hr & Hd). exists rest.
    split; [exact Hr|]. intros n ts Hin. specialize (Hd n ts Hin).
    split; [exact Hd|]. intros t Ht. rewrite Hd in Ht.
    apply (get_tracks_in_duration_range_bounds self m 86400), Ht.
  - intros M HM HM0 Hmin.
    assert (Hmax : truthy_int (flt_max_duration args) = true)
      by (rewrite HM; simpl; destruct (Z.eqb_spec M 0); [contradiction|reflexivity]).
    destruct (handle_filter_duration self args Hne Ha Hg Hy) as [H1 H2];
      [rewrite Hmax; apply orb_true_r|].
    unfold or_default in H1, H2. rewrite Hmin, Hmax, HM in H1, H2. simpl in H1, H2.
    split; [exact H1|exact H2].
  - intros Hmin Hmax. unfold handle_filter.
    destruct (tracks self); [congruence|]. rewrite Ha, Hg, Hy, Hmin, Hmax. reflexivity.
Qed.

Lemma handle_filter_duration_defaults_witness :
  handle_filter sample_playlist
    (mkFilterArgs None None None (Some 90000) (Some 0) None false)
  = Ok [MinAboveMax].
Proof.
  apply (proj1 (handle_filter_duration_defaults sample_playlist
                  (mkFilterArgs None None None (Some 90000) (Some 0) None false)
                  ltac:(discriminate) eq_refl eq_refl eq_refl)
           90000 eq_refl ltac:(lia) eq_refl).
  lia.
Defined.

(** X24. [remove] of the second file never prints its cannot-remove
    line: for an index from 1 to the length it removes the track at
    that place, counted from 1, and prints it with the new length; for
    any other index, or an empty playlist, it changes nothing. *)
Theorem remove_spec playlist index :
  (tracks playlist = [] -> remove playlist index = (playlist, [PlaylistEmpty])) /\
  (tracks playlist <> [] -> ~ 1 <= index <= Playlist_len playlist ->
     remove playlist index = (playlist, [BadIndex (Playlist_len playlist)])) /\
  (1 <= index <= Playlist_len playlist ->
     exists t, tracks playlist !! Z.to_nat (index - 1) = Some t /\
       remove playlist index
       = (mkPlaylist (name playlist) (delete (Z.to_nat (index - 1)) (tracks playlist)),
          [TrackRemoved t (Playlist_len playlist - 1)])) /\
  (forall i, RemoveFailed i ∉ snd (remove playlist index)).
Proof.
  unfold remove, Playlist_len.
  destruct (tracks playlist) as [|t0 l0] eqn:Et.
  { simpl. repeat split; try congruence; try (intros; lia). set_solver. }
  rewrite <- Et.
  assert (Hlen : (0 < List.length (tracks playlist))%nat) by (rewrite Et; simpl; lia).
  destruct (Z.ltb_spec index 1);
    [|destruct (Z.gtb_spec index (Z.of_nat (List.length (tracks playlist))))];
    simpl orb; cbv iota.
  1,2: split; [congruence|]; split; [reflexivity|]; split; [intros; lia|set_solver].
  destruct (lookup_lt_is_Some_2 (tracks playlist) (Z.to_nat (index - 1)) ltac:(lia))
    as [t Ht].
  rewrite Ht. unfold remove_track.
  destruct (Z.leb_spec 0 (index - 1)); [|lia].
  destruct (Z.ltb_spec (index - 1) (Z.of_nat (List.length (tracks playlist)))); [|lia].
  simpl andb. cbv iota. unfold Playlist_len. simpl tracks.
  rewrite length_delete by eauto.
  replace (Z.of_nat (List.length (tracks playlist) - 1))
    with (Z.of_nat (List.length (tracks playlist)) - 1) by lia.
  split; [congruence|]. split; [intros; lia|]. split; [eauto|]. simpl. set_solver.
Qed.

Lemma remove_spec_witness :
  exists t, tracks sample_playlist !! Z.to_nat (2 - 1) = Some t /\
    remove sample_playlist 2
    = (mkPlaylist (name sample_playlist) (delete (Z.to_nat (2 - 1)) (tracks sample_playlist)),
       [TrackRemoved t (Playlist_len sample_playlist - 1)]).
Proof.
  apply (proj1 (proj2 (proj2 (remove_spec sample_playlist 2)))). vm_compute.
  split; discriminate.
Defined.

(** ** Fractions of a second and odd years *)

(** Below 2^34 seconds the double is near enough to the quotient:
    [int] gives the whole seconds. *)
Lemma total_seconds_int_exact d :
  0 <= total_microseconds d < 2 ^ 34 * us_per_second ->
  total_seconds_int d = total_microseconds d / us_per_second.
Proof.
  unfold total_seconds_int, us_per_second. intros Hus.
  rewrite Z.abs_eq by lia.
  set (us := total_microseconds d) in *. set (q := us / 1000000).
  assert (Hq : 0 <= q) by (apply Z.div_pos; lia).
  assert (Hq' : q < 2 ^ 34) by (apply Z.div_lt_upper_bound; lia).
  destruct (Z.eqb_spec q 0) as [E|E]; [lia|].
  assert (Hlog : Z.log2 q < 34) by (apply Z.log2_lt_pow2; lia).
  destruct (Z.ltb_spec (Z.log2 q - 52) 0) as [He|He]; [|lia].
  set (s := - (Z.log2 q - 52)).
  assert (Hs : 2 ^ 19 <= 2 ^ s) by (apply Z.pow_le_mono_r; lia).
  change (2 ^ 19) with 524288 in Hs.
  assert (Hsgn : Z.sgn us = 1).
  { apply Z.sgn_pos. destruct (Z.eq_dec us 0) as [H0|H0]; [|lia].
    exfalso. apply E. unfold q. rewrite H0. reflexivity. }
  rewrite Hsgn, Z.mul_1_l.
  pose proof (Z.div_mod us 1000000 ltac:(lia)) as Hdm.
  pose proof (Z.mod_pos_bound us 1000000 ltac:(lia)) as Hmb.
  fold q in Hdm.
  set (P := 2 ^ s) in *.
  assert (H1 : q * P <= us * P / 1000000).
  { apply Z.div_le_lower_bound; [lia|]. nia. }
  assert (Hup : us * P <= 1000000 * ((q + 1) * P) - P) by nia.
  pose proof (Z.div_mod (us * P) 1000000 ltac:(lia)) as Hdm'.
  pose proof (Z.mod_pos_bound (us * P) 1000000 ltac:(lia)) as Hmb'.
  assert (Hr : q * P <= round_div (us * P) 1000000 < (q + 1) * P).
  { unfold round_div.
    set (q' := us * P / 1000000) in *. set (r := (us * P) mod 1000000) in *.
    set (X := (q + 1) * P) in *.
    destruct (Z.ltb_spec (2 * r) 1000000); [lia|].
    destruct (Z.ltb_spec 1000000 (2 * r)); [lia|].
    destruct (Z.even q'); lia. }
  apply Z.le_antisymm.
  - apply Z.lt_succ_r. apply Z.div_lt_upper_bound; lia.
  - apply Z.div_le_lower_bound; lia.
Qed.

Lemma parse_duration_str_whole t :
  valid t ->
  parse_duration (duration_str t) = timedelta_new 0 0 (duration_seconds t).
Proof.
  intros Hv. pose proof (valid_duration_seconds t Hv) as HT.
  unfold duration_str, parse_duration, duration_seconds in *.
  set (T := total_seconds_int (duration t)) in *.
  assert (Hm : 0 <= T / 60 < 10 ^ 40)
    by (split; [apply Z.div_pos; lia | apply Z.div_lt_upper_bound; lia]).
  assert (Hs : 0 <= T mod 60 < 60) by (apply Z.mod_pos_bound; lia).
  rewrite split_digits_colon by (apply is_digits_format_0d; lia).
  rewrite split_digits by (apply is_digits_format_0d; lia).
  rewrite !int_format_0d_small by lia. rewrite !bind_Ok. unfold timedelta_new.
  replace ((0 * 3600 + T / 60 * 60 + T mod 60) * us_per_second)
    with ((0 * 3600 + 0 * 60 + T) * us_per_second)
    by (f_equal; pose proof (Z.div_mod T 60); lia).
  reflexivity.
Qed.

(** X25. For every valid track, writing it with [to_dict] and reading
    the record with [from_dict] keeps the title, artist, genre and year
    and brings the duration to the whole seconds that [duration_seconds]
    gives. A track shorter than one second, written as "00:00", is
    refused with the duration error. Below 2^34 seconds those seconds are
    the time span with the fraction of a second dropped, and the track
    comes back; beyond, the double may round the seconds up, and a track
    whose seconds leave the range of [timedelta] that way is refused with
    [OverflowError]. *)
Theorem to_dict_from_dict_truncates t :
  valid t ->
  from_dict (to_dict t)
  = (if duration_seconds t =? 0 then Raise (ValueError msg_duration)
     else if td_in_range (Timedelta (duration_seconds t * us_per_second))
          then Ok (truncate_seconds t)
          else Raise OverflowError) /\
  (total_microseconds (duration t) < 2 ^ 34 * us_per_second ->
     duration_seconds t = total_microseconds (duration t) / us_per_second /\
     (us_per_second <= total_microseconds (duration t) ->
        from_dict (to_dict t) = Ok (truncate_seconds t))).
Proof.
  intros Hv. destruct (valid_inv _ Hv) as [(Ht & Ha & Hp & Hy) Hr].
  assert (Hfirst : from_dict (to_dict t)
    = (if duration_seconds t =? 0 then Raise (ValueError msg_duration)
       else if td_in_range (Timedelta (duration_seconds t * us_per_second))
            then Ok (truncate_seconds t)
            else Raise OverflowError)).
  { unfold from_dict, to_dict.
    set (items := [("title", _); _; _; _; _]).
    replace (dict_item items "duration") with (Ok (JString (duration_str t)))
      by reflexivity.
    replace (dict_item items "title") with (Ok (JString (title t))) by reflexivity.
    replace (dict_item items "artist") with (Ok (JString (artist t))) by reflexivity.
    replace (dict_get items "genre") with (Some (JString (value (genre t))))
      by reflexivity.
    replace (dict_get items "year") with (Some (json_of_year (year t)))
      by reflexivity.
    rewrite bind_Ok, (parse_duration_str_whole t Hv). unfold timedelta_new.
    replace ((0 * 3600 + 0 * 60 + duration_seconds t) * us_per_second)
      with (duration_seconds t * us_per_second) by lia.
    pose proof (valid_duration_seconds t Hv) as HT.
    destruct (Z.eqb_spec (duration_seconds t) 0) as [E|E].
    - rewrite E. change (0 * us_per_second) with 0.
      replace (td_in_range (Timedelta 0)) with true by reflexivity.
      cbv iota. rewrite !bind_Ok. simpl default.
      change (Track_init (JString (title t)) (JString (artist t)) (Timedelta 0)
                (find_genre (JString (value (genre t)))) (json_of_year (year t)))
        with (Track_new (title t) (artist t) (Timedelta 0)
                (find_genre (JString (value (genre t)))) (year t)).
      rewrite Track_new_unfold.
      apply String.eqb_neq in Ht, Ha. rewrite Ht, Ha. reflexivity.
    - destruct (td_in_range (Timedelta (duration_seconds t * us_per_second)));
        [|reflexivity].
      cbv iota. rewrite !bind_Ok. simpl default. rewrite find_genre_value.
      change (Track_init (JString (title t)) (JString (artist t))
                (Timedelta (duration_seconds t * us_per_second)) (genre t)
                (json_of_year (year t)))
        with (Track_new (title t) (artist t)
                (Timedelta (duration_seconds t * us_per_second)) (genre t) (year t)).
      rewrite Track_new_unfold.
      apply String.eqb_neq in Ht, Ha. rewrite Ht, Ha. simpl total_microseconds.
      destruct (Z.leb_spec (duration_seconds t * us_per_second) 0) as [H|_];
        [unfold us_per_second in H; lia|].
      unfold truncate_seconds. destruct (year t) as [z|] eqn:Ez; [|reflexivity].
      apply year_check in Hy. rewrite Hy. reflexivity. }
  split; [exact Hfirst|]. intros Hsmall.
  assert (Hex : duration_seconds t = total_microseconds (duration t) / us_per_second)
    by (apply total_seconds_int_exact; lia).
  split; [exact Hex|]. intros Hone. rewrite Hfirst.
  assert (Hq : 1 <= duration_seconds t < 2 ^ 34).
  { rewrite Hex. unfold us_per_second in *. split.
    - apply Z.div_le_lower_bound; lia.
    - apply Z.div_lt_upper_bound; lia. }
  destruct (Z.eqb_spec (duration_seconds t) 0); [lia|].
  replace (td_in_range (Timedelta (duration_seconds t * us_per_second))) with true;
    [reflexivity|].
  symmetry. unfold td_in_range, td_days, us_per_day, us_per_second, max_days.
  cbn [total_microseconds]. apply andb_true_iff. rewrite !Z.leb_le.
  change (2 ^ 34) with 17179869184 in Hq. split.
  - transitivity 0; [lia|]. apply Z.div_pos; lia.
  - apply Z.div_le_upper_bound; lia.
Qed.

Lemma to_dict_from_dict_truncates_witness :
  from_dict (to_dict (mkTrack "Blip" "Nobody" (Timedelta 500000) OTHER None))
  = Raise (ValueError msg_duration) /\
  from_dict (to_dict (mkTrack "Song" "Singer" (Timedelta 65500000) OTHER None))
  = Ok (mkTrack "Song" "Singer" (Timedelta 65000000) OTHER None) /\
  from_dict (to_dict (mkTrack "Song" "Singer"
                        (Timedelta ((max_days + 1) * us_per_day - 1)) OTHER None))
  = Raise OverflowError.
Proof.
  split; [|split].
  - apply (proj1 (to_dict_from_dict_truncates
                    (mkTrack "Blip" "Nobody" (Timedelta 500000) OTHER None)
                    ltac:(split; reflexivity))).
  - apply (proj2 (proj2 (to_dict_from_dict_truncates
                    (mkTrack "Song" "Singer" (Timedelta 65500000) OTHER None)
                    ltac:(split; reflexivity)) ltac:(vm_compute; reflexivity))).
    vm_compute. discriminate.
  - apply (proj1 (to_dict_from_dict_truncates
                    (mkTrack "Song" "Singer"
                       (Timedelta ((max_days + 1) * us_per_day - 1)) OTHER None)
                    ltac:(split; reflexivity))).
Defined.

(** X26. The year of a record, the other fields being good: [null] or
    no entry gives a track without a year; an integer within 1900..2100
    is kept; an integer outside, and [true] or [false], which count as 1
    and 0, raise the year error; a string, a list or an object raises
    [TypeError]. *)
Theorem Track_init_year title artist d g y :
  code_invariants title artist d None ->
  (y = JNull -> Track_init (JString title) (JString artist) d g y
                = Ok (mkTrack title artist d g None)) /\
  (forall z, y = JInt z -> 1900 <= z <= 2100 ->
     Track_init (JString title) (JString artist) d g y
     = Ok (mkTrack title artist d g (Some z))) /\
  (forall z, y = JInt z -> ~ 1900 <= z <= 2100 ->
     Track_init (JString title) (JString artist) d g y = Raise (ValueError msg_year)) /\
  (forall b, y = JBool b ->
     Track_init (JString title) (JString artist) d g y = Raise (ValueError msg_year)) /\
  ((exists s, y = JString s) \/ (exists l, y = JList l) \/ (exists m, y = JObject m) ->
     Track_init (JString title) (JString artist) d g y = Raise TypeError).
Proof.
  intros (Ht & Ha & Hd & _). unfold Track_init, total_seconds_nonpos.
  apply String.eqb_neq in Ht, Ha. rewrite Ht, Ha.
  destruct (Z.leb_spec (total_microseconds d) 0); [lia|].
  split; [intros ->; reflexivity|]. split; [|split; [|split]].
  - intros z -> Hz. simpl. apply year_check in Hz. rewrite Hz. reflexivity.
  - intros z -> Hz. simpl. destruct ((z <? 1900) || (z >? 2100)) eqn:E; [reflexivity|].
    apply year_check in E. contradiction.
  - intros b ->. destruct b; reflexivity.
  - intros [[s ->]|[[l ->]|[m ->]]]; reflexivity.
Qed.

Lemma Track_init_year_witness :
  Track_init (JString "Song") (JString "Singer") (Timedelta us_per_second) OTHER (JBool true)
  = Raise (ValueError msg_year).
Proof.
  apply (proj1 (proj2 (proj2 (proj2
           (Track_init_year "Song" "Singer" (Timedelta us_per_second) OTHER (JBool true)
              ltac:(repeat split; try discriminate; reflexivity))))) true eq_refl).
Defined.
